(** * Accounting engine: chart of accounts, journal and reports

    A shallow embedding of the accounting core of [accounting_erp]:
    [managers/account_manager.py], [managers/journal_manager.py], the
    ledger, trial balance, balance sheet and income statement of
    [managers/report_manager.py], and the part of
    [managers/database_manager.py] they call.

    Modelling conventions.
    - Amounts are counted in hundredths (the schema's [DECIMAL(15,2)]) and
      added exactly: the amount 1000.00 is [100000] and the tolerance 0.01
      is [1].  The code adds Python floats, [Binary64].  The two agree on
      whole amounts that add up to less than 2^53: binary64 adds and
      subtracts them without rounding, in any order, and a whole difference
      is below 0.01 only when it is zero ([Binary64Facts]).  On amounts with
      hundredths a sum can depend on the order of its terms and a
      difference of 0.01 can pass for more.  So the properties that compare
      sums formed in different orders, or that decide on the tolerance, are
      stated for whole amounts ([whole_amounts], [whole_lines]).
    - A table is the list of its rows in insertion order.  The SQL of each
      query is written out as list operations: [filter] for WHERE, [flat_map]
      for JOIN, a stable insertion sort for ORDER BY, [hd_error] for LIMIT 1.
    - The store is the storage contract the managers are written against and
      the one the test-suite builds ([tests/test_journal_manager.py]): typed
      tables with AUTOINCREMENT keys and the UNIQUE constraints on [code],
      [entry_number] and [(entry_id, line_number)].  Foreign keys, the CHECK
      clauses and the triggers of [database/schema.py] are not part of it.
    - A Python exception is an [option]: [None] is a raised [DatabaseError],
      which the managers catch and turn into [False] / [None].  Every write
      transaction consumes one flag of the store's fault schedule; a [true]
      flag makes that transaction raise and roll back.
    - Dictionary rows are records; a key read with [.get(k, 0)] is a field
      holding [0] when the key is absent.  Dates and clock readings are
      natural numbers.  The audit log and attachments are not modelled, and
      the Arabic labels of report rows are given in English.
    - An optional id is [option nat]; the test [if parent_id:] is the match
      on [Some (S _)], since [None] and [0] are both false.
    - [id] is the primary key of its table: a list of rows with two equal
      ids is no state of the database, and the properties that read a row
      by its id assume the ids distinct ([NoDup]). *)

From Stdlib Require Import ZArith List String Ascii Bool Arith Lia Permutation.
From Stdlib Require Import DecimalString Sorted.
From Stdlib Require DecimalNat OrderedTypeEx SpecFloat.
Import ListNotations.

Open Scope Z_scope.
Open Scope string_scope.

(** ** Python and SQL primitives *)

Module Py.

(** [str(n)] for a non-negative integer. *)
Definition str (n : nat) : string :=
  NilZero.string_of_uint (Nat.to_uint n).

(** [int(s)] on a string of decimal digits; any other string raises. *)
Definition int (s : string) : option nat :=
  option_map Nat.of_uint (NilZero.uint_of_string s).

Fixpoint zeros (n : nat) : string :=
  match n with
  | O => EmptyString
  | S k => String "0" (zeros k)
  end.

(** [f"{n:0wd}"]: decimal, padded with zeros on the left to width [w]. *)
Definition zfill (w n : nat) : string :=
  let d := str n in
  (zeros (w - String.length d) ++ d)%string.

(** [s[-k:]]: the last [k] characters, the whole string when it is shorter. *)
Definition suffix (k : nat) (s : string) : string :=
  substring (String.length s - k) k s.

(** [s.split('-')[-1]]: what follows the last dash, [s] when it has none. *)
Fixpoint after_last_dash_aux (acc s : string) : string :=
  match s with
  | EmptyString => acc
  | String c r =>
      if Ascii.eqb c "-" then after_last_dash_aux r r
      else after_last_dash_aux acc r
  end.

Definition after_last_dash (s : string) : string :=
  after_last_dash_aux s s.

End Py.

(** Python floats are binary64 numbers: 53 bits of precision, exponents up
    to 1024, every operation rounded to nearest, ties to even. *)
Module Binary64.
Import SpecFloat.

(** The float of a whole number. *)
Definition of_whole (n : Z) : spec_float := binary_normalize 53 1024 n 0 false.

(** The float of a decimal amount given in hundredths: the binary64 number
    nearest to it, as the literal [0.10] or the value read from a row. *)
Definition of_amount (hundredths : Z) : spec_float :=
  SFdiv 53 1024 (of_whole hundredths) (of_whole 100).

Definition add : spec_float -> spec_float -> spec_float := SFadd 53 1024.
Definition sub : spec_float -> spec_float -> spec_float := SFsub 53 1024.
Definition abs : spec_float -> spec_float := SFabs.
Definition ltb : spec_float -> spec_float -> bool := SFltb.

(** The float of the whole number [n], with sign [s]: a mantissa of 53
    bits. *)
Definition canon (s : bool) (n : positive) : spec_float :=
  S754_finite s (Z.to_pos (Zpos n * 2 ^ (53 - Zpos (digits2_pos n))))
    (Zpos (digits2_pos n) - 53).

End Binary64.

Module Sql.

Section OrderBy.
Context {A : Type} (le : A -> A -> bool).

(** Insertion before the first row that is not smaller. *)
Fixpoint insert_row (x : A) (l : list A) : list A :=
  match l with
  | [] => [x]
  | y :: r => if le x y then x :: y :: r else y :: insert_row x r
  end.

(** ORDER BY: rows that compare equal keep the order they came in. *)
Fixpoint order_by (l : list A) : list A :=
  match l with
  | [] => []
  | x :: r => insert_row x (order_by r)
  end.
End OrderBy.

(** [SUM(col)] with [COALESCE(..., 0)] / [or 0]. *)
Definition sum {A : Type} (col : A -> Z) (rows : list A) : Z :=
  fold_right (fun r acc => col r + acc) 0 rows.

End Sql.

(** ** Data model (the tables of the schema) *)

Inductive AccountType := general | assistant | analytic.
Inductive AccountCategory := asset | liability | expense | revenue | equity.
Inductive EntryStatus := draft | posted | approved.

Definition AccountType_eqb (x y : AccountType) : bool :=
  match x, y with
  | general, general | assistant, assistant | analytic, analytic => true
  | _, _ => false
  end.

Definition EntryStatus_eqb (x y : EntryStatus) : bool :=
  match x, y with
  | draft, draft | posted, posted | approved, approved => true
  | _, _ => false
  end.

(** [account_type in ['general', 'assistant', 'analytic']]. *)
Definition parse_account_type (s : string) : option AccountType :=
  if s =? "general" then Some general
  else if s =? "assistant" then Some assistant
  else if s =? "analytic" then Some analytic
  else None.

(** [account_category in ['asset', 'liability', 'expense', 'revenue', 'equity']]. *)
Definition parse_account_category (s : string) : option AccountCategory :=
  if s =? "asset" then Some asset
  else if s =? "liability" then Some liability
  else if s =? "expense" then Some expense
  else if s =? "revenue" then Some revenue
  else if s =? "equity" then Some equity
  else None.

(** [account_category in ['asset', 'expense']]. *)
Definition debit_normal (c : AccountCategory) : bool :=
  match c with
  | asset | expense => true
  | liability | revenue | equity => false
  end.

Module Account.
Record t := mk {
  id : nat;
  parent_id : option nat;
  code : string;
  name_ar : string;
  name_en : string;
  account_type : AccountType;
  account_category : AccountCategory;
  level : nat;
  full_path : string;
  is_active : bool;
  opening_balance : Z;
  current_balance : Z;
  created_by : option nat
}.

Definition set_current_balance (v : Z) (a : t) : t :=
  mk (id a) (parent_id a) (code a) (name_ar a) (name_en a) (account_type a)
     (account_category a) (level a) (full_path a) (is_active a)
     (opening_balance a) v (created_by a).
End Account.

Module FiscalYear.
Record t := mk {
  id : nat;
  name : string;
  start_date : nat;
  end_date : nat;
  is_active : bool
}.
End FiscalYear.

Module JournalEntry.
Record t := mk {
  id : nat;
  entry_number : string;
  date : nat;
  description : string;
  fiscal_year_id : nat;
  total_debit : Z;
  total_credit : Z;
  status : EntryStatus;
  posted_at : option nat;
  posted_by : option nat;
  approved_at : option nat;
  approved_by : option nat;
  created_by : option nat;
  updated_by : option nat
}.
End JournalEntry.

Module JournalLine.
Record t := mk {
  id : nat;
  entry_id : nat;
  account_id : nat;
  line_number : nat;
  description : string;
  debit : Z;
  credit : Z;
  created_by : option nat
}.
End JournalLine.

(** The database: the tables, the AUTOINCREMENT counters and the fault
    schedule of the storage ([true]: the next write transaction raises). *)
Record Store := mkStore {
  accounts : list Account.t;
  fiscal_years : list FiscalYear.t;
  journal_entries : list JournalEntry.t;
  journal_lines : list JournalLine.t;
  seq_accounts : nat;
  seq_journal_entries : nat;
  seq_journal_lines : nat;
  faults : list bool
}.

Definition with_accounts (v : list Account.t) (s : Store) : Store :=
  mkStore v (fiscal_years s) (journal_entries s) (journal_lines s)
          (seq_accounts s) (seq_journal_entries s) (seq_journal_lines s) (faults s).

Definition with_journal_entries (v : list JournalEntry.t) (s : Store) : Store :=
  mkStore (accounts s) (fiscal_years s) v (journal_lines s)
          (seq_accounts s) (seq_journal_entries s) (seq_journal_lines s) (faults s).

Definition with_faults (v : list bool) (s : Store) : Store :=
  mkStore (accounts s) (fiscal_years s) (journal_entries s) (journal_lines s)
          (seq_accounts s) (seq_journal_entries s) (seq_journal_lines s) v.

(** A database holding only fiscal years, with fault schedule [fs]. *)
Definition new_store (fys : list FiscalYear.t) (fs : list bool) : Store :=
  mkStore [] fys [] [] 0 0 0 fs.

(** A journal line as [create_entry] receives it (a dict): ['account_id']
    may be absent; ['debit'], ['credit'] and ['description'] are read with
    [.get], so an absent key is its default. *)
Module LineDict.
Record t := mk {
  account_id : option nat;
  description : string;
  debit : Z;
  credit : Z
}.
End LineDict.

(** One [column = value] of the [**kwargs] of [update_entry]; a keyword
    that is no column of [journal_entries] is [col_unknown]. *)
Inductive EntryColumn :=
| col_entry_number (v : string)
| col_date (v : nat)
| col_description (v : string)
| col_fiscal_year_id (v : nat)
| col_total_debit (v : Z)
| col_total_credit (v : Z)
| col_status (v : EntryStatus)
| col_posted_at (v : option nat)
| col_posted_by (v : option nat)
| col_approved_at (v : option nat)
| col_approved_by (v : option nat)
| col_created_by (v : option nat)
| col_updated_by (v : option nat)
| col_unknown (name : string).

(** One [column = value] of the [**kwargs] of [update_account], typed as
    the column is.  [updated_by] is a column the record of an account does
    not carry: it is accepted and not stored.  A keyword that is no column
    of [accounts] is [acc_unknown]; the keywords [id], [created_at] and
    [updated_at] are outside the model. *)
Inductive AccountColumn :=
| acc_parent_id (v : option nat)
| acc_code (v : string)
| acc_name_ar (v : string)
| acc_name_en (v : string)
| acc_account_type (v : AccountType)
| acc_account_category (v : AccountCategory)
| acc_level (v : nat)
| acc_full_path (v : string)
| acc_is_active (v : bool)
| acc_opening_balance (v : Z)
| acc_current_balance (v : Z)
| acc_created_by (v : option nat)
| acc_updated_by (v : option nat)
| acc_unknown (name : string).

(** The dict of [get_account_balance]. *)
Module AccountBalance.
Record t := mk {
  opening_balance : Z;
  current_balance : Z;
  period_debit : Z;
  period_credit : Z
}.
End AccountBalance.

(** ** database_manager.py *)

Module DatabaseManager.

Definition next_fault (s : Store) : bool * Store :=
  match faults s with
  | [] => (false, s)
  | f :: fs => (f, with_faults fs s)
  end.

(** [with self.transaction() as conn: body]: BEGIN, the body, COMMIT; an
    exception rolls back and is re-raised as [DatabaseError]. *)
Definition transaction {A : Type} (body : Store -> option (A * Store))
    (s : Store) : option A * Store :=
  let (f, s0) := next_fault s in
  if f then (None, s0)
  else match body s0 with
       | Some (a, s1) => (Some a, s1)
       | None => (None, s0)
       end.

(** The rowid an AUTOINCREMENT key gives the next row. *)
Definition next_rowid (seq : nat) (ids : list nat) : nat :=
  S (Nat.max seq (list_max ids)).

(** [get_record_by_id("accounts", id)] *)
Definition get_account (s : Store) (id : nat) : option Account.t :=
  find (fun a => Nat.eqb (Account.id a) id) (accounts s).

(** [get_record_by_id("fiscal_years", id)] *)
Definition get_fiscal_year (s : Store) (id : nat) : option FiscalYear.t :=
  find (fun f => Nat.eqb (FiscalYear.id f) id) (fiscal_years s).

Definition set_account_id (i : nat) (a : Account.t) : Account.t :=
  Account.mk i (Account.parent_id a) (Account.code a) (Account.name_ar a)
    (Account.name_en a) (Account.account_type a) (Account.account_category a)
    (Account.level a) (Account.full_path a) (Account.is_active a)
    (Account.opening_balance a) (Account.current_balance a)
    (Account.created_by a).

(** [insert_record("accounts", data)]; the [id] of [data] is not read.
    [code] is UNIQUE. *)
Definition insert_account (data : Account.t) (s : Store)
    : option nat * Store :=
  transaction (fun s0 =>
    if existsb (fun a => Account.code a =? Account.code data) (accounts s0)
    then None
    else
      let rowid := next_rowid (seq_accounts s0) (map Account.id (accounts s0)) in
      Some (rowid,
            mkStore (accounts s0 ++ [set_account_id rowid data])
              (fiscal_years s0) (journal_entries s0) (journal_lines s0)
              rowid (seq_journal_entries s0) (seq_journal_lines s0)
              (faults s0))) s.

Definition count_rows {A : Type} (p : A -> bool) (rows : list A) : nat :=
  List.length (filter p rows).

(** [update_record("accounts", {"current_balance": v}, "id = ?", (id,))];
    the result is the number of rows changed. *)
Definition update_account_balance (id : nat) (v : Z) (s : Store)
    : option nat * Store :=
  transaction (fun s0 =>
    Some (count_rows (fun a => Nat.eqb (Account.id a) id) (accounts s0),
          with_accounts
            (map (fun a => if Nat.eqb (Account.id a) id
                           then Account.set_current_balance v a else a)
                 (accounts s0)) s0)) s.

(** [delete_record("accounts", "id = ?", (id,))] *)
Definition delete_account (id : nat) (s : Store) : option nat * Store :=
  transaction (fun s0 =>
    Some (count_rows (fun a => Nat.eqb (Account.id a) id) (accounts s0),
          with_accounts
            (filter (fun a => negb (Nat.eqb (Account.id a) id)) (accounts s0))
            s0)) s.

(** One [SET column = ?]. *)
Definition assign (e : JournalEntry.t) (c : EntryColumn) : JournalEntry.t :=
  let '(JournalEntry.mk i num d desc fy td tc st pat pby aat aby cby uby) := e in
  match c with
  | col_entry_number v => JournalEntry.mk i v d desc fy td tc st pat pby aat aby cby uby
  | col_date v => JournalEntry.mk i num v desc fy td tc st pat pby aat aby cby uby
  | col_description v => JournalEntry.mk i num d v fy td tc st pat pby aat aby cby uby
  | col_fiscal_year_id v => JournalEntry.mk i num d desc v td tc st pat pby aat aby cby uby
  | col_total_debit v => JournalEntry.mk i num d desc fy v tc st pat pby aat aby cby uby
  | col_total_credit v => JournalEntry.mk i num d desc fy td v st pat pby aat aby cby uby
  | col_status v => JournalEntry.mk i num d desc fy td tc v pat pby aat aby cby uby
  | col_posted_at v => JournalEntry.mk i num d desc fy td tc st v pby aat aby cby uby
  | col_posted_by v => JournalEntry.mk i num d desc fy td tc st pat v aat aby cby uby
  | col_approved_at v => JournalEntry.mk i num d desc fy td tc st pat pby v aby cby uby
  | col_approved_by v => JournalEntry.mk i num d desc fy td tc st pat pby aat v cby uby
  | col_created_by v => JournalEntry.mk i num d desc fy td tc st pat pby aat aby v uby
  | col_updated_by v => JournalEntry.mk i num d desc fy td tc st pat pby aat aby cby v
  | col_unknown _ => e
  end.

Definition is_unknown (c : EntryColumn) : bool :=
  match c with col_unknown _ => true | _ => false end.

Definition sets_entry_number (c : EntryColumn) : bool :=
  match c with col_entry_number _ => true | _ => false end.

Definition update_rows (data : list EntryColumn) (id : nat)
    (rows : list JournalEntry.t) : list JournalEntry.t :=
  map (fun e => if Nat.eqb (JournalEntry.id e) id
                then fold_left assign data e else e) rows.

(** UNIQUE(entry_number) over the rows an UPDATE rewrote. *)
Definition entry_numbers_unique (id : nat) (rows : list JournalEntry.t) : bool :=
  forallb (fun e =>
    negb (Nat.eqb (JournalEntry.id e) id) ||
    Nat.leb (count_rows (fun e' => JournalEntry.entry_number e' =?
                                    JournalEntry.entry_number e) rows) 1)
    rows.

(** [update_record("journal_entries", data, "id = ?", (id,))].  An empty
    [data] leaves [SET] nothing to set and a keyword that is no column
    cannot be prepared: both are SQL errors. *)
Definition update_journal_entry (data : list EntryColumn) (id : nat)
    (s : Store) : option nat * Store :=
  transaction (fun s0 =>
    match data with
    | [] => None
    | _ :: _ =>
        let rows := update_rows data id (journal_entries s0) in
        if existsb is_unknown data then None
        else if existsb sets_entry_number data
                && negb (entry_numbers_unique id rows)
        then None
        else Some (count_rows (fun e => Nat.eqb (JournalEntry.id e) id)
                              (journal_entries s0),
                   with_journal_entries rows s0)
    end) s.

(** One [SET column = ?] on an account. *)
Definition assign_account (a : Account.t) (c : AccountColumn) : Account.t :=
  let '(Account.mk i p code nar nen ty cat lv path act ob cb cby) := a in
  match c with
  | acc_parent_id v => Account.mk i v code nar nen ty cat lv path act ob cb cby
  | acc_code v => Account.mk i p v nar nen ty cat lv path act ob cb cby
  | acc_name_ar v => Account.mk i p code v nen ty cat lv path act ob cb cby
  | acc_name_en v => Account.mk i p code nar v ty cat lv path act ob cb cby
  | acc_account_type v => Account.mk i p code nar nen v cat lv path act ob cb cby
  | acc_account_category v => Account.mk i p code nar nen ty v lv path act ob cb cby
  | acc_level v => Account.mk i p code nar nen ty cat v path act ob cb cby
  | acc_full_path v => Account.mk i p code nar nen ty cat lv v act ob cb cby
  | acc_is_active v => Account.mk i p code nar nen ty cat lv path v ob cb cby
  | acc_opening_balance v => Account.mk i p code nar nen ty cat lv path act v cb cby
  | acc_current_balance v => Account.mk i p code nar nen ty cat lv path act ob v cby
  | acc_created_by v => Account.mk i p code nar nen ty cat lv path act ob cb v
  | acc_updated_by _ => a
  | acc_unknown _ => a
  end.

Definition is_unknown_account_column (c : AccountColumn) : bool :=
  match c with acc_unknown _ => true | _ => false end.

Definition sets_code (c : AccountColumn) : bool :=
  match c with acc_code _ => true | _ => false end.

Definition update_account_rows (data : list AccountColumn) (id : nat)
    (rows : list Account.t) : list Account.t :=
  map (fun a => if Nat.eqb (Account.id a) id
                then fold_left assign_account data a else a) rows.

(** UNIQUE(code) over the rows an UPDATE rewrote. *)
Definition account_codes_unique (id : nat) (rows : list Account.t) : bool :=
  forallb (fun a =>
    negb (Nat.eqb (Account.id a) id) ||
    Nat.leb (count_rows (fun a' => Account.code a' =? Account.code a) rows) 1)
    rows.

(** [update_record("accounts", data, "id = ?", (id,))]; as for an entry, an
    empty [data] and a keyword that is no column are SQL errors. *)
Definition update_account (data : list AccountColumn) (id : nat)
    (s : Store) : option nat * Store :=
  transaction (fun s0 =>
    match data with
    | [] => None
    | _ :: _ =>
        let rows := update_account_rows data id (accounts s0) in
        if existsb is_unknown_account_column data then None
        else if existsb sets_code data && negb (account_codes_unique id rows)
        then None
        else Some (count_rows (fun a => Nat.eqb (Account.id a) id) (accounts s0),
                   with_accounts rows s0)
    end) s.

End DatabaseManager.

Definition is_null_type (x : option AccountType) : bool :=
  match x with Some _ => false | None => true end.

Definition is_null_category (x : option AccountCategory) : bool :=
  match x with Some _ => false | None => true end.

(** ** account_manager.py *)

Module AccountManager.

Definition get_account_by_id (s : Store) (account_id : nat)
    : option Account.t :=
  find (fun a => Nat.eqb (Account.id a) account_id) (accounts s).

Definition option_nat_eqb (x : option nat) (n : nat) : bool :=
  match x with
  | Some m => Nat.eqb m n
  | None => false
  end.

Definition is_null (x : option nat) : bool :=
  match x with
  | Some _ => false
  | None => true
  end.

(** [ORDER BY code] compares the codes as text. *)
Definition code_le (a b : Account.t) : bool :=
  String.leb (Account.code a) (Account.code b).

Definition code_ge (a b : Account.t) : bool :=
  String.leb (Account.code b) (Account.code a).

(** [get_child_accounts(parent_id)] with [include_inactive=False]. *)
Definition get_child_accounts (s : Store) (parent_id : nat)
    : list Account.t :=
  Sql.order_by code_le
    (filter (fun a => option_nat_eqb (Account.parent_id a) parent_id
                      && Account.is_active a)
            (accounts s)).

Definition validate_account_hierarchy (s : Store) (parent_id : nat)
    (account_type : string) : bool :=
  match get_account_by_id s parent_id with
  | None => false
  | Some parent_account =>
      let parent_type := Account.account_type parent_account in
      if AccountType_eqb parent_type analytic then false
      else if AccountType_eqb parent_type assistant
              && negb (account_type =? "analytic")
      then false
      else if Nat.leb 9 (Account.level parent_account) then false
      else true
  end.

Definition _validate_name_uniqueness (s : Store) (parent_id : option nat)
    (name_ar : string) : bool :=
  let existing :=
    match parent_id with
    | Some (S _ as p) =>
        find (fun a => option_nat_eqb (Account.parent_id a) p
                       && (Account.name_ar a =? name_ar)
                       && Account.is_active a) (accounts s)
    | _ =>
        find (fun a => is_null (Account.parent_id a)
                       && (Account.name_ar a =? name_ar)
                       && Account.is_active a) (accounts s)
    end in
  match existing with
  | None => true
  | Some _ => false
  end.

Definition _validate_account_inputs (s : Store) (parent_id : option nat)
    (name_ar name_en account_type account_category : string) : bool :=
  if (name_ar =? "") || (name_en =? "") then false
  else if is_null_type (parse_account_type account_type) then false
  else if is_null_category (parse_account_category account_category) then false
  else
    let hierarchy_ok :=
      match parent_id with
      | Some (S _ as p) =>
          match get_account_by_id s p with
          | None => false
          | Some _ => validate_account_hierarchy s p account_type
          end
      | _ => true
      end in
    if negb hierarchy_ok then false
    else _validate_name_uniqueness s parent_id name_ar.

Definition generate_account_code (s : Store) (parent_id : option nat)
    : option string :=
  match parent_id with
  | Some (S _ as p) =>
      match get_account_by_id s p with
      | None => None
      | Some parent_account =>
          let parent_code := Account.code parent_account in
          let parent_level := Account.level parent_account in
          let last_child :=
            hd_error
              (Sql.order_by code_ge
                 (filter (fun a => option_nat_eqb (Account.parent_id a) p
                                   && Account.is_active a)
                         (accounts s))) in
          let new_number :=
            match last_child with
            | Some c => option_map (fun last_number => (last_number + 1)%nat)
                          (Py.int (Py.suffix 2 (Account.code c)))
            | None => Some 1%nat
            end in
          match new_number with
          | None => None
          | Some new_number =>
              let new_code :=
                if Nat.eqb parent_level 0 then Py.str new_number
                else parent_code ++ Py.zfill 2 new_number in
              if Nat.ltb 99 new_number then None else Some new_code
          end
      end
  | _ =>
      let last_root :=
        hd_error
          (Sql.order_by code_ge
             (filter (fun a => is_null (Account.parent_id a)
                               && Account.is_active a)
                     (accounts s))) in
      match last_root with
      | Some r => option_map (fun last_code => Py.str (last_code + 1))
                    (Py.int (Account.code r))
      | None => Some "1"
      end
  end.

Definition _get_account_level (s : Store) (parent_id : option nat) : nat :=
  match parent_id with
  | Some (S _ as p) =>
      match get_account_by_id s p with
      | Some parent_account => (Account.level parent_account + 1)%nat
      | None => 1%nat
      end
  | _ => 1%nat
  end.

Definition _generate_full_path (s : Store) (parent_id : option nat)
    (name_ar : string) : string :=
  match parent_id with
  | Some (S _ as p) =>
      match get_account_by_id s p with
      | Some parent_account =>
          if Account.full_path parent_account =? "" then name_ar
          else Account.full_path parent_account ++ " > " ++ name_ar
      | None => name_ar
      end
  | _ => name_ar
  end.

Definition add_account (s : Store) (parent_id : option nat)
    (name_ar name_en account_type account_category : string)
    (opening_balance : Z) (created_by : option nat) : option nat * Store :=
  if negb (_validate_account_inputs s parent_id name_ar name_en
             account_type account_category)
  then (None, s)
  else
    match generate_account_code s parent_id,
          parse_account_type account_type,
          parse_account_category account_category with
    | Some code, Some ty, Some category =>
        if code =? "" then (None, s)
        else
          let level := _get_account_level s parent_id in
          let full_path := _generate_full_path s parent_id name_ar in
          DatabaseManager.insert_account
            (Account.mk 0 parent_id code name_ar name_en ty category level
               full_path true opening_balance opening_balance created_by) s
    | _, _, _ => (None, s)
    end.

Definition _has_journal_entries (s : Store) (account_id : nat) : bool :=
  Nat.ltb 0
    (DatabaseManager.count_rows
       (fun jl => Nat.eqb (JournalLine.account_id jl) account_id)
       (journal_lines s)).

Definition _validate_account_deletion (s : Store) (account_id : nat) : bool :=
  match get_child_accounts s account_id with
  | _ :: _ => false
  | [] => negb (_has_journal_entries s account_id)
  end.

(** [delete_account(account_id, force)].  [depth] is the room left on the
    Python call stack: the call that finds none raises [RecursionError],
    which its own [except] turns into [False]. *)
Fixpoint delete_account (depth : nat) (s : Store) (account_id : nat)
    (force : bool) : bool * Store :=
  match depth with
  | O => (false, s)
  | S depth' =>
      match get_account_by_id s account_id with
      | None => (false, s)
      | Some account =>
          if negb force && negb (_validate_account_deletion s account_id)
          then (false, s)
          else if _has_journal_entries s account_id && negb force
          then (false, s)
          else
            let s1 :=
              if force
              then fold_left
                     (fun st child =>
                        snd (delete_account depth' st (Account.id child) true))
                     (get_child_accounts s account_id) s
              else s in
            match DatabaseManager.delete_account account_id s1 with
            | (None, s2) => (false, s2)
            | (Some affected_rows, s2) => (Nat.ltb 0 affected_rows, s2)
            end
      end
  end.

(** ['parent_id' in update_data] *)
Definition has_parent_id (data : list AccountColumn) : bool :=
  existsb (fun c => match c with acc_parent_id _ => true | _ => false end) data.

(** [update_data['name_ar']] when the key is present (the last one given). *)
Definition lookup_name_ar (data : list AccountColumn) : option string :=
  fold_left (fun acc c => match c with acc_name_ar v => Some v | _ => acc end)
            data None.

Definition _validate_update_data (s : Store) (account_id : nat)
    (update_data : list AccountColumn) : bool :=
  if has_parent_id update_data
     && negb (Nat.eqb (List.length (get_child_accounts s account_id)) 0)
  then false
  else
    match lookup_name_ar update_data with
    | None => true
    | Some name_ar =>
        match get_account_by_id s account_id with
        | None => true
        | Some account =>
            _validate_name_uniqueness s (Account.parent_id account) name_ar
        end
    end.

(** [_update_account_full_path(account_id)]: the path of the account, then
    of its active children, each written in a transaction of its own.  A
    write that raises is caught by the call it happens in, which then leaves
    its children as they are.  [depth] is the room left on the call stack,
    as for [delete_account]. *)
Fixpoint _update_account_full_path (depth : nat) (s : Store) (account_id : nat)
    : Store :=
  match depth with
  | O => s
  | S depth' =>
      match get_account_by_id s account_id with
      | None => s
      | Some account =>
          let new_path :=
            _generate_full_path s (Account.parent_id account)
              (Account.name_ar account) in
          match DatabaseManager.update_account [acc_full_path new_path]
                  account_id s with
          | (None, s1) => s1
          | (Some _, s1) =>
              fold_left
                (fun st child =>
                   _update_account_full_path depth' st (Account.id child))
                (get_child_accounts s1 account_id) s1
          end
      end
  end.

(** [update_account(account_id, **kwargs)] *)
Definition update_account (depth : nat) (s : Store) (account_id : nat)
    (kwargs : list AccountColumn) : bool * Store :=
  match get_account_by_id s account_id with
  | None => (false, s)
  | Some current_data =>
      if negb (_validate_update_data s account_id kwargs) then (false, s)
      else
        match DatabaseManager.update_account kwargs account_id s with
        | (None, s') => (false, s')
        | (Some affected_rows, s') =>
            if Nat.ltb 0 affected_rows
            then (true,
                  match lookup_name_ar kwargs with
                  | Some _ => _update_account_full_path depth s' account_id
                  | None => s'
                  end)
            else (false, s')
        end
  end.

(** [get_account_balance(account_id, as_of_date)]: the balance recomputed
    from the lines of the posted entries, [journal_lines jl JOIN
    journal_entries je ON jl.entry_id = je.id WHERE jl.account_id = ? AND
    je.status = 'posted'], up to [as_of_date] when one is given. *)
Definition get_account_balance (s : Store) (account_id : nat)
    (as_of_date : option nat) : AccountBalance.t :=
  match get_account_by_id s account_id with
  | None => AccountBalance.mk 0 0 0 0
  | Some account =>
      let rows :=
        flat_map
          (fun jl =>
             map (pair jl)
               (filter (fun je =>
                          Nat.eqb (JournalLine.entry_id jl) (JournalEntry.id je)
                          && EntryStatus_eqb (JournalEntry.status je) posted
                          && match as_of_date with
                             | Some d => Nat.leb (JournalEntry.date je) d
                             | None => true
                             end)
                       (journal_entries s)))
          (filter (fun jl => Nat.eqb (JournalLine.account_id jl) account_id)
                  (journal_lines s)) in
      let total_debit :=
        Sql.sum (fun r => if Z.gtb (JournalLine.debit (fst r)) 0
                          then JournalLine.debit (fst r) else 0) rows in
      let total_credit :=
        Sql.sum (fun r => if Z.gtb (JournalLine.credit (fst r)) 0
                          then JournalLine.credit (fst r) else 0) rows in
      let opening_balance := Account.opening_balance account in
      let current_balance :=
        if debit_normal (Account.account_category account)
        then opening_balance + total_debit - total_credit
        else opening_balance - total_debit + total_credit in
      AccountBalance.mk opening_balance current_balance total_debit total_credit
  end.

End AccountManager.

(** ** journal_manager.py *)

(** The [error] of a line's validation result. *)
Inductive LineError :=
| account_id_required
| account_not_found (account_id : nat)
| account_not_active
| negative_amount
| both_debit_and_credit
| neither_debit_nor_credit.

(** The [{"valid": ..., "error": ...}] of [validate_entry]. *)
Inductive Validation (E : Type) :=
| valid
| invalid (error : E).
Arguments valid {E}.
Arguments invalid {E} error.

Inductive EntryError :=
| too_few_lines
| not_balanced (debit credit : Z)
| line_error (line_no : nat) (error : LineError).

(** The tolerance [0.01] of [validate_entry], in hundredths. *)
Definition tolerance : Z := 1.

Module JournalManager.

(** Row of [get_entry_details]: the LEFT JOINs only add display names. *)
Definition get_entry_details (s : Store) (entry_id : nat)
    : option JournalEntry.t :=
  find (fun e => Nat.eqb (JournalEntry.id e) entry_id) (journal_entries s).

(** [get_entry_lines]: [journal_lines JOIN accounts ... WHERE entry_id = ?
    ORDER BY line_number]; a row is the line with its account. *)
Definition get_entry_lines (s : Store) (entry_id : nat)
    : list (JournalLine.t * Account.t) :=
  Sql.order_by
    (fun r1 r2 => Nat.leb (JournalLine.line_number (fst r1))
                          (JournalLine.line_number (fst r2)))
    (flat_map
       (fun jl =>
          map (pair jl)
              (filter (fun a => Nat.eqb (JournalLine.account_id jl) (Account.id a))
                      (accounts s)))
       (filter (fun jl => Nat.eqb (JournalLine.entry_id jl) entry_id)
               (journal_lines s))).

Definition _validate_journal_line (s : Store) (line : LineDict.t)
    : Validation LineError :=
  match LineDict.account_id line with
  | None => invalid account_id_required
  | Some account_id =>
      match DatabaseManager.get_account s account_id with
      | None => invalid (account_not_found account_id)
      | Some account =>
          if negb (Account.is_active account) then invalid account_not_active
          else
            let debit := LineDict.debit line in
            let credit := LineDict.credit line in
            if Z.ltb debit 0 || Z.ltb credit 0 then invalid negative_amount
            else if Z.gtb debit 0 && Z.gtb credit 0
                 then invalid both_debit_and_credit
            else if Z.eqb debit 0 && Z.eqb credit 0
                 then invalid neither_debit_nor_credit
            else valid
      end
  end.

(** [{"debit": total_debit, "credit": total_credit}] as a pair. *)
Definition _calculate_entry_totals (lines : list LineDict.t) : Z * Z :=
  fold_left
    (fun totals line =>
       (fst totals + LineDict.debit line, snd totals + LineDict.credit line))
    lines (0, 0).

(** The loop [for i, line in enumerate(lines)] of [validate_entry]. *)
Fixpoint validate_lines (s : Store) (i : nat) (lines : list LineDict.t)
    : Validation EntryError :=
  match lines with
  | [] => valid
  | line :: rest =>
      match _validate_journal_line s line with
      | invalid e => invalid (line_error (i + 1) e)
      | valid => validate_lines s (S i) rest
      end
  end.

Definition validate_entry (s : Store) (lines : list LineDict.t)
    : Validation EntryError :=
  if Nat.ltb (List.length lines) 2 then invalid too_few_lines
  else
    let totals := _calculate_entry_totals lines in
    if Z.gtb (Z.abs (fst totals - snd totals)) tolerance
    then invalid (not_balanced (fst totals) (snd totals))
    else validate_lines s 0 lines.

(** [generate_entry_number]: the row with the greatest id of the fiscal
    year ([ORDER BY id DESC LIMIT 1]); [now] is [time.time()], read only
    when the last number has no decimal suffix. *)
Definition generate_entry_number (s : Store) (fiscal_year_id now : nat)
    : string :=
  let last_entry :=
    hd_error
      (Sql.order_by
         (fun e1 e2 => Nat.leb (JournalEntry.id e2) (JournalEntry.id e1))
         (filter (fun e => Nat.eqb (JournalEntry.fiscal_year_id e) fiscal_year_id)
                 (journal_entries s))) in
  match last_entry with
  | Some e =>
      match Py.int (Py.after_last_dash (JournalEntry.entry_number e)) with
      | Some last_number => "JE-" ++ Py.zfill 6 (last_number + 1)
      | None => "JE-" ++ Py.str now
      end
  | None => "JE-" ++ Py.zfill 6 1
  end.

(** The INSERTs of the lines, [for i, line in enumerate(lines, 1)]. *)
Fixpoint insert_lines (entry_id : nat) (created_by : option nat) (i : nat)
    (lines : list LineDict.t) (s : Store) : option Store :=
  match lines with
  | [] => Some s
  | line :: rest =>
      match LineDict.account_id line with
      | None => None
      | Some account_id =>
          if existsb (fun jl => Nat.eqb (JournalLine.entry_id jl) entry_id
                                && Nat.eqb (JournalLine.line_number jl) i)
                     (journal_lines s)
          then None
          else
            let rowid := DatabaseManager.next_rowid (seq_journal_lines s)
                           (map JournalLine.id (journal_lines s)) in
            insert_lines entry_id created_by (S i) rest
              (mkStore (accounts s) (fiscal_years s) (journal_entries s)
                 (journal_lines s ++
                  [JournalLine.mk rowid entry_id account_id i
                     (LineDict.description line) (LineDict.debit line)
                     (LineDict.credit line) created_by])
                 (seq_accounts s) (seq_journal_entries s) rowid (faults s))
      end
  end.

(** The INSERT of the entry; [entry_number] is UNIQUE. *)
Definition insert_entry (e : JournalEntry.t) (s : Store)
    : option (nat * Store) :=
  if existsb (fun e' => JournalEntry.entry_number e' =? JournalEntry.entry_number e)
             (journal_entries s)
  then None
  else
    let rowid := DatabaseManager.next_rowid (seq_journal_entries s)
                   (map JournalEntry.id (journal_entries s)) in
    Some (rowid,
          mkStore (accounts s) (fiscal_years s)
            (journal_entries s ++
             [JournalEntry.mk rowid (JournalEntry.entry_number e)
                (JournalEntry.date e) (JournalEntry.description e)
                (JournalEntry.fiscal_year_id e) (JournalEntry.total_debit e)
                (JournalEntry.total_credit e) (JournalEntry.status e)
                None None None None (JournalEntry.created_by e) None])
            (journal_lines s) (seq_accounts s) rowid (seq_journal_lines s)
            (faults s)).

(** [create_entry(entry_date, description, lines, fiscal_year_id,
    created_by)] without attachments. *)
Definition create_entry (s : Store) (entry_date : nat) (description : string)
    (lines : list LineDict.t) (fiscal_year_id : nat)
    (created_by : option nat) (now : nat) : option nat * Store :=
  match validate_entry s lines with
  | invalid _ => (None, s)
  | valid =>
      let entry_number := generate_entry_number s fiscal_year_id now in
      let totals := _calculate_entry_totals lines in
      DatabaseManager.transaction (fun s0 =>
        match insert_entry
                (JournalEntry.mk 0 entry_number entry_date description
                   fiscal_year_id (fst totals) (snd totals) draft
                   None None None None created_by None) s0 with
        | None => None
        | Some (entry_id, s1) =>
            match insert_lines entry_id created_by 1 lines s1 with
            | None => None
            | Some s2 => Some (entry_id, s2)
            end
        end) s
  end.

(** ['fiscal_year_id' in update_data] *)
Definition has_fiscal_year_id (data : list EntryColumn) : bool :=
  existsb (fun c => match c with col_fiscal_year_id _ => true | _ => false end)
          data.

(** [update_data['date']] when the key is present (the last one given). *)
Definition lookup_date (data : list EntryColumn) : option nat :=
  fold_left (fun acc c => match c with col_date v => Some v | _ => acc end)
            data None.

Definition _validate_entry_update (s : Store) (entry_id : nat)
    (update_data : list EntryColumn) : bool :=
  if has_fiscal_year_id update_data
     && negb (Nat.eqb (List.length (get_entry_lines s entry_id)) 0)
  then false
  else
    match lookup_date update_data with
    | None => true
    | Some date =>
        match get_entry_details s entry_id with
        | None => true
        | Some entry =>
            match DatabaseManager.get_fiscal_year s
                    (JournalEntry.fiscal_year_id entry) with
            | None => true
            | Some fiscal_year =>
                Nat.leb (FiscalYear.start_date fiscal_year) date
                && Nat.leb date (FiscalYear.end_date fiscal_year)
            end
        end
    end.

(** [status in ['posted', 'approved']] *)
Definition posted_or_approved (st : EntryStatus) : bool :=
  match st with
  | draft => false
  | posted | approved => true
  end.

Definition update_entry (s : Store) (entry_id : nat)
    (kwargs : list EntryColumn) : bool * Store :=
  match get_entry_details s entry_id with
  | None => (false, s)
  | Some current_data =>
      if posted_or_approved (JournalEntry.status current_data) then (false, s)
      else if negb (_validate_entry_update s entry_id kwargs) then (false, s)
      else
        match DatabaseManager.update_journal_entry kwargs entry_id s with
        | (None, s') => (false, s')
        | (Some affected_rows, s') => (Nat.ltb 0 affected_rows, s')
        end
  end.

(** [delete_entry]: the lines, then the entry, in one transaction. *)
Definition delete_entry (s : Store) (entry_id : nat) : bool * Store :=
  match get_entry_details s entry_id with
  | None => (false, s)
  | Some entry =>
      if posted_or_approved (JournalEntry.status entry) then (false, s)
      else
        match DatabaseManager.transaction (fun s0 =>
                Some (tt,
                      mkStore (accounts s0) (fiscal_years s0)
                        (filter (fun e => negb (Nat.eqb (JournalEntry.id e) entry_id))
                                (journal_entries s0))
                        (filter (fun jl => negb (Nat.eqb (JournalLine.entry_id jl) entry_id))
                                (journal_lines s0))
                        (seq_accounts s0) (seq_journal_entries s0)
                        (seq_journal_lines s0) (faults s0))) s with
        | (None, s') => (false, s')
        | (Some _, s') => (true, s')
        end
  end.

(** The balance a line gives its account. *)
Definition new_balance (category : AccountCategory)
    (current_balance debit credit : Z) : Z :=
  if debit_normal category
  then current_balance + debit - credit
  else current_balance - debit + credit.

(** The loop of [_update_account_balances]: every line reads its account
    afresh and writes the new balance in a transaction of its own; a write
    that raises ends the loop with [False]. *)
Fixpoint update_balances (lines : list (JournalLine.t * Account.t))
    (s : Store) : bool * Store :=
  match lines with
  | [] => (true, s)
  | line :: rest =>
      let account_id := JournalLine.account_id (fst line) in
      match AccountManager.get_account_by_id s account_id with
      | None => update_balances rest s
      | Some account =>
          match DatabaseManager.update_account_balance account_id
                  (new_balance (Account.account_category account)
                     (Account.current_balance account)
                     (JournalLine.debit (fst line))
                     (JournalLine.credit (fst line))) s with
          | (None, s') => (false, s')
          | (Some _, s') => update_balances rest s'
          end
      end
  end.

Definition _update_account_balances (s : Store) (entry_id : nat)
    : bool * Store :=
  update_balances (get_entry_lines s entry_id) s.

(** [post_entry(entry_id, posted_by)]; [now] is [datetime.now()]. *)
Definition post_entry (s : Store) (entry_id posted_by now : nat)
    : bool * Store :=
  match get_entry_details s entry_id with
  | None => (false, s)
  | Some entry =>
      if negb (EntryStatus_eqb (JournalEntry.status entry) draft) then (false, s)
      else
        match _update_account_balances s entry_id with
        | (false, s1) => (false, s1)
        | (true, s1) =>
            match DatabaseManager.update_journal_entry
                    [col_status posted; col_posted_at (Some now);
                     col_posted_by (Some posted_by)] entry_id s1 with
            | (None, s2) => (false, s2)
            | (Some affected_rows, s2) => (Nat.ltb 0 affected_rows, s2)
            end
        end
  end.

(** [approve_entry(entry_id, approved_by)] *)
Definition approve_entry (s : Store) (entry_id approved_by now : nat)
    : bool * Store :=
  match get_entry_details s entry_id with
  | None => (false, s)
  | Some entry =>
      if negb (EntryStatus_eqb (JournalEntry.status entry) posted) then (false, s)
      else
        match DatabaseManager.update_journal_entry
                [col_status approved; col_approved_at (Some now);
                 col_approved_by (Some approved_by)] entry_id s with
        | (None, s') => (false, s')
        | (Some affected_rows, s') => (Nat.ltb 0 affected_rows, s')
        end
  end.

End JournalManager.

(** ** report_manager.py *)

Module LedgerRow.
(** A row of [get_ledger].  The synthetic opening row has no entry number
    and the status ["opening_balance"]; its date is [start_date], and is
    absent without one (the account's [created_at] is not modelled). *)
Record t := mk {
  entry_number : option string;
  date : option nat;
  entry_description : string;
  line_description : string;
  debit : Z;
  credit : Z;
  status : string;
  running_balance : Z
}.
End LedgerRow.

Module TrialRow.
(** A row of [get_trial_balance]; the totals row has no code and no
    category. *)
Record t := mk {
  code : option string;
  name_ar : string;
  name_en : string;
  account_category : option AccountCategory;
  opening_balance : Z;
  period_debit : Z;
  period_credit : Z;
  closing_balance : Z;
  trial_debit : Z;
  trial_credit : Z
}.
End TrialRow.

(** A row of a section of [get_balance_sheet] ([balance]) or of
    [get_income_statement] ([amount]). *)
Module SheetRow.
Record t := mk {
  code : string;
  name_ar : string;
  name_en : string;
  balance : Z
}.
End SheetRow.

Module AmountRow.
Record t := mk {
  code : string;
  name_ar : string;
  name_en : string;
  amount : Z
}.
End AmountRow.

(** The dict of [get_balance_sheet]; a section [{'accounts': ..., 'total':
    ...}] is the pair of fields [assets] and [total_assets], and so on. *)
Module BalanceSheet.
Record t := mk {
  as_of_date : nat;
  assets : list SheetRow.t;
  total_assets : Z;
  liabilities : list SheetRow.t;
  total_liabilities : Z;
  equity : list SheetRow.t;
  total_equity : Z;
  is_balanced : bool
}.
End BalanceSheet.

(** The dict of [get_income_statement], its sections flattened likewise. *)
Module IncomeStatement.
Record t := mk {
  period_start : nat;
  period_end : nat;
  revenues : list AmountRow.t;
  total_revenue : Z;
  expenses : list AmountRow.t;
  total_expenses : Z;
  net_income : Z;
  gross_profit : Z;
  operating_income : Z
}.
End IncomeStatement.

Module ReportManager.

Definition date_ge (bound : option nat) (d : nat) : bool :=
  match bound with
  | Some b => Nat.leb b d
  | None => true
  end.

Definition date_le (bound : option nat) (d : nat) : bool :=
  match bound with
  | Some b => Nat.leb d b
  | None => true
  end.

(** [journal_entries je JOIN journal_lines jl ON je.id = jl.entry_id
    WHERE jl.account_id = ? AND <condition on je>]. *)
Definition entry_lines_of_account (s : Store) (account_id : nat)
    (cond : JournalEntry.t -> bool) : list (JournalEntry.t * JournalLine.t) :=
  flat_map
    (fun je =>
       if cond je
       then map (pair je)
              (filter (fun jl => Nat.eqb (JournalEntry.id je) (JournalLine.entry_id jl)
                                 && Nat.eqb (JournalLine.account_id jl) account_id)
                      (journal_lines s))
       else [])
    (journal_entries s).

Definition is_posted (je : JournalEntry.t) : bool :=
  EntryStatus_eqb (JournalEntry.status je) posted.

(** [ORDER BY je.date, je.entry_number] *)
Definition ledger_order (r1 r2 : JournalEntry.t * JournalLine.t) : bool :=
  Nat.ltb (JournalEntry.date (fst r1)) (JournalEntry.date (fst r2))
  || (Nat.eqb (JournalEntry.date (fst r1)) (JournalEntry.date (fst r2))
      && String.leb (JournalEntry.entry_number (fst r1))
                    (JournalEntry.entry_number (fst r2))).

(** [SUM(CASE WHEN col > 0 THEN col ELSE 0 END)] *)
Definition positive_part (v : Z) : Z := if Z.gtb v 0 then v else 0.

Definition get_account_opening_balance (s : Store) (account_id : nat)
    (as_of_date : option nat) : Z :=
  match as_of_date with
  | None =>
      match DatabaseManager.get_account s account_id with
      | Some account => Account.opening_balance account
      | None => 0
      end
  | Some d =>
      let rows := entry_lines_of_account s account_id
                    (fun je => is_posted je && Nat.ltb (JournalEntry.date je) d) in
      let total_debit :=
        Sql.sum (fun r => positive_part (JournalLine.debit (snd r))) rows in
      let total_credit :=
        Sql.sum (fun r => positive_part (JournalLine.credit (snd r))) rows in
      match DatabaseManager.get_account s account_id with
      | Some account =>
          if debit_normal (Account.account_category account)
          then Account.opening_balance account + total_debit - total_credit
          else Account.opening_balance account - total_debit + total_credit
      | None => 0
      end
  end.

(** One step of the running balance. *)
Definition ledger_step (category : AccountCategory) (running_balance : Z)
    (debit credit : Z) : Z :=
  if Z.gtb debit 0
  then if debit_normal category then running_balance + debit
       else running_balance - debit
  else if debit_normal category then running_balance - credit
       else running_balance + credit.

Fixpoint ledger_rows (category : AccountCategory) (running_balance : Z)
    (transactions : list (JournalEntry.t * JournalLine.t))
    : list LedgerRow.t :=
  match transactions with
  | [] => []
  | (je, jl) :: rest =>
      let running_balance' :=
        ledger_step category running_balance
          (JournalLine.debit jl) (JournalLine.credit jl) in
      LedgerRow.mk (Some (JournalEntry.entry_number je))
        (Some (JournalEntry.date je)) (JournalEntry.description je)
        (JournalLine.description jl) (JournalLine.debit jl)
        (JournalLine.credit jl) "posted" running_balance'
      :: ledger_rows category running_balance' rest
  end.

Definition get_ledger (s : Store) (account_id : nat)
    (start_date end_date : option nat) : list LedgerRow.t :=
  match DatabaseManager.get_account s account_id with
  | None => []
  | Some account =>
      let transactions :=
        Sql.order_by ledger_order
          (entry_lines_of_account s account_id
             (fun je => is_posted je
                        && date_ge start_date (JournalEntry.date je)
                        && date_le end_date (JournalEntry.date je))) in
      let opening_balance :=
        get_account_opening_balance s account_id start_date in
      let ledger_data :=
        ledger_rows (Account.account_category account) opening_balance
          transactions in
      if Z.eqb opening_balance 0 then ledger_data
      else
        LedgerRow.mk None start_date "Opening Balance" "opening balance"
          (if Z.gtb opening_balance 0 then opening_balance else 0)
          (if Z.ltb opening_balance 0 then Z.abs opening_balance else 0)
          "opening_balance" opening_balance
        :: ledger_data
  end.

(** The joined rows [get_trial_balance] groups under one account: every
    line of the account, whatever the status of its entry (the status test
    sits in the ON clause of a LEFT JOIN); with a fiscal year, only the
    lines of a posted entry of that year. *)
Definition trial_group (s : Store) (fiscal_year_id : option nat)
    (a : Account.t) : list JournalLine.t :=
  let lines :=
    filter (fun jl => Nat.eqb (Account.id a) (JournalLine.account_id jl))
           (journal_lines s) in
  match fiscal_year_id with
  | Some (S _ as fy) =>
      flat_map
        (fun jl =>
           map (fun _ => jl)
             (filter (fun je => Nat.eqb (JournalLine.entry_id jl) (JournalEntry.id je)
                                && is_posted je
                                && Nat.eqb (JournalEntry.fiscal_year_id je) fy)
                     (journal_entries s)))
        lines
  | _ => lines
  end.

(** Whether the GROUP BY yields a group for the account: without a fiscal
    year the LEFT JOIN keeps an account that has no line. *)
Definition trial_has_group (s : Store) (fiscal_year_id : option nat)
    (a : Account.t) : bool :=
  match fiscal_year_id with
  | Some (S _) => negb (Nat.eqb (List.length (trial_group s fiscal_year_id a)) 0)
  | _ => true
  end.

(** The rows of the query: [HAVING a.is_active = 1 ORDER BY a.code]. *)
Definition trial_query (s : Store) (fiscal_year_id : option nat)
    : list (Account.t * Z * Z) :=
  map (fun a =>
         (a,
          Sql.sum JournalLine.debit (trial_group s fiscal_year_id a),
          Sql.sum JournalLine.credit (trial_group s fiscal_year_id a)))
    (Sql.order_by AccountManager.code_le
       (filter (fun a => trial_has_group s fiscal_year_id a && Account.is_active a)
               (accounts s))).

(** The body of the loop over the rows of the query. *)
Definition trial_row (row : Account.t * Z * Z) : TrialRow.t :=
  let '(a, period_debit, period_credit) := row in
  let opening_balance := Account.opening_balance a in
  let category := Account.account_category a in
  let closing_balance :=
    if debit_normal category
    then opening_balance + period_debit - period_credit
    else opening_balance - period_debit + period_credit in
  let trial_debit :=
    if Z.geb closing_balance 0
    then if debit_normal category then closing_balance else 0
    else if debit_normal category then 0 else Z.abs closing_balance in
  let trial_credit :=
    if Z.geb closing_balance 0
    then if debit_normal category then 0 else closing_balance
    else if debit_normal category then Z.abs closing_balance else 0 in
  TrialRow.mk (Some (Account.code a)) (Account.name_ar a) (Account.name_en a)
    (Some category) opening_balance period_debit period_credit
    closing_balance trial_debit trial_credit.

Definition get_trial_balance (s : Store) (fiscal_year_id : option nat)
    : list TrialRow.t :=
  let rows := map trial_row (trial_query s fiscal_year_id) in
  let total_debits := fold_left (fun t r => t + TrialRow.trial_debit r) rows 0 in
  let total_credits := fold_left (fun t r => t + TrialRow.trial_credit r) rows 0 in
  rows ++
  [TrialRow.mk None "Total" "Total" None 0 0 0 0 total_debits total_credits].

(** The loop of [get_balance_sheet] over the rows of the trial balance:
    the totals row (no code) is skipped, and a row goes to the section of
    its category. *)
Definition balance_sheet_step (acc : BalanceSheet.t) (row : TrialRow.t)
    : BalanceSheet.t :=
  let '(BalanceSheet.mk as_of_date assets total_assets liabilities
          total_liabilities equity_accounts total_equity is_balanced) := acc in
  match TrialRow.code row with
  | None => acc
  | Some code =>
      let balance := TrialRow.closing_balance row in
      let row_data :=
        SheetRow.mk code (TrialRow.name_ar row) (TrialRow.name_en row) balance in
      match TrialRow.account_category row with
      | Some asset =>
          BalanceSheet.mk as_of_date (assets ++ [row_data])
            (total_assets + balance) liabilities total_liabilities
            equity_accounts total_equity is_balanced
      | Some liability =>
          BalanceSheet.mk as_of_date assets total_assets
            (liabilities ++ [row_data]) (total_liabilities + balance)
            equity_accounts total_equity is_balanced
      | Some revenue =>
          BalanceSheet.mk as_of_date assets total_assets liabilities
            total_liabilities (equity_accounts ++ [row_data]) (total_equity + balance)
            is_balanced
      | Some expense =>
          BalanceSheet.mk as_of_date assets total_assets liabilities
            total_liabilities (equity_accounts ++ [row_data]) (total_equity - balance)
            is_balanced
      | Some equity =>
          BalanceSheet.mk as_of_date assets total_assets liabilities
            total_liabilities (equity_accounts ++ [row_data]) (total_equity + balance)
            is_balanced
      | None => acc
      end
  end.

(** [get_balance_sheet(as_of_date)]: built from [get_trial_balance(None)],
    whatever the date; balanced when assets and liabilities plus equity
    differ by less than 0.01. *)
Definition get_balance_sheet (s : Store) (as_of_date : nat) : BalanceSheet.t :=
  let trial_balance := get_trial_balance s None in
  let '(BalanceSheet.mk _ assets total_assets liabilities total_liabilities
          equity_accounts total_equity _) :=
    fold_left balance_sheet_step trial_balance
      (BalanceSheet.mk as_of_date [] 0 [] 0 [] 0 false) in
  BalanceSheet.mk as_of_date assets total_assets liabilities total_liabilities
    equity_accounts total_equity
    (Z.ltb (Z.abs (total_assets - (total_liabilities + total_equity)))
           tolerance).

(** The joined rows [get_income_statement] groups under one account: its
    lines in posted entries dated within the period ([je.date BETWEEN ? AND
    ?] drops the rows the LEFT JOINs left without an entry). *)
Definition income_group (s : Store) (start_date end_date : nat)
    (a : Account.t) : list JournalLine.t :=
  flat_map
    (fun jl =>
       map (fun _ => jl)
         (filter (fun je => Nat.eqb (JournalLine.entry_id jl) (JournalEntry.id je)
                            && is_posted je
                            && Nat.leb start_date (JournalEntry.date je)
                            && Nat.leb (JournalEntry.date je) end_date)
                 (journal_entries s)))
    (filter (fun jl => Nat.eqb (Account.id a) (JournalLine.account_id jl))
            (journal_lines s)).

(** [a.account_category IN ('revenue', 'expense')] *)
Definition revenue_or_expense (c : AccountCategory) : bool :=
  match c with
  | revenue | expense => true
  | asset | liability | equity => false
  end.

(** The rows of the query of [get_income_statement], [ORDER BY a.code]. *)
Definition income_query (s : Store) (start_date end_date : nat)
    : list (Account.t * Z * Z) :=
  map (fun a =>
         (a,
          Sql.sum JournalLine.debit (income_group s start_date end_date a),
          Sql.sum JournalLine.credit (income_group s start_date end_date a)))
    (Sql.order_by AccountManager.code_le
       (filter (fun a => revenue_or_expense (Account.account_category a)
                         && Account.is_active a
                         && negb (Nat.eqb (List.length
                                    (income_group s start_date end_date a)) 0))
               (accounts s))).

(** The loop of [get_income_statement] over the rows of the query. *)
Definition income_step (acc : IncomeStatement.t) (row : Account.t * Z * Z)
    : IncomeStatement.t :=
  let '(IncomeStatement.mk period_start period_end revenues total_revenue
          expenses total_expenses net_income gross_profit operating_income) :=
    acc in
  let '(a, period_debit, period_credit) := row in
  match Account.account_category a with
  | revenue =>
      let amount := period_credit - period_debit in
      IncomeStatement.mk period_start period_end
        (revenues ++ [AmountRow.mk (Account.code a) (Account.name_ar a)
                        (Account.name_en a) amount])
        (total_revenue + amount) expenses total_expenses
        net_income gross_profit operating_income
  | _ =>
      let amount := period_debit - period_credit in
      IncomeStatement.mk period_start period_end revenues total_revenue
        (expenses ++ [AmountRow.mk (Account.code a) (Account.name_ar a)
                        (Account.name_en a) amount])
        (total_expenses + amount)
        net_income gross_profit operating_income
  end.

Definition get_income_statement (s : Store) (start_date end_date : nat)
    : IncomeStatement.t :=
  let '(IncomeStatement.mk _ _ revenues total_revenue expenses total_expenses
          _ _ _) :=
    fold_left income_step (income_query s start_date end_date)
      (IncomeStatement.mk start_date end_date [] 0 [] 0 0 0 0) in
  let net_income := total_revenue - total_expenses in
  IncomeStatement.mk start_date end_date revenues total_revenue
    expenses total_expenses net_income total_revenue net_income.

End ReportManager.

(** ** Vocabulary of the properties *)

(** *** Amounts *)

(** What a posted line adds to the balance of an account of the category. *)
Definition signed_amount (category : AccountCategory) (jl : JournalLine.t) : Z :=
  if debit_normal category
  then JournalLine.debit jl - JournalLine.credit jl
  else JournalLine.credit jl - JournalLine.debit jl.

(** A line as [_validate_journal_line] accepts it. *)
Definition amounts_ok (debit credit : Z) : Prop :=
  0 <= debit /\ 0 <= credit /\
  ((0 < debit /\ credit = 0) \/ (debit = 0 /\ 0 < credit)).

(** The opening balance of an account counted on its normal side: positive
    for an asset or expense account, negative for the others. *)
Definition signed_opening (a : Account.t) : Z :=
  if debit_normal (Account.account_category a)
  then Account.opening_balance a
  else - Account.opening_balance a.

Definition signed_openings (l : list Account.t) : Z :=
  Sql.sum signed_opening l.

(** *** Lines and what they add to an account *)

(** The lines of an entry. *)
Definition lines_of_entry (s : Store) (entry_id : nat) : list JournalLine.t :=
  filter (fun jl => Nat.eqb entry_id (JournalLine.entry_id jl))
         (journal_lines s).

(** The lines of an entry that reference an account. *)
Definition lines_of (s : Store) (entry_id account_id : nat)
    : list JournalLine.t :=
  filter (fun jl => Nat.eqb (JournalLine.entry_id jl) entry_id
                    && Nat.eqb (JournalLine.account_id jl) account_id)
         (journal_lines s).

(** The sum of what the lines of an entry add to an account. *)
Definition posting_delta (s : Store) (entry_id : nat) (a : Account.t) : Z :=
  Sql.sum (signed_amount (Account.account_category a))
          (lines_of s entry_id (Account.id a)).

(** The rows [insert_lines] appends, one for each line of the entry. *)
Definition row_of_line (entry_id : nat) (line : LineDict.t)
    (jl : JournalLine.t) : Prop :=
  LineDict.account_id line = Some (JournalLine.account_id jl) /\
  JournalLine.entry_id jl = entry_id /\
  JournalLine.debit jl = LineDict.debit line /\
  JournalLine.credit jl = LineDict.credit line.

(** What the rows of [get_entry_lines] add to an account. *)
Definition rows_delta (category : AccountCategory) (account_id : nat)
    (rows : list (JournalLine.t * Account.t)) : Z :=
  Sql.sum (fun r => if Nat.eqb (JournalLine.account_id (fst r)) account_id
                    then signed_amount category (fst r) else 0) rows.

(** An account after the rows were applied to it. *)
Definition credited (rows : list (JournalLine.t * Account.t))
    (a : Account.t) : Account.t :=
  Account.set_current_balance
    (Account.current_balance a
     + rows_delta (Account.account_category a) (Account.id a) rows) a.

(** What an entry adds to an account under a condition on its status. *)
Definition entry_delta (lines : list JournalLine.t) (a : Account.t)
    (cond : EntryStatus -> bool) (je : JournalEntry.t) : Z :=
  if cond (JournalEntry.status je)
  then Sql.sum (signed_amount (Account.account_category a))
         (filter (fun jl => Nat.eqb (JournalEntry.id je) (JournalLine.entry_id jl)
                            && Nat.eqb (JournalLine.account_id jl) (Account.id a))
                 lines)
  else 0.

(** What the posted and approved lines of an account add to it. *)
Definition cached_delta (s : Store) (a : Account.t) : Z :=
  Sql.sum (fun r => signed_amount (Account.account_category a) (snd r))
    (ReportManager.entry_lines_of_account s (Account.id a)
       (fun je => JournalManager.posted_or_approved (JournalEntry.status je))).

(** No approved entry holds a line of the account. *)
Definition no_approved_line (s : Store) (account_id : nat) : Prop :=
  forall je jl,
    In je (journal_entries s) -> In jl (journal_lines s) ->
    JournalLine.entry_id jl = JournalEntry.id je ->
    JournalLine.account_id jl = account_id ->
    JournalEntry.status je <> approved.

(** *** Reports *)

(** The last row of a report, when it has one. *)
Definition last_row {A : Type} (rows : list A) : option A :=
  last (map Some rows) None.

(** The running balance after the transactions of a ledger. *)
Definition final_balance (category : AccountCategory) (opening_balance : Z)
    (transactions : list (JournalEntry.t * JournalLine.t)) : Z :=
  fold_left
    (fun balance r =>
       ReportManager.ledger_step category balance
         (JournalLine.debit (snd r)) (JournalLine.credit (snd r)))
    transactions opening_balance.

(** The entries whose lines [get_trial_balance] adds up: every entry, or
    with a fiscal year the posted entries of that year. *)
Definition counted_in_trial (fiscal_year_id : option nat)
    (je : JournalEntry.t) : bool :=
  match fiscal_year_id with
  | Some (S _ as fy) =>
      ReportManager.is_posted je
      && Nat.eqb (JournalEntry.fiscal_year_id je) fy
  | _ => true
  end.

(** A line is counted when its entry is. *)
Definition counted_line (s : Store) (fiscal_year_id : option nat)
    (jl : JournalLine.t) : bool :=
  existsb (fun je => Nat.eqb (JournalEntry.id je) (JournalLine.entry_id jl)
                     && counted_in_trial fiscal_year_id je)
          (journal_entries s).

(** The accounts [get_trial_balance] lists, in the order of the report. *)
Definition listed_accounts (s : Store) (fiscal_year_id : option nat)
    : list Account.t :=
  map (fun row => fst (fst row)) (ReportManager.trial_query s fiscal_year_id).

(** *** Stores *)

(** Two stores with the same tables: they differ at most in the counters
    and in the fault schedule. *)
Definition same_tables (s s' : Store) : Prop :=
  accounts s' = accounts s /\ fiscal_years s' = fiscal_years s /\
  journal_entries s' = journal_entries s /\ journal_lines s' = journal_lines s.

(** The columns [update_entry] neither validates nor constrains: all but
    [entry_number] (UNIQUE), [date] and [fiscal_year_id] (validated). *)
Definition unchecked_column (c : EntryColumn) : bool :=
  match c with
  | col_entry_number _ | col_date _ | col_fiscal_year_id _ | col_unknown _ => false
  | _ => true
  end.

(** The states the public operations reach from an empty database, every
    operation having succeeded. *)
Inductive reachable : Store -> Prop :=
| reach_new fys fs : reachable (new_store fys fs)
| reach_add_account s parent_id name_ar name_en account_type account_category
    opening_balance created_by account_id s' :
    reachable s ->
    AccountManager.add_account s parent_id name_ar name_en account_type
      account_category opening_balance created_by = (Some account_id, s') ->
    reachable s'
| reach_create_entry s entry_date description lines fiscal_year_id created_by
    now entry_id s' :
    reachable s ->
    JournalManager.create_entry s entry_date description lines fiscal_year_id
      created_by now = (Some entry_id, s') ->
    reachable s'
| reach_post_entry s entry_id posted_by now s' :
    reachable s ->
    JournalManager.post_entry s entry_id posted_by now = (true, s') ->
    reachable s'
| reach_approve_entry s entry_id approved_by now s' :
    reachable s ->
    JournalManager.approve_entry s entry_id approved_by now = (true, s') ->
    reachable s'.

(** The invariant of the reachable states. *)
Record consistent (s : Store) : Prop := {
  account_ids_unique : NoDup (map Account.id (accounts s));
  entry_ids_unique : NoDup (map JournalEntry.id (journal_entries s));
  accounts_active :
    forall a, In a (accounts s) -> Account.is_active a = true;
  line_has_account :
    forall jl, In jl (journal_lines s) ->
      exists a, In a (accounts s) /\ Account.id a = JournalLine.account_id jl;
  line_has_entry :
    forall jl, In jl (journal_lines s) ->
      exists je, In je (journal_entries s)
                 /\ JournalEntry.id je = JournalLine.entry_id jl;
  line_amounts :
    forall jl, In jl (journal_lines s) ->
      amounts_ok (JournalLine.debit jl) (JournalLine.credit jl);
  cache_is_sum :
    forall a, In a (accounts s) ->
      Account.current_balance a = Account.opening_balance a + cached_delta s a;
  totals_are_sums :
    forall je, In je (journal_entries s) ->
      JournalEntry.total_debit je
        = Sql.sum JournalLine.debit (lines_of_entry s (JournalEntry.id je)) /\
      JournalEntry.total_credit je
        = Sql.sum JournalLine.credit (lines_of_entry s (JournalEntry.id je))
}.
(** *** Amounts the floats of the code carry exactly *)

(** The code keeps amounts in Python floats, which are binary64 numbers:
    they carry every whole number below 2^53 exactly, and so every sum and
    difference of whole numbers that stays within that range, in whatever
    order it is formed.  An amount is whole when it has no hundredths. *)
Definition whole (amount : Z) : bool := Z.eqb (amount mod 100) 0.

(** 2^53, in hundredths. *)
Definition exact_range : Z := 100 * 2 ^ 53.

(** The opening balances and the line amounts of the store are whole, and
    their magnitudes add up to less than 2^53: no sum the code forms from
    them is rounded. *)
Definition whole_amounts (s : Store) : bool :=
  forallb (fun a => whole (Account.opening_balance a)) (accounts s)
  && forallb (fun jl => whole (JournalLine.debit jl)
                        && whole (JournalLine.credit jl))
             (journal_lines s)
  && Z.ltb (Sql.sum (fun a => Z.abs (Account.opening_balance a)) (accounts s)
            + Sql.sum (fun jl => Z.abs (JournalLine.debit jl)
                                 + Z.abs (JournalLine.credit jl))
                (journal_lines s))
           exact_range.

(** The same for the lines given to [create_entry] or [validate_entry]. *)
Definition whole_lines (lines : list LineDict.t) : bool :=
  forallb (fun line => whole (LineDict.debit line)
                       && whole (LineDict.credit line)) lines
  && Z.ltb (Sql.sum (fun line => Z.abs (LineDict.debit line)
                                 + Z.abs (LineDict.credit line)) lines)
           exact_range.

(** *** Journal, chart and statements *)

(** The numbers [create_entry] has given in a journal of one fiscal year:
    the row at position [i] carries [JE-] and [i] on six digits. *)
Definition numbered (rows : list JournalEntry.t) : Prop :=
  map JournalEntry.entry_number rows
  = map (fun i => "JE-" ++ Py.zfill 6 i) (seq 1 (List.length rows)).

(** What the lines of approved entries add to an account. *)
Definition approved_delta (s : Store) (a : Account.t) : Z :=
  Sql.sum (fun r => signed_amount (Account.account_category a) (snd r))
    (ReportManager.entry_lines_of_account s (Account.id a)
       (fun je => EntryStatus_eqb (JournalEntry.status je) approved)).

(** The order of the rows of a ledger: the opening row before every row,
    then by date, and by entry number within a date. *)
Definition ledger_row_before (r1 r2 : LedgerRow.t) : Prop :=
  match LedgerRow.entry_number r1 with
  | None => True
  | Some n1 =>
      match LedgerRow.date r1, LedgerRow.entry_number r2, LedgerRow.date r2 with
      | Some d1, Some n2, Some d2 =>
          (d1 < d2)%nat \/ (d1 = d2 /\ String.leb n1 n2 = true)
      | _, _, _ => False
      end
  end.

(** Assets less liabilities and equity, as [get_balance_sheet] adds them up. *)
Definition sheet_difference (b : BalanceSheet.t) : Z :=
  BalanceSheet.total_assets b
  - (BalanceSheet.total_liabilities b + BalanceSheet.total_equity b).

(** The line is on an active revenue or expense account. *)
Definition on_income_account (s : Store) (jl : JournalLine.t) : bool :=
  existsb (fun a => Nat.eqb (Account.id a) (JournalLine.account_id jl)
                    && (ReportManager.revenue_or_expense (Account.account_category a)
                        && Account.is_active a))
          (accounts s).

(** The entry is posted and dated within the period. *)
Definition in_period (start_date end_date : nat) (je : JournalEntry.t) : bool :=
  ReportManager.is_posted je
  && Nat.leb start_date (JournalEntry.date je)
  && Nat.leb (JournalEntry.date je) end_date.

(** An account placed as [add_account] places it: a root at level 1 under
    its own name, a child one level below a parent that may have it, with
    the code of the parent followed by two digits and the path of the
    parent followed by its name. *)
Definition placed_in (rows : list Account.t) (a : Account.t) : Prop :=
  (1 <= Account.level a <= 9)%nat /\
  Account.name_ar a <> "" /\
  Account.full_path a <> "" /\
  match Account.parent_id a with
  | Some (S k) =>
      exists parent,
        In parent rows /\ Account.id parent = S k /\
        Account.level a = (Account.level parent + 1)%nat /\
        Account.account_type parent <> analytic /\
        (Account.account_type parent = assistant ->
         Account.account_type a = analytic) /\
        (exists n, (1 <= n <= 99)%nat /\
                   Account.code a = Account.code parent ++ Py.zfill 2 n) /\
        Account.full_path a
        = Account.full_path parent ++ " > " ++ Account.name_ar a
  | _ =>
      Account.level a = 1%nat /\
      Account.full_path a = Account.name_ar a /\
      exists n, (1 <= n)%nat /\ Account.code a = Py.str n
  end.

(** The active children of an account, in the order of the table. *)
Definition children_of (rows : list Account.t) (parent_id : nat)
    : list Account.t :=
  filter (fun a => AccountManager.option_nat_eqb (Account.parent_id a) parent_id
                   && Account.is_active a) rows.

(** The codes of [n] children created one after the other. *)
Definition child_codes (parent : Account.t) (n : nat) : list string :=
  map (fun i => Account.code parent ++ Py.zfill 2 i) (seq 1 n).

(** The children of every account carry the codes of a sequence. *)
Definition children_in_sequence (rows : list Account.t) : Prop :=
  forall parent k,
    In parent rows -> Account.id parent = S k ->
    (List.length (children_of rows (S k)) <= 99)%nat /\
    map Account.code (children_of rows (S k))
    = child_codes parent (List.length (children_of rows (S k))).

(** Two stores with the same journal. *)
Definition same_journal (s s' : Store) : Prop :=
  journal_entries s' = journal_entries s /\ journal_lines s' = journal_lines s.

(** One call of an operation of the managers, whatever it returns. *)
Inductive step : Store -> Store -> Prop :=
| step_add_account s parent_id name_ar name_en account_type account_category
    opening_balance created_by :
    step s (snd (AccountManager.add_account s parent_id name_ar name_en
                   account_type account_category opening_balance created_by))
| step_update_account depth s account_id kwargs :
    step s (snd (AccountManager.update_account depth s account_id kwargs))
| step_delete_account depth s account_id force :
    step s (snd (AccountManager.delete_account depth s account_id force))
| step_create_entry s entry_date description lines fiscal_year_id created_by
    now :
    step s (snd (JournalManager.create_entry s entry_date description lines
                   fiscal_year_id created_by now))
| step_update_entry s entry_id kwargs :
    step s (snd (JournalManager.update_entry s entry_id kwargs))
| step_delete_entry s entry_id :
    step s (snd (JournalManager.delete_entry s entry_id))
| step_post_entry s entry_id posted_by now :
    step s (snd (JournalManager.post_entry s entry_id posted_by now))
| step_approve_entry s entry_id approved_by now :
    step s (snd (JournalManager.approve_entry s entry_id approved_by now)).

(** Any number of calls, one after the other. *)
Inductive steps : Store -> Store -> Prop :=
| steps_refl s : steps s s
| steps_step s1 s2 s3 : steps s1 s2 -> step s2 s3 -> steps s1 s3.

(** What remains of an entry that was posted: everything but the approval,
    and everything once it is approved. *)
Definition still_posted (e e' : JournalEntry.t) : Prop :=
  JournalEntry.id e' = JournalEntry.id e /\
  JournalEntry.entry_number e' = JournalEntry.entry_number e /\
  JournalEntry.date e' = JournalEntry.date e /\
  JournalEntry.description e' = JournalEntry.description e /\
  JournalEntry.fiscal_year_id e' = JournalEntry.fiscal_year_id e /\
  JournalEntry.total_debit e' = JournalEntry.total_debit e /\
  JournalEntry.total_credit e' = JournalEntry.total_credit e /\
  JournalEntry.posted_at e' = JournalEntry.posted_at e /\
  JournalEntry.posted_by e' = JournalEntry.posted_by e /\
  JournalManager.posted_or_approved (JournalEntry.status e') = true /\
  (JournalEntry.status e = approved -> e' = e).

(** The journal after one call, for an entry that was posted. *)
Definition keeps_posted (s s' : Store) : Prop :=
  NoDup (map JournalEntry.id (journal_entries s)) ->
  NoDup (map JournalEntry.id (journal_entries s')) /\
  forall e,
    In e (journal_entries s) ->
    JournalManager.posted_or_approved (JournalEntry.status e) = true ->
    exists e',
      In e' (journal_entries s') /\ still_posted e e' /\
      lines_of_entry s' (JournalEntry.id e) = lines_of_entry s (JournalEntry.id e).

(** The columns [update_account] writes without any check: the English
    name, type, category, level, path, activity and the two balances. *)
Definition unchecked_account_column (c : AccountColumn) : bool :=
  match c with
  | acc_name_en _ | acc_account_type _ | acc_account_category _ | acc_level _
  | acc_full_path _ | acc_is_active _ | acc_opening_balance _
  | acc_current_balance _ => true
  | acc_parent_id _ | acc_name_ar _ | acc_code _ | acc_created_by _
  | acc_updated_by _ | acc_unknown _ => false
  end.

(** A stored line read back as the dict it was created from. *)
Definition line_dict (jl : JournalLine.t) : LineDict.t :=
  LineDict.mk (Some (JournalLine.account_id jl)) (JournalLine.description jl)
    (JournalLine.debit jl) (JournalLine.credit jl).

(** What the lines of draft entries would add to an account. *)
Definition draft_delta (s : Store) (a : Account.t) : Z :=
  Sql.sum (fun r => signed_amount (Account.account_category a) (snd r))
    (ReportManager.entry_lines_of_account s (Account.id a)
       (fun je => EntryStatus_eqb (JournalEntry.status je) draft)).

(** ** Scenarios *)

Module Scenario.

Definition fy2024 : FiscalYear.t := FiscalYear.mk 1 "2024" 0 365 true.

(** Cash (asset, opening balance 5000.00) and Revenue (revenue, 0). *)
Definition with_cash (fs : list bool) : Store :=
  snd (AccountManager.add_account (new_store [fy2024] fs) None
         "Cash" "Cash" "assistant" "asset" 500000 None).

Definition with_revenue (fs : list bool) : Store :=
  snd (AccountManager.add_account (with_cash fs) None
         "Revenue" "Revenue" "general" "revenue" 0 None).

(** [debit Cash 1000.00, credit Revenue 1000.00] *)
Definition sale : list LineDict.t :=
  [LineDict.mk (Some 1%nat) "cash received" 100000 0;
   LineDict.mk (Some 2%nat) "service revenue" 0 100000].

Definition after_create (fs : list bool) : Store :=
  snd (JournalManager.create_entry (with_revenue fs) 10 "sale" sale 1 None 0).

Definition after_post (fs : list bool) : Store :=
  snd (JournalManager.post_entry (after_create fs) 1 1 0).

Definition after_approve (fs : list bool) : Store :=
  snd (JournalManager.approve_entry (after_post fs) 1 1 0).

(** Owner's capital (equity, opening balance 5000.00) next to Cash: the
    opening balances balance. *)
Definition with_capital : Store :=
  snd (AccountManager.add_account (with_revenue []) None
         "Capital" "Capital" "general" "equity" 500000 None).

Definition capital_posted : Store :=
  snd (JournalManager.post_entry
         (snd (JournalManager.create_entry with_capital 10 "sale" sale 1 None 0))
         1 1 0).

(** Bank (asset) and Sales (revenue), both opened at 0, and the sale
    between them posted in fiscal year 1. *)
Definition unopened_posted : Store :=
  let s1 := snd (AccountManager.add_account (new_store [fy2024] []) None
                   "Bank" "Bank" "assistant" "asset" 0 None) in
  let s2 := snd (AccountManager.add_account s1 None
                   "Sales" "Sales" "general" "revenue" 0 None) in
  let s3 := snd (JournalManager.create_entry s2 10 "sale" sale 1 None 0) in
  snd (JournalManager.post_entry s3 1 1 0).

(** [n] root accounts added one after the other. *)
Fixpoint roots (n : nat) : Store :=
  match n with
  | O => new_store [] []
  | S k =>
      snd (AccountManager.add_account (roots k) None
             ("Root " ++ Py.str (S k)) ("Root " ++ Py.str (S k))
             "general" "asset" 0 None)
  end.

(** A chain of [n] general accounts, each the child of the one before. *)
Fixpoint chain (n : nat) : Store :=
  match n with
  | O => new_store [] []
  | S k =>
      snd (AccountManager.add_account (chain k)
             (match k with O => None | S _ => Some k end)
             "Level" "Level" "general" "asset" 0 None)
  end.

(** The root "1" with [n] analytic children added one after the other. *)
Fixpoint siblings (n : nat) : Store :=
  match n with
  | O => roots 1
  | S k =>
      snd (AccountManager.add_account (siblings k) (Some 1%nat)
             ("Child " ++ Py.str (S k)) ("Child " ++ Py.str (S k))
             "analytic" "asset" 0 None)
  end.

End Scenario.

(** * Properties *)

(** ** The storage layer *)

Section Transactions.
Context {A : Type} (body : Store -> option (A * Store)).

Lemma transaction_commit s a s' :
  DatabaseManager.transaction body s = (Some a, s') ->
  body (snd (DatabaseManager.next_fault s)) = Some (a, s').
Proof.
  unfold DatabaseManager.transaction.
  destruct (DatabaseManager.next_fault s) as [f s0]; simpl.
  destruct f; [discriminate|].
  destruct (body s0) as [[a0 s1]|]; [|discriminate].
  intros H; inversion H; reflexivity.
Qed.

Lemma transaction_rollback s s' :
  DatabaseManager.transaction body s = (None, s') ->
  s' = snd (DatabaseManager.next_fault s).
Proof.
  unfold DatabaseManager.transaction.
  destruct (DatabaseManager.next_fault s) as [f s0]; simpl.
  destruct f; [intros H; inversion H; reflexivity|].
  destruct (body s0) as [[a0 s1]|]; [discriminate|].
  intros H; inversion H; reflexivity.
Qed.

Lemma transaction_no_fault s :
  hd false (faults s) = false ->
  DatabaseManager.transaction body s =
    match body (snd (DatabaseManager.next_fault s)) with
    | Some (a, s1) => (Some a, s1)
    | None => (None, snd (DatabaseManager.next_fault s))
    end.
Proof.
  unfold DatabaseManager.transaction, DatabaseManager.next_fault.
  destruct (faults s) as [|f fs]; simpl; [reflexivity|].
  intros ->; reflexivity.
Qed.
End Transactions.

Lemma next_fault_tables s :
  let s0 := snd (DatabaseManager.next_fault s) in
  accounts s0 = accounts s /\ fiscal_years s0 = fiscal_years s /\
  journal_entries s0 = journal_entries s /\ journal_lines s0 = journal_lines s /\
  seq_accounts s0 = seq_accounts s /\
  seq_journal_entries s0 = seq_journal_entries s /\
  seq_journal_lines s0 = seq_journal_lines s.
Proof.
  unfold DatabaseManager.next_fault.
  destruct (faults s); simpl; repeat split; reflexivity.
Qed.

Lemma next_fault_same_tables s :
  same_tables s (snd (DatabaseManager.next_fault s)).
Proof.
  pose proof (next_fault_tables s) as H; simpl in H.
  unfold same_tables; tauto.
Qed.

(** ** Entries: lookup and update *)

Lemma assign_id e c :
  JournalEntry.id (DatabaseManager.assign e c) = JournalEntry.id e.
Proof. destruct e, c; reflexivity. Qed.

Lemma assign_all_id data e :
  JournalEntry.id (fold_left DatabaseManager.assign data e) = JournalEntry.id e.
Proof.
  revert e; induction data as [|c r IH]; intros e; simpl; [reflexivity|].
  rewrite IH; apply assign_id.
Qed.

Lemma find_update_rows data id rows :
  find (fun e => Nat.eqb (JournalEntry.id e) id)
       (DatabaseManager.update_rows data id rows) =
  option_map (fold_left DatabaseManager.assign data)
    (find (fun e => Nat.eqb (JournalEntry.id e) id) rows).
Proof.
  induction rows as [|e r IH]; simpl; [reflexivity|].
  destruct (Nat.eqb (JournalEntry.id e) id) eqn:E.
  - simpl. rewrite assign_all_id, E. reflexivity.
  - simpl. rewrite E. exact IH.
Qed.

Lemma update_journal_entry_commit data id s n s' :
  DatabaseManager.update_journal_entry data id s = (Some n, s') ->
  accounts s' = accounts s /\ journal_lines s' = journal_lines s /\
  fiscal_years s' = fiscal_years s /\
  journal_entries s' = DatabaseManager.update_rows data id (journal_entries s) /\
  n = DatabaseManager.count_rows (fun e => Nat.eqb (JournalEntry.id e) id)
        (journal_entries s).
Proof.
  unfold DatabaseManager.update_journal_entry.
  intros H. apply transaction_commit in H.
  pose proof (next_fault_tables s) as T; simpl in T.
  destruct T as (Ta & Tf & Te & Tl & _).
  destruct data as [|c r]; [discriminate|].
  destruct (existsb DatabaseManager.is_unknown (c :: r)); [discriminate|].
  destruct (existsb DatabaseManager.sets_entry_number (c :: r) && _);
    [discriminate|].
  inversion H; subst; simpl.
  rewrite Ta, Tl, Tf, Te. repeat split; reflexivity.
Qed.

Lemma update_account_balance_commit id v s n s' :
  DatabaseManager.update_account_balance id v s = (Some n, s') ->
  journal_entries s' = journal_entries s /\ journal_lines s' = journal_lines s /\
  fiscal_years s' = fiscal_years s /\
  accounts s' =
    map (fun a => if Nat.eqb (Account.id a) id
                  then Account.set_current_balance v a else a) (accounts s).
Proof.
  unfold DatabaseManager.update_account_balance.
  intros H. apply transaction_commit in H.
  pose proof (next_fault_tables s) as T; simpl in T.
  destruct T as (Ta & Tf & Te & Tl & _).
  inversion H; subst; simpl.
  rewrite Ta, Tl, Tf, Te. repeat split; reflexivity.
Qed.

Lemma update_balances_entries lines :
  forall s s', JournalManager.update_balances lines s = (true, s') ->
    journal_entries s' = journal_entries s /\
    journal_lines s' = journal_lines s /\
    fiscal_years s' = fiscal_years s.
Proof.
  induction lines as [|line rest IH]; intros s s' H; simpl in H.
  - inversion H; subst; auto.
  - destruct (AccountManager.get_account_by_id s _) as [account|]; [|auto].
    destruct (DatabaseManager.update_account_balance _ _ s) as [[n|] s1] eqn:U;
      [|discriminate].
    apply update_account_balance_commit in U.
    destruct U as (Ue & Ul & Uf & _).
    apply IH in H. destruct H as (He & Hl & Hf).
    rewrite He, Hl, Hf; auto.
Qed.

Lemma post_entry_inv s entry_id posted_by now s' :
  JournalManager.post_entry s entry_id posted_by now = (true, s') ->
  exists entry s1 n,
    JournalManager.get_entry_details s entry_id = Some entry /\
    JournalEntry.status entry = draft /\
    JournalManager.update_balances
      (JournalManager.get_entry_lines s entry_id) s = (true, s1) /\
    DatabaseManager.update_journal_entry
      [col_status posted; col_posted_at (Some now);
       col_posted_by (Some posted_by)] entry_id s1 = (Some n, s').
Proof.
  unfold JournalManager.post_entry, JournalManager._update_account_balances.
  destruct (JournalManager.get_entry_details s entry_id) as [entry|];
    [|discriminate].
  destruct (JournalEntry.status entry) eqn:St; simpl; try discriminate.
  destruct (JournalManager.update_balances _ s) as [[|] s1] eqn:U;
    [|discriminate].
  destruct (DatabaseManager.update_journal_entry _ entry_id s1)
    as [[n|] s2] eqn:W; [|discriminate].
  intros H; inversion H; subst.
  exists entry, s1, n; auto.
Qed.

Lemma post_entry_result s entry_id posted_by now s' :
  JournalManager.post_entry s entry_id posted_by now = (true, s') ->
  exists entry,
    JournalManager.get_entry_details s entry_id = Some entry /\
    JournalEntry.status entry = draft /\
    JournalManager.get_entry_details s' entry_id =
      Some (fold_left DatabaseManager.assign
              [col_status posted; col_posted_at (Some now);
               col_posted_by (Some posted_by)] entry).
Proof.
  intros H. apply post_entry_inv in H.
  destruct H as (entry & s1 & n & G & St & U & W).
  exists entry; repeat split; auto.
  apply update_balances_entries in U. destruct U as (Ue & _).
  apply update_journal_entry_commit in W.
  destruct W as (_ & _ & _ & We & _).
  unfold JournalManager.get_entry_details in *.
  rewrite We, find_update_rows, Ue, G. reflexivity.
Qed.

Lemma posted_or_approved_not_draft st :
  st = posted \/ st = approved ->
  JournalManager.posted_or_approved st = true /\ EntryStatus_eqb st draft = false.
Proof. intros [-> | ->]; split; reflexivity. Qed.

(** C4.  An entry whose status is posted or approved is immutable:
    [update_entry], [delete_entry] and [post_entry] return [False] and leave
    the whole store as it was (the entry, its lines and every account
    balance); in particular a second [post_entry] of an entry that was just
    posted returns [False] and changes nothing. *)
Theorem non_draft_entry_is_immutable :
  (forall s entry_id entry kwargs posted_by now,
     JournalManager.get_entry_details s entry_id = Some entry ->
     JournalEntry.status entry = posted \/ JournalEntry.status entry = approved ->
     JournalManager.update_entry s entry_id kwargs = (false, s) /\
     JournalManager.delete_entry s entry_id = (false, s) /\
     JournalManager.post_entry s entry_id posted_by now = (false, s))
  /\
  (forall s entry_id posted_by now s' posted_by' now',
     JournalManager.post_entry s entry_id posted_by now = (true, s') ->
     JournalManager.post_entry s' entry_id posted_by' now' = (false, s')).
Proof.
  assert (Fix : forall s entry_id entry kwargs posted_by now,
     JournalManager.get_entry_details s entry_id = Some entry ->
     JournalEntry.status entry = posted \/ JournalEntry.status entry = approved ->
     JournalManager.update_entry s entry_id kwargs = (false, s) /\
     JournalManager.delete_entry s entry_id = (false, s) /\
     JournalManager.post_entry s entry_id posted_by now = (false, s)).
  { intros s entry_id entry kwargs posted_by now G St.
    apply posted_or_approved_not_draft in St. destruct St as (P & D).
    unfold JournalManager.update_entry, JournalManager.delete_entry,
      JournalManager.post_entry.
    rewrite G, P, D. simpl. auto. }
  split; [exact Fix|].
  intros s entry_id posted_by now s' posted_by' now' H.
  apply post_entry_result in H. destruct H as (entry & _ & _ & G').
  refine (proj2 (proj2 (Fix s' entry_id _ [] posted_by' now' G' _))).
  left. destruct entry; reflexivity.
Qed.

Lemma non_draft_entry_is_immutable_witness :
  let s := Scenario.after_post [] in
  (JournalManager.update_entry s 1 [col_description "x"] = (false, s) /\
   JournalManager.delete_entry s 1 = (false, s) /\
   JournalManager.post_entry s 1 1 0 = (false, s)) /\
  JournalManager.post_entry s 1 2 5 = (false, s).
Proof.
  split.
  - refine (proj1 non_draft_entry_is_immutable (Scenario.after_post []) 1%nat
              _ [col_description "x"] 1%nat 0%nat _ _).
    + vm_compute. reflexivity.
    + left. reflexivity.
  - refine (proj2 non_draft_entry_is_immutable (Scenario.after_create [])
              1%nat 1%nat 0%nat (Scenario.after_post []) 2%nat 5%nat _).
    vm_compute. reflexivity.
Defined.

(** ** Creation of entries *)

Lemma next_rowid_fresh seq ids i :
  In i ids -> i <> DatabaseManager.next_rowid seq ids.
Proof.
  intros Hin. unfold DatabaseManager.next_rowid.
  assert (H : (i <= list_max ids)%nat).
  { pose proof (proj1 (list_max_le ids (list_max ids)) (Nat.le_refl _)) as F.
    rewrite Forall_forall in F. apply F, Hin. }
  lia.
Qed.

Lemma find_entry_fresh rows seq :
  find (fun e => Nat.eqb (JournalEntry.id e)
                   (DatabaseManager.next_rowid seq (map JournalEntry.id rows)))
       rows = None.
Proof.
  destruct (find _ rows) as [e|] eqn:F; [|reflexivity].
  apply find_some in F. destruct F as (Hin & E).
  apply Nat.eqb_eq in E.
  exfalso. eapply next_rowid_fresh; [|exact E].
  apply in_map, Hin.
Qed.

Lemma find_app_none {A : Type} (p : A -> bool) l1 l2 :
  find p l1 = None -> find p (l1 ++ l2) = find p l2.
Proof.
  induction l1 as [|x r IH]; simpl; [reflexivity|].
  destruct (p x); [discriminate|exact IH].
Qed.

Lemma calculate_entry_totals_acc lines : forall d c,
  fold_left
    (fun totals line =>
       (fst totals + LineDict.debit line, snd totals + LineDict.credit line))
    lines (d, c) =
  (d + Sql.sum LineDict.debit lines, c + Sql.sum LineDict.credit lines).
Proof.
  induction lines as [|l r IH]; intros d c; simpl.
  - f_equal; lia.
  - rewrite IH. simpl. f_equal; lia.
Qed.

Lemma calculate_entry_totals_sum lines :
  JournalManager._calculate_entry_totals lines =
  (Sql.sum LineDict.debit lines, Sql.sum LineDict.credit lines).
Proof.
  unfold JournalManager._calculate_entry_totals.
  rewrite calculate_entry_totals_acc. reflexivity.
Qed.

Lemma validate_journal_line_valid s line :
  JournalManager._validate_journal_line s line = valid ->
  exists account_id account,
    LineDict.account_id line = Some account_id /\
    DatabaseManager.get_account s account_id = Some account /\
    Account.is_active account = true /\
    amounts_ok (LineDict.debit line) (LineDict.credit line).
Proof.
  unfold JournalManager._validate_journal_line.
  destruct (LineDict.account_id line) as [account_id|]; [|discriminate].
  destruct (DatabaseManager.get_account s account_id) as [account|] eqn:G;
    [|discriminate].
  destruct (Account.is_active account) eqn:Act; simpl; [|discriminate].
  cbv zeta. rewrite !Z.gtb_ltb.
  destruct (Z.ltb_spec (LineDict.debit line) 0),
           (Z.ltb_spec (LineDict.credit line) 0),
           (Z.ltb_spec 0 (LineDict.debit line)),
           (Z.ltb_spec 0 (LineDict.credit line)),
           (Z.eqb_spec (LineDict.debit line) 0),
           (Z.eqb_spec (LineDict.credit line) 0);
    simpl; try discriminate; intros _;
    exists account_id, account; unfold amounts_ok;
    repeat split; try reflexivity; try assumption; lia.
Qed.

Lemma validate_lines_valid s lines : forall i,
  JournalManager.validate_lines s i lines = valid ->
  forall line, In line lines ->
    JournalManager._validate_journal_line s line = valid.
Proof.
  induction lines as [|l r IH]; intros i H line Hin; [destruct Hin|].
  simpl in H.
  destruct (JournalManager._validate_journal_line s l) eqn:V; [|discriminate].
  destruct Hin as [<-|Hin]; [exact V|].
  eapply IH; eauto.
Qed.

Lemma validate_entry_valid s lines :
  JournalManager.validate_entry s lines = valid ->
  (2 <= List.length lines)%nat /\
  Z.abs (Sql.sum LineDict.debit lines - Sql.sum LineDict.credit lines)
    <= tolerance /\
  forall line, In line lines ->
    JournalManager._validate_journal_line s line = valid.
Proof.
  unfold JournalManager.validate_entry.
  destruct (Nat.ltb_spec (List.length lines) 2); [discriminate|].
  rewrite calculate_entry_totals_sum; simpl.
  unfold Z.gtb.
  destruct (Z.compare_spec
              (Z.abs (Sql.sum LineDict.debit lines - Sql.sum LineDict.credit lines))
              tolerance);
    try discriminate; intros V; repeat split; try lia;
    eapply validate_lines_valid; eauto.
Qed.

Lemma insert_lines_commit entry_id created_by lines : forall i s s',
  JournalManager.insert_lines entry_id created_by i lines s = Some s' ->
  accounts s' = accounts s /\ fiscal_years s' = fiscal_years s /\
  journal_entries s' = journal_entries s /\
  exists rows,
    journal_lines s' = (journal_lines s ++ rows)%list /\
    Forall2 (row_of_line entry_id) lines rows.
Proof.
  induction lines as [|line rest IH]; intros i s s' H; simpl in H.
  - inversion H; subst. repeat split; auto.
    exists []. rewrite app_nil_r. split; [reflexivity|constructor].
  - destruct (LineDict.account_id line) as [account_id|] eqn:A; [|discriminate].
    destruct (existsb _ (journal_lines s)); [discriminate|].
    apply IH in H. simpl in H.
    destruct H as (Ha & Hf & He & rows & Hl & F).
    repeat split; auto.
    eexists (_ :: rows). split.
    + rewrite Hl, <- app_assoc. reflexivity.
    + constructor; [|exact F].
      unfold row_of_line; simpl; auto.
Qed.

Lemma create_entry_commit s entry_date description lines fiscal_year_id
    created_by now entry_id s' :
  JournalManager.create_entry s entry_date description lines fiscal_year_id
    created_by now = (Some entry_id, s') ->
  JournalManager.validate_entry s lines = valid /\
  entry_id = DatabaseManager.next_rowid (seq_journal_entries s)
               (map JournalEntry.id (journal_entries s)) /\
  accounts s' = accounts s /\ fiscal_years s' = fiscal_years s /\
  journal_entries s' =
    (journal_entries s ++
     [JournalEntry.mk entry_id
        (JournalManager.generate_entry_number s fiscal_year_id now)
        entry_date description fiscal_year_id
        (Sql.sum LineDict.debit lines) (Sql.sum LineDict.credit lines)
        draft None None None None created_by None])%list /\
  exists rows,
    journal_lines s' = (journal_lines s ++ rows)%list /\
    Forall2 (row_of_line entry_id) lines rows.
Proof.
  unfold JournalManager.create_entry.
  destruct (JournalManager.validate_entry s lines) eqn:V; [|discriminate].
  intros H. apply transaction_commit in H.
  pose proof (next_fault_tables s) as T; simpl in T.
  destruct T as (Ta & Tf & Te & Tl & _ & Tse & _).
  remember (snd (DatabaseManager.next_fault s)) as s0.
  unfold JournalManager.insert_entry in H. simpl in H.
  destruct (existsb _ (journal_entries s0)); [discriminate|].
  match type of H with
  | match JournalManager.insert_lines ?i ?c ?n ?l ?st with _ => _ end = _ =>
      destruct (JournalManager.insert_lines i c n l st) as [s2|] eqn:L;
        [|discriminate]
  end.
  inversion H; subst entry_id s2; clear H.
  apply insert_lines_commit in L. simpl in L.
  destruct L as (La & Lf & Le & rows & Ll & F).
  rewrite calculate_entry_totals_sum in *. simpl in *.
  rewrite Tse, Te in *. rewrite La, Lf, Le, Ll, Ta, Tf, Tl.
  repeat split; auto.
  exists rows; auto.
Qed.

Lemma create_entry_rollback s entry_date description lines fiscal_year_id
    created_by now s' :
  JournalManager.create_entry s entry_date description lines fiscal_year_id
    created_by now = (None, s') ->
  same_tables s s'.
Proof.
  unfold JournalManager.create_entry.
  destruct (JournalManager.validate_entry s lines).
  - intros H. apply transaction_rollback in H. subst s'.
    apply next_fault_same_tables.
  - intros H; inversion H; subst. unfold same_tables; auto.
Qed.



(** ** Updating an entry *)

Lemma find_some_count {A : Type} (p : A -> bool) l x :
  find p l = Some x -> (0 < DatabaseManager.count_rows p l)%nat.
Proof.
  unfold DatabaseManager.count_rows.
  induction l as [|y r IH]; simpl; [discriminate|].
  destruct (p y); simpl; [lia|exact IH].
Qed.

Lemma unchecked_columns_flags kwargs :
  forallb unchecked_column kwargs = true ->
  JournalManager.has_fiscal_year_id kwargs = false /\
  existsb DatabaseManager.is_unknown kwargs = false /\
  existsb DatabaseManager.sets_entry_number kwargs = false /\
  forall acc,
    fold_left (fun acc c => match c with col_date v => Some v | _ => acc end)
      kwargs acc = acc.
Proof.
  unfold JournalManager.has_fiscal_year_id.
  induction kwargs as [|c r IH]; simpl; [auto|].
  intros H. apply andb_true_iff in H. destruct H as (Hc & Hr).
  destruct (IH Hr) as (I1 & I2 & I3 & I4).
  rewrite I1, I2, I3.
  destruct c; simpl in *; try discriminate; auto.
Qed.

Lemma validate_entry_update_unchecked s entry_id kwargs :
  forallb unchecked_column kwargs = true ->
  JournalManager._validate_entry_update s entry_id kwargs = true.
Proof.
  intros H. apply unchecked_columns_flags in H.
  destruct H as (F & _ & _ & D).
  unfold JournalManager._validate_entry_update, JournalManager.lookup_date.
  rewrite F, D. reflexivity.
Qed.

(** C10.  [update_entry] validates only [fiscal_year_id] (refused when the
    entry has lines) and [date] (refused outside the range of the fiscal
    year).  Any other column of a draft entry -- [total_debit],
    [total_credit], [status], ... -- is written as given: the call succeeds,
    the entry holds the new values, and no account balance and no line
    changes. *)
Theorem update_entry_writes_unchecked s entry_id :
  (forall kwargs,
     JournalManager.has_fiscal_year_id kwargs = true ->
     JournalManager.get_entry_lines s entry_id <> [] ->
     JournalManager.update_entry s entry_id kwargs = (false, s))
  /\
  (forall kwargs entry fiscal_year date,
     JournalManager.get_entry_details s entry_id = Some entry ->
     DatabaseManager.get_fiscal_year s (JournalEntry.fiscal_year_id entry)
       = Some fiscal_year ->
     JournalManager.lookup_date kwargs = Some date ->
     (date < FiscalYear.start_date fiscal_year \/
      FiscalYear.end_date fiscal_year < date)%nat ->
     JournalManager.update_entry s entry_id kwargs = (false, s))
  /\
  (forall kwargs entry,
     JournalManager.get_entry_details s entry_id = Some entry ->
     JournalEntry.status entry = draft ->
     hd false (faults s) = false ->
     kwargs <> [] ->
     forallb unchecked_column kwargs = true ->
     exists s',
       JournalManager.update_entry s entry_id kwargs = (true, s') /\
       JournalManager.get_entry_details s' entry_id =
         Some (fold_left DatabaseManager.assign kwargs entry) /\
       accounts s' = accounts s /\
       journal_lines s' = journal_lines s).
Proof.
  split; [|split].
  - intros kwargs F L.
    unfold JournalManager.update_entry.
    destruct (JournalManager.get_entry_details s entry_id) as [e|]; [|reflexivity].
    destruct (JournalManager.posted_or_approved _); [reflexivity|].
    unfold JournalManager._validate_entry_update. rewrite F.
    destruct (JournalManager.get_entry_lines s entry_id); [congruence|].
    reflexivity.
  - intros kwargs entry fiscal_year date G Fy D R.
    unfold JournalManager.update_entry. rewrite G.
    destruct (JournalManager.posted_or_approved _); [reflexivity|].
    unfold JournalManager._validate_entry_update.
    destruct (JournalManager.has_fiscal_year_id kwargs && _); [reflexivity|].
    rewrite D, G, Fy.
    replace (Nat.leb (FiscalYear.start_date fiscal_year) date
             && Nat.leb date (FiscalYear.end_date fiscal_year)) with false;
      [reflexivity|].
    symmetry. apply andb_false_iff.
    destruct R as [R|R]; [left|right]; apply Nat.leb_gt; exact R.
  - intros kwargs entry G St Hf Hne Hun.
    unfold JournalManager.update_entry.
    rewrite G, St, validate_entry_update_unchecked by exact Hun. simpl.
    apply unchecked_columns_flags in Hun.
    destruct Hun as (_ & U1 & U2 & _).
    unfold DatabaseManager.update_journal_entry.
    rewrite transaction_no_fault by exact Hf.
    destruct kwargs as [|c r]; [congruence|].
    rewrite U1, U2. simpl andb. cbv iota.
    pose proof (next_fault_tables s) as T; simpl in T.
    destruct T as (Ta & _ & Te & Tl & _).
    eexists. split; [|split; [|split]].
    + f_equal. rewrite Te. apply Nat.ltb_lt.
      eapply find_some_count. exact G.
    + unfold JournalManager.get_entry_details in *. simpl.
      rewrite find_update_rows, Te, G. reflexivity.
    + simpl. exact Ta.
    + simpl. exact Tl.
Qed.

Lemma update_entry_writes_unchecked_witness :
  let s := Scenario.after_create [] in
  (exists s' entry,
     JournalManager.update_entry s 1 [col_total_debit 12345] = (true, s') /\
     JournalManager.get_entry_details s' 1 = Some entry /\
     JournalEntry.total_debit entry = 12345 /\
     JournalEntry.total_credit entry = 100000) /\
  (exists s' entry,
     JournalManager.update_entry s 1 [col_status posted] = (true, s') /\
     JournalManager.get_entry_details s' 1 = Some entry /\
     JournalEntry.status entry = posted /\
     map Account.current_balance (accounts s') = [500000; 0]).
Proof.
  pose proof (update_entry_writes_unchecked (Scenario.after_create []) 1)
    as (_ & _ & W).
  assert (G : exists entry,
             JournalManager.get_entry_details (Scenario.after_create []) 1
               = Some entry /\ JournalEntry.status entry = draft
               /\ JournalEntry.total_credit entry = 100000).
  { eexists. vm_compute. repeat split; reflexivity. }
  destruct G as (entry & G & St & Tc).
  split.
  - destruct (W [col_total_debit 12345] entry G St eq_refl
                ltac:(discriminate) eq_refl) as (s' & U & G' & _).
    exists s'. eexists. split; [exact U|]. split; [exact G'|].
    destruct entry; simpl in *. auto.
  - destruct (W [col_status posted] entry G St eq_refl
                ltac:(discriminate) eq_refl) as (s' & U & G' & A & _).
    exists s'. eexists. split; [exact U|]. split; [exact G'|].
    rewrite A. destruct entry; simpl in *. split; reflexivity.
Defined.

(** ** Deleting an account *)

Lemma find_filter_negb_id id rows :
  find (fun a => Nat.eqb (Account.id a) id)
       (filter (fun a => negb (Nat.eqb (Account.id a) id)) rows) = None.
Proof.
  induction rows as [|a r IH]; simpl; [reflexivity|].
  destruct (Nat.eqb (Account.id a) id) eqn:E; simpl; [exact IH|].
  rewrite E. exact IH.
Qed.

(** C7, as the code has it.  Without [force], [delete_account] returns
    [False] and changes nothing when a journal line references the account.
    With [force=True] the reference test only logs a warning: an account
    without active children is deleted, lines or not, and its lines stay. *)
Theorem delete_account_guard :
  (forall depth s account_id,
     AccountManager._has_journal_entries s account_id = true ->
     AccountManager.delete_account depth s account_id false = (false, s))
  /\
  (forall depth s account_id account,
     AccountManager.get_account_by_id s account_id = Some account ->
     AccountManager.get_child_accounts s account_id = [] ->
     hd false (faults s) = false ->
     exists s',
       AccountManager.delete_account (S depth) s account_id true = (true, s') /\
       AccountManager.get_account_by_id s' account_id = None /\
       journal_lines s' = journal_lines s).
Proof.
  split.
  - intros depth s account_id H.
    destruct depth as [|depth]; simpl; [reflexivity|].
    destruct (AccountManager.get_account_by_id s account_id); [|reflexivity].
    unfold AccountManager._validate_account_deletion. rewrite H. simpl.
    destruct (AccountManager.get_child_accounts s account_id); reflexivity.
  - intros depth s account_id account G C Hf.
    simpl. rewrite G, C. simpl.
    rewrite andb_false_r.
    unfold DatabaseManager.delete_account.
    rewrite transaction_no_fault by exact Hf.
    pose proof (next_fault_tables s) as T; simpl in T.
    destruct T as (Ta & _ & _ & Tl & _).
    eexists. split; [|split].
    + f_equal. rewrite Ta. apply Nat.ltb_lt.
      eapply find_some_count. exact G.
    + unfold AccountManager.get_account_by_id. simpl.
      apply find_filter_negb_id.
    + simpl. exact Tl.
Qed.

Lemma delete_account_guard_witness :
  AccountManager.delete_account 1000 (Scenario.after_post []) 1 false
    = (false, Scenario.after_post []) /\
  exists s',
    AccountManager.delete_account 1000 (Scenario.after_post []) 1 true
      = (true, s') /\
    AccountManager.get_account_by_id s' 1 = None /\
    journal_lines s' = journal_lines (Scenario.after_post []).
Proof.
  split.
  - apply (proj1 delete_account_guard 1000%nat (Scenario.after_post []) 1%nat).
    vm_compute. reflexivity.
  - eapply (proj2 delete_account_guard 999%nat (Scenario.after_post []) 1%nat).
    + vm_compute. reflexivity.
    + vm_compute. reflexivity.
    + vm_compute. reflexivity.
Defined.

(** C7 as the spec states it fails: Cash is referenced by the posted line of
    the sale, and [delete_account] with [force=True] returns [True] and
    removes it. *)
Lemma delete_account_force_counterexample :
  let s := Scenario.after_post [] in
  AccountManager._has_journal_entries s 1 = true /\
  ~ (fst (AccountManager.delete_account 1000 s 1 true) = false /\
     accounts (snd (AccountManager.delete_account 1000 s 1 true)) = accounts s).
Proof.
  split; [vm_compute; reflexivity|].
  intros (H & _). vm_compute in H. discriminate.
Qed.

(** ** Posting without storage faults *)

Lemma update_account_balance_no_fault id v s :
  faults s = [] ->
  exists n s',
    DatabaseManager.update_account_balance id v s = (Some n, s') /\
    faults s' = [].
Proof.
  intros F. unfold DatabaseManager.update_account_balance,
    DatabaseManager.transaction, DatabaseManager.next_fault.
  rewrite F. do 2 eexists. split; [reflexivity|exact F].
Qed.

Lemma update_balances_no_fault rows : forall s,
  faults s = [] ->
  exists s', JournalManager.update_balances rows s = (true, s')
             /\ faults s' = [].
Proof.
  induction rows as [|row rest IH]; intros s F; simpl.
  - exists s. auto.
  - destruct (AccountManager.get_account_by_id s _) as [account|]; [|auto].
    match goal with
    | |- context [DatabaseManager.update_account_balance ?i ?v s] =>
        destruct (update_account_balance_no_fault i v s F) as (n & s1 & U & F1)
    end.
    rewrite U. apply IH, F1.
Qed.

(** In a store whose storage does not fail, [post_entry] posts every draft
    entry, and a [False] from it leaves the store as it was. *)
Lemma post_entry_without_faults s entry_id posted_by now :
  faults s = [] ->
  (forall entry,
     JournalManager.get_entry_details s entry_id = Some entry ->
     JournalEntry.status entry = draft ->
     exists s', JournalManager.post_entry s entry_id posted_by now = (true, s'))
  /\
  (forall s',
     JournalManager.post_entry s entry_id posted_by now = (false, s') -> s' = s).
Proof.
  intros F.
  assert (P : forall entry,
     JournalManager.get_entry_details s entry_id = Some entry ->
     JournalEntry.status entry = draft ->
     exists s', JournalManager.post_entry s entry_id posted_by now = (true, s')).
  { intros entry G St.
    unfold JournalManager.post_entry, JournalManager._update_account_balances.
    rewrite G, St. simpl.
    destruct (update_balances_no_fault
                (JournalManager.get_entry_lines s entry_id) s F)
      as (s1 & U & F1).
    rewrite U.
    pose proof (update_balances_entries _ _ _ U) as (Ue & _).
    unfold DatabaseManager.update_journal_entry,
      DatabaseManager.transaction, DatabaseManager.next_fault.
    rewrite F1. simpl. eexists. f_equal.
    rewrite Ue. apply Nat.ltb_lt. eapply find_some_count. exact G. }
  split; [exact P|].
  intros s' H.
  unfold JournalManager.post_entry in H.
  destruct (JournalManager.get_entry_details s entry_id) as [entry|] eqn:G;
    [|inversion H; reflexivity].
  destruct (JournalEntry.status entry) eqn:St; simpl in H;
    try (inversion H; reflexivity).
  destruct (P entry eq_refl St) as (s2 & Q).
  unfold JournalManager.post_entry in Q. rewrite G, St in Q. simpl in Q.
  rewrite Q in H. discriminate.
Qed.

(** ** Posting is not atomic *)

(** C3 fails on the code: each balance write and the status update is a
    transaction of its own.  When the second balance write of the sale
    raises, [post_entry] returns [False], yet Cash already went from 5000.00
    to 6000.00 and the entry is still a draft; when the status update raises,
    both balances have moved and the entry is still a draft. *)
Theorem post_entry_partial_application :
  (let s := Scenario.after_create [false; false; false; false; true] in
   let r := JournalManager.post_entry s 1 1 0 in
   fst r = false /\
   map Account.current_balance (accounts s) = [500000; 0] /\
   map Account.current_balance (accounts (snd r)) = [600000; 0] /\
   map JournalEntry.status (journal_entries (snd r)) = [draft])
  /\
  (let s := Scenario.after_create [false; false; false; false; false; true] in
   let r := JournalManager.post_entry s 1 1 0 in
   fst r = false /\
   map Account.current_balance (accounts s) = [500000; 0] /\
   map Account.current_balance (accounts (snd r)) = [600000; 100000] /\
   map JournalEntry.status (journal_entries (snd r)) = [draft]).
Proof. vm_compute. repeat split; reflexivity. Qed.

(** ** Account codes *)

(** The parts of the documented pattern the code follows. *)

Lemma first_root_code s :
  filter (fun a => AccountManager.is_null (Account.parent_id a)
                   && Account.is_active a) (accounts s) = [] ->
  AccountManager.generate_account_code s None = Some "1".
Proof.
  intros H. unfold AccountManager.generate_account_code.
  rewrite H. reflexivity.
Qed.

Lemma first_child_code s k parent :
  AccountManager.get_account_by_id s (S k) = Some parent ->
  Account.level parent <> 0%nat ->
  filter (fun a => AccountManager.option_nat_eqb (Account.parent_id a) (S k)
                   && Account.is_active a) (accounts s) = [] ->
  AccountManager.generate_account_code s (Some (S k))
  = Some (Account.code parent ++ "01").
Proof.
  intros G L H. unfold AccountManager.generate_account_code.
  rewrite G, H. apply Nat.eqb_neq in L. simpl. rewrite L. reflexivity.
Qed.

Lemma next_child_code s k parent last_child last_number :
  AccountManager.get_account_by_id s (S k) = Some parent ->
  Account.level parent <> 0%nat ->
  hd_error
    (Sql.order_by AccountManager.code_ge
       (filter (fun a => AccountManager.option_nat_eqb (Account.parent_id a) (S k)
                         && Account.is_active a) (accounts s)))
    = Some last_child ->
  Py.int (Py.suffix 2 (Account.code last_child)) = Some last_number ->
  AccountManager.generate_account_code s (Some (S k))
  = if Nat.ltb 99 (last_number + 1) then None
    else Some (Account.code parent ++ Py.zfill 2 (last_number + 1)).
Proof.
  intros G L H I. unfold AccountManager.generate_account_code.
  rewrite G, H, I. apply Nat.eqb_neq in L. simpl. rewrite L. reflexivity.
Qed.

Lemma sibling_codes_follow_pattern :
  map Account.code (accounts (Scenario.roots 3)) = ["1"; "2"; "3"] /\
  map Account.code (accounts (Scenario.siblings 3))
    = ["1"; "101"; "102"; "103"] /\
  AccountManager.generate_account_code (Scenario.siblings 98) (Some 1%nat)
    = Some "199" /\
  AccountManager.generate_account_code (Scenario.siblings 99) (Some 1%nat)
    = None /\
  AccountManager.add_account (Scenario.siblings 99) (Some 1%nat)
    "Child 100" "Child 100" "analytic" "asset" 0 None
    = (None, Scenario.siblings 99).
Proof. vm_compute. repeat split; reflexivity. Qed.

(** C8 fails on the code at the eleventh root: the ten roots added first
    carry the codes "1" to "10"; [ORDER BY code DESC] compares text, so the
    last root is "9", the next code is "10" again, and [add_account] fails on
    the UNIQUE constraint instead of creating root "11". *)
Theorem eleventh_root_code_collides :
  let s := Scenario.roots 10 in
  map Account.code (accounts s)
    = ["1"; "2"; "3"; "4"; "5"; "6"; "7"; "8"; "9"; "10"] /\
  AccountManager.generate_account_code s None = Some "10" /\
  AccountManager.add_account s None "Root 11" "Root 11" "general" "asset" 0 None
    = (None, s).
Proof. vm_compute. repeat split; reflexivity. Qed.

(** ** Hierarchy rules *)

Lemma str_not_empty n : Py.str n <> "".
Proof.
  unfold Py.str, NilZero.string_of_uint.
  destruct (Nat.to_uint n); simpl; discriminate.
Qed.

Lemma append_not_empty a b : b <> "" -> (a ++ b)%string <> "".
Proof.
  destruct a; simpl; [auto|discriminate].
Qed.

Lemma generate_account_code_not_empty s parent_id code :
  AccountManager.generate_account_code s parent_id = Some code -> code <> "".
Proof.
  unfold AccountManager.generate_account_code.
  destruct parent_id as [[|k]|].
  - destruct (hd_error _) as [r|].
    + destruct (Py.int (Account.code r)); simpl; [|discriminate].
      intros H; inversion H. apply str_not_empty.
    + intros H; inversion H. discriminate.
  - destruct (AccountManager.get_account_by_id s (S k)) as [p|]; [|discriminate].
    match goal with
    | |- match ?x with _ => _ end = _ -> _ => destruct x as [n|]; [|discriminate]
    end.
    destruct (Nat.ltb 99 n); [discriminate|].
    destruct (Nat.eqb (Account.level p) 0); intros H; inversion H.
    + apply str_not_empty.
    + apply append_not_empty. unfold Py.zfill.
      apply append_not_empty, str_not_empty.
  - destruct (hd_error _) as [r|].
    + destruct (Py.int (Account.code r)); simpl; [|discriminate].
      intros H; inversion H. apply str_not_empty.
    + intros H; inversion H. discriminate.
Qed.

Lemma find_account_fresh rows seq :
  find (fun a => Nat.eqb (Account.id a)
                   (DatabaseManager.next_rowid seq (map Account.id rows)))
       rows = None.
Proof.
  destruct (find _ rows) as [a|] eqn:F; [|reflexivity].
  apply find_some in F. destruct F as (Hin & E).
  apply Nat.eqb_eq in E.
  exfalso. eapply next_rowid_fresh; [|exact E].
  apply in_map, Hin.
Qed.

Lemma existsb_code_false code rows :
  (forall a, In a rows -> Account.code a <> code) ->
  existsb (fun a => Account.code a =? code) rows = false.
Proof.
  intros H. induction rows as [|a r IH]; simpl; [reflexivity|].
  rewrite IH by (intros; apply H; right; assumption).
  rewrite orb_false_r. apply String.eqb_neq. apply H. left. reflexivity.
Qed.

Lemma insert_account_commit data s account_id s' :
  DatabaseManager.insert_account data s = (Some account_id, s') ->
  account_id = DatabaseManager.next_rowid (seq_accounts s)
                 (map Account.id (accounts s)) /\
  accounts s' = (accounts s ++ [DatabaseManager.set_account_id account_id data])%list /\
  fiscal_years s' = fiscal_years s /\
  journal_entries s' = journal_entries s /\
  journal_lines s' = journal_lines s.
Proof.
  unfold DatabaseManager.insert_account.
  intros H. apply transaction_commit in H.
  pose proof (next_fault_tables s) as T; simpl in T.
  destruct T as (Ta & Tf & Te & Tl & Tsa & _).
  destruct (existsb _ _); [discriminate|].
  inversion H; subst; simpl.
  rewrite Ta, Tf, Te, Tl, Tsa. repeat split; reflexivity.
Qed.

Lemma find_all_false {A : Type} (p : A -> bool) l :
  (forall x, In x l -> p x = false) -> find p l = None.
Proof.
  induction l as [|x r IH]; intros H; simpl; [reflexivity|].
  rewrite H by (left; reflexivity).
  apply IH. intros; apply H; right; assumption.
Qed.

Lemma validate_name_uniqueness_free s k name_ar :
  (forall a, In a (accounts s) ->
     Account.parent_id a = Some (S k) -> Account.is_active a = true ->
     Account.name_ar a <> name_ar) ->
  AccountManager._validate_name_uniqueness s (Some (S k)) name_ar = true.
Proof.
  intros H. unfold AccountManager._validate_name_uniqueness.
  rewrite find_all_false; [reflexivity|].
  intros a Ha.
  destruct (Account.parent_id a) as [p|] eqn:P; simpl; [|reflexivity].
  destruct (Nat.eqb_spec p (S k)) as [E|E]; simpl; [|reflexivity].
  destruct (Account.is_active a) eqn:Act; [|apply andb_false_r].
  rewrite andb_true_r. apply String.eqb_neq.
  apply H; [exact Ha|congruence|exact Act].
Qed.

(** C9, as the code has it.  Under an analytic parent [add_account] fails
    for every type, and under an assistant parent for every type but
    ["analytic"]; nothing is stored.  An analytic child under a general or
    assistant parent is created when the level of the parent is below 9, the names
    are not empty, the category is one of the five, no active sibling has the
    name, a code is generated that no account carries, and the storage does
    not raise. *)
Theorem hierarchy_rules_in_add_account s k parent name_ar name_en
    account_category opening_balance created_by :
  AccountManager.get_account_by_id s (S k) = Some parent ->
  (Account.account_type parent = analytic ->
   forall account_type,
     AccountManager.add_account s (Some (S k)) name_ar name_en account_type
       account_category opening_balance created_by = (None, s))
  /\
  (Account.account_type parent = assistant ->
   forall account_type, account_type <> "analytic" ->
     AccountManager.add_account s (Some (S k)) name_ar name_en account_type
       account_category opening_balance created_by = (None, s))
  /\
  (Account.account_type parent <> analytic ->
   (Account.level parent < 9)%nat ->
   name_ar <> "" -> name_en <> "" ->
   parse_account_category account_category <> None ->
   (forall a, In a (accounts s) ->
      Account.parent_id a = Some (S k) -> Account.is_active a = true ->
      Account.name_ar a <> name_ar) ->
   forall code,
     AccountManager.generate_account_code s (Some (S k)) = Some code ->
     (forall a, In a (accounts s) -> Account.code a <> code) ->
     hd false (faults s) = false ->
     exists account_id s' account,
       AccountManager.add_account s (Some (S k)) name_ar name_en "analytic"
         account_category opening_balance created_by = (Some account_id, s') /\
       AccountManager.get_account_by_id s' account_id = Some account /\
       Account.account_type account = analytic /\
       Account.parent_id account = Some (S k) /\
       Account.level account = (Account.level parent + 1)%nat /\
       Account.current_balance account = opening_balance).
Proof.
  intros G. split; [|split].
  - intros Ty account_type.
    unfold AccountManager.add_account, AccountManager._validate_account_inputs.
    destruct ((name_ar =? "") || (name_en =? "")); [reflexivity|].
    destruct (is_null_type _); [reflexivity|].
    destruct (is_null_category _); [reflexivity|].
    rewrite G. unfold AccountManager.validate_account_hierarchy.
    rewrite G, Ty. reflexivity.
  - intros Ty account_type Hne.
    unfold AccountManager.add_account, AccountManager._validate_account_inputs.
    destruct ((name_ar =? "") || (name_en =? "")); [reflexivity|].
    destruct (is_null_type _); [reflexivity|].
    destruct (is_null_category _); [reflexivity|].
    rewrite G. unfold AccountManager.validate_account_hierarchy.
    rewrite G, Ty. simpl.
    apply String.eqb_neq in Hne. rewrite Hne. reflexivity.
  - intros Ty Lv Har Hen Cat Uniq code Gen Fresh Hf.
    apply validate_name_uniqueness_free in Uniq.
    assert (T1 : AccountType_eqb (Account.account_type parent) analytic = false)
      by (destruct (Account.account_type parent); simpl; congruence).
    apply String.eqb_neq in Har, Hen. apply Nat.leb_gt in Lv.
    destruct (parse_account_category account_category) as [category|] eqn:PC;
      [|congruence].
    unfold AccountManager.add_account, AccountManager._validate_account_inputs,
      AccountManager.validate_account_hierarchy.
    rewrite Har, Hen, PC, !G, T1, Lv, Uniq, Gen.
    change (parse_account_type "analytic") with (Some analytic).
    change ("analytic" =? "analytic") with true.
    cbn [orb andb negb is_null_type is_null_category].
    rewrite andb_false_r. cbn [negb].
    pose proof (generate_account_code_not_empty _ _ _ Gen) as Hcode.
    apply String.eqb_neq in Hcode. rewrite Hcode.
    unfold DatabaseManager.insert_account.
    rewrite transaction_no_fault by exact Hf.
    pose proof (next_fault_tables s) as T; simpl in T.
    destruct T as (Ta & _).
    cbn [Account.code]. rewrite Ta, existsb_code_false by exact Fresh.
    do 3 eexists. split; [reflexivity|].
    unfold AccountManager.get_account_by_id; simpl.
    rewrite find_app_none by apply find_account_fresh.
    simpl. rewrite Nat.eqb_refl. simpl.
    unfold AccountManager._get_account_level. rewrite G.
    repeat split; reflexivity.
Qed.

Lemma hierarchy_rules_in_add_account_witness :
  exists account_id s' account,
    AccountManager.add_account (Scenario.chain 8) (Some 8%nat) "Leaf" "Leaf"
      "analytic" "asset" 0 None = (Some account_id, s') /\
    AccountManager.get_account_by_id s' account_id = Some account /\
    Account.account_type account = analytic /\
    Account.parent_id account = Some 8%nat /\
    Account.level account = 9%nat /\
    Account.current_balance account = 0.
Proof.
  assert (G : exists parent,
             AccountManager.get_account_by_id (Scenario.chain 8) 8 = Some parent
             /\ Account.account_type parent = general
             /\ Account.level parent = 8%nat).
  { eexists. vm_compute. repeat split; reflexivity. }
  destruct G as (parent & G & Ty & Lv).
  destruct (hierarchy_rules_in_add_account (Scenario.chain 8) 7 parent
              "Leaf" "Leaf" "asset" 0 None G) as (_ & _ & W).
  assert (R : exists account_id s' account,
             AccountManager.add_account (Scenario.chain 8) (Some 8%nat)
               "Leaf" "Leaf" "analytic" "asset" 0 None = (Some account_id, s') /\
             AccountManager.get_account_by_id s' account_id = Some account /\
             Account.account_type account = analytic /\
             Account.parent_id account = Some 8%nat /\
             Account.level account = (Account.level parent + 1)%nat /\
             Account.current_balance account = 0).
  { apply W with (code := "10101010101010101").
    - rewrite Ty. discriminate.
    - rewrite Lv. lia.
    - discriminate.
    - discriminate.
    - vm_compute. discriminate.
    - vm_compute. intros a H.
      repeat (destruct H as [<-|H]; [discriminate|]). destruct H.
    - vm_compute. reflexivity.
    - vm_compute. intros a H.
      repeat (destruct H as [<-|H]; [discriminate|]). destruct H.
    - reflexivity. }
  destruct R as (account_id & s' & account & A & G' & Ty' & P' & Lv' & B').
  exists account_id, s', account. rewrite Lv in Lv'.
  repeat split; assumption.
Defined.

(** C9 as the spec states it fails: the last account of a chain of nine
    general accounts is at level 9, and an analytic child under it is
    refused. *)
Lemma analytic_child_counterexample :
  let s := Scenario.chain 9 in
  option_map Account.account_type (AccountManager.get_account_by_id s 9)
    = Some general /\
  AccountManager.add_account s (Some 9%nat) "Leaf" "Leaf" "analytic" "asset"
    0 None = (None, s).
Proof. vm_compute. split; reflexivity. Qed.

(** ** Sums, ORDER BY and lookups *)

Lemma sum_app {A : Type} (f : A -> Z) l1 l2 :
  Sql.sum f (l1 ++ l2) = Sql.sum f l1 + Sql.sum f l2.
Proof.
  unfold Sql.sum. induction l1 as [|x r IH]; simpl; [reflexivity|].
  rewrite IH. lia.
Qed.

Lemma sum_single {A : Type} (f : A -> Z) x : Sql.sum f [x] = f x.
Proof. unfold Sql.sum. simpl. lia. Qed.

Lemma sum_ext_in {A : Type} (f g : A -> Z) l :
  (forall x, In x l -> f x = g x) -> Sql.sum f l = Sql.sum g l.
Proof.
  unfold Sql.sum. induction l as [|x r IH]; intros H; simpl; [reflexivity|].
  rewrite H by (left; reflexivity).
  rewrite IH by (intros; apply H; right; assumption). reflexivity.
Qed.

Lemma sum_zero {A : Type} (f : A -> Z) l :
  (forall x, In x l -> f x = 0) -> Sql.sum f l = 0.
Proof.
  unfold Sql.sum. induction l as [|x r IH]; intros H; simpl; [reflexivity|].
  rewrite H by (left; reflexivity).
  rewrite IH by (intros; apply H; right; assumption). reflexivity.
Qed.

Lemma sum_filter {A : Type} (f : A -> Z) (p : A -> bool) l :
  Sql.sum f (filter p l) = Sql.sum (fun x => if p x then f x else 0) l.
Proof.
  unfold Sql.sum. induction l as [|x r IH]; simpl; [reflexivity|].
  destruct (p x); simpl; rewrite IH; reflexivity.
Qed.

Lemma sum_map {A B : Type} (f : B -> Z) (g : A -> B) l :
  Sql.sum f (map g l) = Sql.sum (fun x => f (g x)) l.
Proof.
  unfold Sql.sum. induction l as [|x r IH]; simpl; [reflexivity|].
  rewrite IH. reflexivity.
Qed.

Lemma sum_flat_map {A B : Type} (f : B -> Z) (g : A -> list B) l :
  Sql.sum f (flat_map g l) = Sql.sum (fun x => Sql.sum f (g x)) l.
Proof.
  induction l as [|x r IH]; simpl; [reflexivity|].
  rewrite sum_app, IH. reflexivity.
Qed.

Lemma sum_plus {A : Type} (f g : A -> Z) l :
  Sql.sum (fun x => f x + g x) l = Sql.sum f l + Sql.sum g l.
Proof.
  unfold Sql.sum. induction l as [|x r IH]; simpl; [reflexivity|].
  rewrite IH. lia.
Qed.

Lemma sum_minus {A : Type} (f g : A -> Z) l :
  Sql.sum (fun x => f x - g x) l = Sql.sum f l - Sql.sum g l.
Proof.
  unfold Sql.sum. induction l as [|x r IH]; simpl; [reflexivity|].
  rewrite IH. lia.
Qed.

Lemma sum_permutation {A : Type} (f : A -> Z) l l' :
  Permutation l l' -> Sql.sum f l = Sql.sum f l'.
Proof.
  unfold Sql.sum. induction 1; simpl; lia.
Qed.

Section OrderByFacts.
Context {A : Type} (le : A -> A -> bool).

Lemma insert_row_permutation x l :
  Permutation (Sql.insert_row le x l) (x :: l).
Proof.
  induction l as [|y r IH]; simpl; [reflexivity|].
  destruct (le x y); [reflexivity|].
  rewrite IH. apply perm_swap.
Qed.

Lemma order_by_permutation l : Permutation (Sql.order_by le l) l.
Proof.
  induction l as [|x r IH]; simpl; [reflexivity|].
  rewrite insert_row_permutation, IH. reflexivity.
Qed.

Lemma order_by_in x l : In x (Sql.order_by le l) <-> In x l.
Proof.
  split; apply Permutation_in;
    [|symmetry]; apply order_by_permutation.
Qed.

Lemma order_by_nil l : Sql.order_by le l = [] -> l = [].
Proof.
  intros H. apply Permutation_nil.
  rewrite <- H. apply order_by_permutation.
Qed.

Lemma sum_order_by (f : A -> Z) l :
  Sql.sum f (Sql.order_by le l) = Sql.sum f l.
Proof. apply sum_permutation, order_by_permutation. Qed.
End OrderByFacts.

Lemma filter_none {A : Type} (p : A -> bool) l :
  (forall x, In x l -> p x = false) -> filter p l = [].
Proof.
  induction l as [|x r IH]; intros H; simpl; [reflexivity|].
  rewrite H by (left; reflexivity).
  apply IH. intros; apply H; right; assumption.
Qed.

Lemma filter_all {A : Type} (p : A -> bool) l :
  (forall x, In x l -> p x = true) -> filter p l = l.
Proof.
  induction l as [|x r IH]; intros H; simpl; [reflexivity|].
  rewrite H by (left; reflexivity). f_equal.
  apply IH. intros; apply H; right; assumption.
Qed.

Section AccountLookup.
Variable rows : list Account.t.
Hypothesis ids : NoDup (map Account.id rows).

Lemma account_id_inj a b :
  In a rows -> In b rows -> Account.id a = Account.id b -> a = b.
Proof using ids.
  revert ids. induction rows as [|x r IH]; intros N Ha Hb E; [destruct Ha|].
  inversion N as [|? ? Hx Hr]; subst.
  destruct Ha as [<-|Ha], Hb as [<-|Hb]; auto.
  - exfalso. apply Hx. rewrite E. apply in_map, Hb.
  - exfalso. apply Hx. rewrite <- E. apply in_map, Ha.
Qed.

Lemma find_account_in a :
  In a rows ->
  find (fun x => Nat.eqb (Account.id x) (Account.id a)) rows = Some a.
Proof using ids.
  intros Ha.
  destruct (find _ rows) as [b|] eqn:F.
  - apply find_some in F. destruct F as (Hb & E).
    apply Nat.eqb_eq in E. f_equal. apply account_id_inj; auto.
  - exfalso. apply (find_none _ _ F) in Ha.
    rewrite Nat.eqb_refl in Ha. discriminate.
Qed.

(** The accounts a line joins with: the one it references. *)
Lemma join_account_in a n :
  In a rows -> n = Account.id a ->
  filter (fun x => Nat.eqb n (Account.id x)) rows = [a].
Proof using ids.
  intros Ha ->. revert ids Ha.
  induction rows as [|x r IH]; intros N Ha; [destruct Ha|].
  inversion N as [|? ? Hx Hr]; subst. simpl.
  destruct Ha as [<-|Ha].
  - rewrite Nat.eqb_refl. f_equal.
    apply filter_none. intros y Hy.
    apply Nat.eqb_neq. intros E. apply Hx. rewrite E. apply in_map, Hy.
  - destruct (Nat.eqb_spec (Account.id a) (Account.id x)) as [E|E].
    + exfalso. apply Hx. rewrite <- E. apply in_map, Ha.
    + apply IH; auto.
Qed.
End AccountLookup.

Lemma find_map_id (g : Account.t -> Account.t) n rows :
  (forall x, Account.id (g x) = Account.id x) ->
  find (fun x => Nat.eqb (Account.id x) n) (map g rows) =
  option_map g (find (fun x => Nat.eqb (Account.id x) n) rows).
Proof.
  intros H. induction rows as [|x r IH]; simpl; [reflexivity|].
  rewrite H. destruct (Nat.eqb (Account.id x) n); [reflexivity|exact IH].
Qed.

Lemma map_id_preserved (g : Account.t -> Account.t) rows :
  (forall x, Account.id (g x) = Account.id x) ->
  map Account.id (map g rows) = map Account.id rows.
Proof.
  intros H. rewrite map_map. apply map_ext. exact H.
Qed.

(** ** Posting *)

Lemma set_current_balance_same a :
  Account.set_current_balance (Account.current_balance a) a = a.
Proof. destruct a; reflexivity. Qed.

Lemma credited_id rows a : Account.id (credited rows a) = Account.id a.
Proof. reflexivity. Qed.

Lemma new_balance_signed category current jl :
  JournalManager.new_balance category current
    (JournalLine.debit jl) (JournalLine.credit jl)
  = current + signed_amount category jl.
Proof.
  unfold JournalManager.new_balance, signed_amount.
  destruct (debit_normal category); lia.
Qed.

Lemma update_balances_accounts rows : forall s s',
  NoDup (map Account.id (accounts s)) ->
  JournalManager.update_balances rows s = (true, s') ->
  accounts s' = map (credited rows) (accounts s).
Proof.
  induction rows as [|row rest IH]; intros s s' N H; simpl in H.
  - inversion H; subst. symmetry.
    rewrite <- (map_id (accounts s')) at 2. apply map_ext.
    intros a. unfold credited, rows_delta. simpl.
    rewrite Z.add_0_r. apply set_current_balance_same.
  - destruct (AccountManager.get_account_by_id s _) as [account|] eqn:G.
    + destruct (DatabaseManager.update_account_balance _ _ s) as [[n|] s1] eqn:U;
        [|discriminate].
      apply update_account_balance_commit in U.
      destruct U as (_ & _ & _ & Ua).
      assert (N1 : NoDup (map Account.id (accounts s1))).
      { rewrite Ua, map_id_preserved; [exact N|].
        intros x. destruct (Nat.eqb _ _); reflexivity. }
      rewrite (IH s1 s' N1 H), Ua, map_map.
      apply map_ext_in. intros a Ha.
      unfold AccountManager.get_account_by_id in G.
      destruct (Nat.eqb_spec (Account.id a)
                  (JournalLine.account_id (fst row))) as [E|E].
      * assert (a = account).
        { pose proof (find_account_in _ N a Ha) as F.
          rewrite E, G in F. inversion F. reflexivity. }
        subst account.
        unfold credited, rows_delta. simpl.
        rewrite E, Nat.eqb_refl, new_balance_signed.
        destruct a; unfold Account.set_current_balance; simpl. f_equal. lia.
      * unfold credited, rows_delta. simpl.
        apply Nat.eqb_neq in E. rewrite Nat.eqb_sym in E. rewrite E.
        reflexivity.
    + rewrite (IH s s' N H).
      apply map_ext_in. intros a Ha.
      unfold credited, rows_delta. simpl.
      unfold AccountManager.get_account_by_id in G.
      pose proof (find_none _ _ G a Ha) as E. simpl in E.
      rewrite Nat.eqb_sym in E. rewrite E. reflexivity.
Qed.

(** The rows [get_entry_lines] joins to an account are the lines of the
    entry that reference it. *)
Lemma get_entry_lines_delta s entry_id a :
  NoDup (map Account.id (accounts s)) ->
  In a (accounts s) ->
  rows_delta (Account.account_category a) (Account.id a)
    (JournalManager.get_entry_lines s entry_id)
  = posting_delta s entry_id a.
Proof.
  intros N Ha.
  unfold rows_delta, JournalManager.get_entry_lines, posting_delta, lines_of.
  rewrite sum_order_by, sum_flat_map.
  rewrite sum_filter, sum_filter.
  apply sum_ext_in. intros jl _.
  destruct (Nat.eqb (JournalLine.entry_id jl) entry_id); simpl; [|reflexivity].
  destruct (Nat.eqb_spec (JournalLine.account_id jl) (Account.id a)) as [E|E].
  - rewrite (join_account_in _ N a _ Ha E). simpl.
    rewrite E, Nat.eqb_refl. apply Z.add_0_r.
  - apply sum_zero. intros r Hr.
    apply in_map_iff in Hr. destruct Hr as (x & <- & _). simpl.
    apply Nat.eqb_neq in E. rewrite E. reflexivity.
Qed.

Lemma post_entry_accounts s entry_id posted_by now s' :
  NoDup (map Account.id (accounts s)) ->
  JournalManager.post_entry s entry_id posted_by now = (true, s') ->
  accounts s' =
    map (credited (JournalManager.get_entry_lines s entry_id)) (accounts s) /\
  journal_lines s' = journal_lines s /\
  fiscal_years s' = fiscal_years s /\
  journal_entries s' =
    DatabaseManager.update_rows
      [col_status posted; col_posted_at (Some now);
       col_posted_by (Some posted_by)] entry_id (journal_entries s).
Proof.
  intros N H. apply post_entry_inv in H.
  destruct H as (entry & s1 & n & _ & _ & U & W).
  pose proof (update_balances_accounts _ _ _ N U) as Ua.
  apply update_balances_entries in U. destruct U as (Ue & Ul & Uf).
  apply update_journal_entry_commit in W.
  destruct W as (Wa & Wl & Wf & We & _).
  rewrite Wa, Wl, Wf, We, Ua, Ue, Ul, Uf. auto.
Qed.

(** C2.  When [post_entry] succeeds, every account is the row it was with
    its [current_balance] moved by the lines of the entry that reference it,
    each line counted once: by debit - credit for an asset or expense
    account, by credit - debit for a liability, revenue or equity account.
    Posting [debit Cash 1000.00, credit Revenue 1000.00] with Cash an asset
    at 5000.00 and Revenue a revenue at 0 leaves Cash at 6000.00 and Revenue
    at 1000.00. *)
Theorem post_entry_sign_convention :
  (forall s entry_id posted_by now s' a,
     NoDup (map Account.id (accounts s)) ->
     JournalManager.post_entry s entry_id posted_by now = (true, s') ->
     In a (accounts s) ->
     AccountManager.get_account_by_id s' (Account.id a) =
       Some (Account.set_current_balance
               (Account.current_balance a + posting_delta s entry_id a) a)
     /\
     (forall jl,
        lines_of s entry_id (Account.id a) = [jl] ->
        exists a',
          AccountManager.get_account_by_id s' (Account.id a) = Some a' /\
          (Account.account_category a = asset \/
           Account.account_category a = expense ->
           Account.current_balance a' =
             Account.current_balance a
             + JournalLine.debit jl - JournalLine.credit jl) /\
          (Account.account_category a = liability \/
           Account.account_category a = revenue \/
           Account.account_category a = equity ->
           Account.current_balance a' =
             Account.current_balance a
             - JournalLine.debit jl + JournalLine.credit jl)))
  /\
  (let s := Scenario.after_create [] in
   let r := JournalManager.post_entry s 1 1 0 in
   fst r = true /\
   map (fun a => (Account.name_en a, Account.account_category a,
                  Account.current_balance a)) (accounts s)
     = [("Cash", asset, 500000); ("Revenue", revenue, 0)] /\
   map (fun a => (Account.name_en a, Account.account_category a,
                  Account.current_balance a)) (accounts (snd r))
     = [("Cash", asset, 600000); ("Revenue", revenue, 100000)]).
Proof.
  split; [|vm_compute; repeat split; reflexivity].
  intros s entry_id posted_by now s' a N H Ha.
  pose proof (post_entry_accounts _ _ _ _ _ N H) as (Hacc & _).
  assert (G : AccountManager.get_account_by_id s' (Account.id a) =
              Some (Account.set_current_balance
                      (Account.current_balance a + posting_delta s entry_id a) a)).
  { unfold AccountManager.get_account_by_id.
    rewrite Hacc, find_map_id by apply credited_id.
    rewrite (find_account_in _ N a Ha). simpl. unfold credited.
    rewrite get_entry_lines_delta by assumption. reflexivity. }
  split; [exact G|].
  intros jl L. eexists. split; [exact G|].
  unfold posting_delta. rewrite L. unfold Sql.sum, signed_amount. simpl.
  split.
  - intros [C|C]; rewrite C; simpl; lia.
  - intros [C|[C|C]]; rewrite C; simpl; lia.
Qed.

Lemma post_entry_sign_convention_witness :
  exists cash,
    AccountManager.get_account_by_id (Scenario.after_post []) 1 = Some cash /\
    Account.current_balance cash = 600000.
Proof.
  assert (G : exists a, In a (accounts (Scenario.after_create []))
                        /\ Account.id a = 1%nat
                        /\ Account.current_balance a = 500000
                        /\ posting_delta (Scenario.after_create []) 1 a = 100000).
  { eexists. vm_compute. split; [left; reflexivity|]. repeat split. }
  destruct G as (a & Ha & Hid & Hb & Hd).
  pose proof (proj1 post_entry_sign_convention (Scenario.after_create [])
                1%nat 1%nat 0%nat (Scenario.after_post []) a) as W.
  destruct W as (W & _).
  - vm_compute. repeat constructor; simpl; intuition discriminate.
  - vm_compute. reflexivity.
  - exact Ha.
  - rewrite Hid, Hb, Hd in W. eexists. split; [exact W|].
    reflexivity.
Defined.

(** ** The states the operations reach *)

Lemma entry_lines_sum s a cond :
  Sql.sum (fun r => signed_amount (Account.account_category a) (snd r))
    (ReportManager.entry_lines_of_account s (Account.id a)
       (fun je => cond (JournalEntry.status je)))
  = Sql.sum (entry_delta (journal_lines s) a cond) (journal_entries s).
Proof.
  unfold ReportManager.entry_lines_of_account.
  rewrite sum_flat_map. apply sum_ext_in. intros je _.
  unfold entry_delta. destruct (cond (JournalEntry.status je)).
  - rewrite sum_map. reflexivity.
  - reflexivity.
Qed.

Lemma cached_delta_entries s a :
  cached_delta s a =
  Sql.sum (entry_delta (journal_lines s) a JournalManager.posted_or_approved)
          (journal_entries s).
Proof.
  unfold cached_delta.
  apply (entry_lines_sum s a JournalManager.posted_or_approved).
Qed.

Lemma cached_delta_ext s s' a a' :
  journal_entries s' = journal_entries s ->
  journal_lines s' = journal_lines s ->
  Account.id a' = Account.id a ->
  Account.account_category a' = Account.account_category a ->
  cached_delta s' a' = cached_delta s a.
Proof.
  intros He Hl Hi Hc. rewrite !cached_delta_entries, He, Hl.
  apply sum_ext_in. intros je _. unfold entry_delta.
  rewrite Hi, Hc. reflexivity.
Qed.

Lemma NoDup_snoc_fresh (ids : list nat) (i : nat) :
  NoDup ids -> ~ In i ids -> NoDup (ids ++ [i])%list.
Proof.
  intros N F. apply NoDup_app; [exact N|repeat constructor; simpl; tauto|].
  intros x Hx [<-|[]]. exact (F Hx).
Qed.

Lemma next_rowid_not_in seq ids :
  ~ In (DatabaseManager.next_rowid seq ids) ids.
Proof.
  intros H. exact (next_rowid_fresh seq ids _ H eq_refl).
Qed.

Lemma add_account_commit s parent_id name_ar name_en account_type
    account_category opening_balance created_by account_id s' :
  AccountManager.add_account s parent_id name_ar name_en account_type
    account_category opening_balance created_by = (Some account_id, s') ->
  exists data,
    DatabaseManager.insert_account data s = (Some account_id, s') /\
    Account.is_active data = true /\
    Account.opening_balance data = opening_balance /\
    Account.current_balance data = opening_balance.
Proof.
  unfold AccountManager.add_account.
  destruct (negb _); [discriminate|].
  destruct (AccountManager.generate_account_code s parent_id) as [code|];
    [|discriminate].
  destruct (parse_account_type account_type) as [ty|]; [|discriminate].
  destruct (parse_account_category account_category) as [category|];
    [|discriminate].
  destruct (code =? ""); [discriminate|].
  intros H. eexists. split; [exact H|]. simpl. auto.
Qed.

Lemma entry_delta_no_line lines a cond je :
  (forall jl, In jl lines -> JournalLine.account_id jl <> Account.id a) ->
  entry_delta lines a cond je = 0.
Proof.
  intros H. unfold entry_delta.
  destruct (cond _); [|reflexivity].
  rewrite filter_none; [reflexivity|].
  intros jl Hjl. apply andb_false_iff. right.
  apply Nat.eqb_neq. apply H, Hjl.
Qed.

Lemma consistent_new_store fys fs : consistent (new_store fys fs).
Proof.
  constructor; simpl; try (intros ? []); try constructor; reflexivity.
Qed.

Lemma consistent_add_account s parent_id name_ar name_en account_type
    account_category opening_balance created_by account_id s' :
  consistent s ->
  AccountManager.add_account s parent_id name_ar name_en account_type
    account_category opening_balance created_by = (Some account_id, s') ->
  consistent s'.
Proof.
  intros C H. apply add_account_commit in H.
  destruct H as (data & H & Act & Op & Cur).
  apply insert_account_commit in H.
  destruct H as (Hid & Ha & _ & He & Hl).
  assert (Fresh : ~ In account_id (map Account.id (accounts s)))
    by (subst account_id; apply next_rowid_not_in).
  destruct C as [C1 C2 C3 C4 C5 C6 C7 C8].
  constructor.
  - rewrite Ha, map_app. simpl. apply NoDup_snoc_fresh; assumption.
  - rewrite He. exact C2.
  - rewrite Ha. intros a Hin.
    apply in_app_or in Hin. destruct Hin as [Hin|[<-|[]]]; [auto|exact Act].
  - rewrite Ha, Hl. intros jl Hjl. destruct (C4 jl Hjl) as (a & Hin & E).
    exists a. split; [apply in_or_app; left; exact Hin|exact E].
  - rewrite He, Hl. exact C5.
  - rewrite Hl. exact C6.
  - rewrite Ha. intros a Hin.
    apply in_app_or in Hin. destruct Hin as [Hin|[<-|[]]].
    + rewrite (cached_delta_ext s s' a a He Hl eq_refl eq_refl). auto.
    + rewrite cached_delta_entries, sum_zero.
      * destruct data; simpl in *. lia.
      * intros je _. apply entry_delta_no_line. rewrite Hl.
        intros jl Hjl E. destruct (C4 jl Hjl) as (a & Hin & Ea).
        apply Fresh. simpl in E. rewrite <- E, <- Ea. apply in_map, Hin.
  - unfold lines_of_entry. rewrite He, Hl. exact C8.
Qed.

Lemma rows_of_lines_in entry_id lines rows :
  Forall2 (row_of_line entry_id) lines rows ->
  forall jl, In jl rows ->
    exists line, In line lines /\ row_of_line entry_id line jl.
Proof.
  induction 1 as [|line jl0 lines rows R F IH]; intros jl Hin; [destruct Hin|].
  destruct Hin as [<-|Hin].
  - exists line. split; [left; reflexivity|exact R].
  - destruct (IH jl Hin) as (l & Hl & Rl).
    exists l. split; [right; exact Hl|exact Rl].
Qed.

Lemma rows_of_lines_sums entry_id lines rows :
  Forall2 (row_of_line entry_id) lines rows ->
  Sql.sum JournalLine.debit rows = Sql.sum LineDict.debit lines /\
  Sql.sum JournalLine.credit rows = Sql.sum LineDict.credit lines.
Proof.
  unfold Sql.sum.
  induction 1 as [|line jl lines rows R F IH]; simpl; [auto|].
  destruct R as (_ & _ & D & C). destruct IH as (ID & IC).
  rewrite D, C, ID, IC. auto.
Qed.

Lemma consistent_create_entry s entry_date description lines fiscal_year_id
    created_by now entry_id s' :
  consistent s ->
  JournalManager.create_entry s entry_date description lines fiscal_year_id
    created_by now = (Some entry_id, s') ->
  consistent s'.
Proof.
  intros C H. apply create_entry_commit in H.
  destruct H as (V & Hid & Ha & _ & He & rows & Hl & F).
  apply validate_entry_valid in V. destruct V as (_ & _ & V).
  assert (Fresh : ~ In entry_id (map JournalEntry.id (journal_entries s)))
    by (subst entry_id; apply next_rowid_not_in).
  assert (New : forall jl, In jl rows ->
            JournalLine.entry_id jl = entry_id /\
            amounts_ok (JournalLine.debit jl) (JournalLine.credit jl) /\
            exists a, In a (accounts s)
                      /\ Account.id a = JournalLine.account_id jl).
  { intros jl Hjl.
    destruct (rows_of_lines_in _ _ _ F jl Hjl) as (line & Hline & R).
    destruct R as (RA & RE & RD & RC).
    destruct (validate_journal_line_valid _ _ (V line Hline))
      as (aid & account & A1 & A2 & _ & A4).
    rewrite RD, RC. split; [exact RE|]. split; [exact A4|].
    rewrite RA in A1. inversion A1; subst aid.
    unfold DatabaseManager.get_account in A2.
    apply find_some in A2. destruct A2 as (Hin & E).
    apply Nat.eqb_eq in E. exists account. auto. }
  destruct C as [C1 C2 C3 C4 C5 C6 C7 C8].
  constructor.
  - rewrite Ha. exact C1.
  - rewrite He, map_app. simpl. apply NoDup_snoc_fresh; assumption.
  - rewrite Ha. exact C3.
  - rewrite Ha, Hl. intros jl Hjl.
    apply in_app_or in Hjl. destruct Hjl as [Hjl|Hjl]; [auto|].
    apply New, Hjl.
  - rewrite He, Hl. intros jl Hjl.
    apply in_app_or in Hjl. destruct Hjl as [Hjl|Hjl].
    + destruct (C5 jl Hjl) as (je & Hje & E).
      exists je. split; [apply in_or_app; left; exact Hje|exact E].
    + destruct (New jl Hjl) as (E & _).
      eexists. split; [apply in_or_app; right; left; reflexivity|].
      simpl. symmetry. exact E.
  - rewrite Hl. intros jl Hjl.
    apply in_app_or in Hjl. destruct Hjl as [Hjl|Hjl]; [auto|].
    apply New, Hjl.
  - rewrite Ha. intros a Hin. rewrite (C7 a Hin). f_equal.
    rewrite !cached_delta_entries, He, Hl, sum_app, sum_single.
    unfold entry_delta at 2. simpl. rewrite Z.add_0_r.
    apply sum_ext_in. intros je Hje.
    unfold entry_delta. destruct (JournalManager.posted_or_approved _);
      [|reflexivity].
    rewrite filter_app, (filter_none _ rows), app_nil_r; [reflexivity|].
    intros jl Hjl. destruct (New jl Hjl) as (E & _).
    apply andb_false_iff. left. apply Nat.eqb_neq.
    intros Eq. apply Fresh. rewrite <- E, <- Eq. apply in_map, Hje.
  - unfold lines_of_entry. rewrite He, Hl. intros je Hje.
    rewrite filter_app. apply in_app_or in Hje. destruct Hje as [Hje|[<-|[]]].
    + rewrite (filter_none _ rows), app_nil_r; [apply C8, Hje|].
      intros jl Hjl. destruct (New jl Hjl) as (E & _).
      apply Nat.eqb_neq. intros Eq. apply Fresh.
      rewrite <- E, <- Eq. apply in_map, Hje.
    + simpl JournalEntry.id. simpl JournalEntry.total_debit.
      simpl JournalEntry.total_credit.
      rewrite filter_none, filter_all.
      * apply and_comm. simpl. destruct (rows_of_lines_sums _ _ _ F) as (SD & SC).
        rewrite SD, SC. auto.
      * intros jl Hjl. destruct (New jl Hjl) as (E & _).
        apply Nat.eqb_eq. symmetry. exact E.
      * intros jl Hjl. apply Nat.eqb_neq. intros E.
        destruct (C5 jl Hjl) as (e & He' & Ee).
        apply Fresh. rewrite E, <- Ee. apply in_map, He'.
Qed.

Lemma update_rows_ids data n rows :
  map JournalEntry.id (DatabaseManager.update_rows data n rows)
  = map JournalEntry.id rows.
Proof.
  unfold DatabaseManager.update_rows. rewrite map_map. apply map_ext.
  intros e. destruct (Nat.eqb _ _); [apply assign_all_id|reflexivity].
Qed.

Lemma update_rows_other data n rows :
  ~ In n (map JournalEntry.id rows) ->
  DatabaseManager.update_rows data n rows = rows.
Proof.
  intros H. unfold DatabaseManager.update_rows.
  rewrite <- (map_id rows) at 2. apply map_ext_in.
  intros e He. destruct (Nat.eqb_spec (JournalEntry.id e) n) as [E|E];
    [|reflexivity].
  exfalso. apply H. rewrite <- E. apply in_map, He.
Qed.

Lemma update_rows_in data n rows je :
  In je rows ->
  exists je', In je' (DatabaseManager.update_rows data n rows)
              /\ JournalEntry.id je' = JournalEntry.id je.
Proof.
  intros H. unfold DatabaseManager.update_rows.
  eexists. split; [apply in_map, H|].
  destruct (Nat.eqb _ _); [apply assign_all_id|reflexivity].
Qed.

Lemma sum_update_rows (f : JournalEntry.t -> Z) data n rows e0 :
  NoDup (map JournalEntry.id rows) ->
  find (fun e => Nat.eqb (JournalEntry.id e) n) rows = Some e0 ->
  Sql.sum f (DatabaseManager.update_rows data n rows)
  = Sql.sum f rows - f e0 + f (fold_left DatabaseManager.assign data e0).
Proof.
  induction rows as [|e r IH]; intros N F; [discriminate|].
  simpl in N. inversion N as [|? ? Hx Hr]; subst.
  simpl in F. unfold Sql.sum in *. simpl.
  destruct (Nat.eqb_spec (JournalEntry.id e) n) as [E|E].
  - inversion F; subst e0.
    fold (DatabaseManager.update_rows data n r).
    rewrite update_rows_other by (rewrite <- E; exact Hx). lia.
  - fold (DatabaseManager.update_rows data n r).
    rewrite (IH Hr F). lia.
Qed.

(** The status change of [post_entry] and of [approve_entry] leaves the
    cached totals of the entry alone. *)
Lemma status_update_totals data :
  forallb (fun c => match c with
                    | col_total_debit _ | col_total_credit _ => false
                    | _ => true
                    end) data = true ->
  forall e,
    JournalEntry.total_debit (fold_left DatabaseManager.assign data e)
      = JournalEntry.total_debit e /\
    JournalEntry.total_credit (fold_left DatabaseManager.assign data e)
      = JournalEntry.total_credit e.
Proof.
  induction data as [|c r IH]; intros H e; simpl in *; [auto|].
  apply andb_true_iff in H. destruct H as (Hc & Hr).
  destruct (IH Hr (DatabaseManager.assign e c)) as (D & C).
  rewrite D, C. destruct e, c; simpl in *; try discriminate; auto.
Qed.

Lemma update_rows_image data n rows je' :
  In je' (DatabaseManager.update_rows data n rows) ->
  exists je,
    In je rows /\
    je' = if Nat.eqb (JournalEntry.id je) n
          then fold_left DatabaseManager.assign data je else je.
Proof.
  unfold DatabaseManager.update_rows. intros H.
  apply in_map_iff in H. destruct H as (je & <- & H).
  exists je. auto.
Qed.

Lemma status_update_keeps data n :
  forallb (fun c => match c with
                    | col_total_debit _ | col_total_credit _ => false
                    | _ => true
                    end) data = true ->
  forall je,
    let je' := if Nat.eqb (JournalEntry.id je) n
               then fold_left DatabaseManager.assign data je else je in
    JournalEntry.id je' = JournalEntry.id je /\
    JournalEntry.total_debit je' = JournalEntry.total_debit je /\
    JournalEntry.total_credit je' = JournalEntry.total_credit je.
Proof.
  intros H je. simpl. destruct (Nat.eqb _ _); [|auto].
  rewrite assign_all_id.
  destruct (status_update_totals data H je) as (D & K). auto.
Qed.

(** The status change adds to the cache of an account what the entry
    contributes under the new status, less what it did under the old. *)
Lemma cached_delta_status_update s s' data n e0 a a' :
  NoDup (map JournalEntry.id (journal_entries s)) ->
  JournalManager.get_entry_details s n = Some e0 ->
  journal_entries s' = DatabaseManager.update_rows data n (journal_entries s) ->
  journal_lines s' = journal_lines s ->
  Account.id a' = Account.id a ->
  Account.account_category a' = Account.account_category a ->
  cached_delta s' a' =
    cached_delta s a
    - entry_delta (journal_lines s) a JournalManager.posted_or_approved e0
    + entry_delta (journal_lines s) a JournalManager.posted_or_approved
        (fold_left DatabaseManager.assign data e0).
Proof.
  intros N G He Hl Hi Hc.
  rewrite !cached_delta_entries, He, Hl.
  rewrite (sum_update_rows _ data n _ e0 N G).
  unfold entry_delta. rewrite Hi, Hc. reflexivity.
Qed.

Lemma entry_delta_posting s n e a :
  JournalEntry.id e = n ->
  JournalManager.posted_or_approved (JournalEntry.status e) = true ->
  entry_delta (journal_lines s) a JournalManager.posted_or_approved e
  = posting_delta s n a.
Proof.
  intros E P. unfold entry_delta, posting_delta, lines_of.
  rewrite P, E. f_equal. apply filter_ext.
  intros jl. rewrite (Nat.eqb_sym n). reflexivity.
Qed.

Lemma get_entry_details_id s n e :
  JournalManager.get_entry_details s n = Some e -> JournalEntry.id e = n.
Proof.
  unfold JournalManager.get_entry_details. intros F.
  apply find_some in F. destruct F as (_ & E).
  apply Nat.eqb_eq, E.
Qed.

Lemma consistent_post_entry s entry_id posted_by now s' :
  consistent s ->
  JournalManager.post_entry s entry_id posted_by now = (true, s') ->
  consistent s'.
Proof.
  intros C H.
  destruct C as [C1 C2 C3 C4 C5 C6 C7 C8].
  pose proof (post_entry_accounts _ _ _ _ _ C1 H) as (Ha & Hl & _ & He).
  apply post_entry_inv in H. destruct H as (e0 & _ & _ & G & St & _).
  assert (Ids : map Account.id (accounts s') = map Account.id (accounts s))
    by (rewrite Ha; apply map_id_preserved, credited_id).
  constructor.
  - rewrite Ids. exact C1.
  - rewrite He, update_rows_ids. exact C2.
  - rewrite Ha. intros a' Hin. apply in_map_iff in Hin.
    destruct Hin as (a & <- & Hin). apply (C3 a Hin).
  - rewrite Hl. intros jl Hjl. destruct (C4 jl Hjl) as (a & Hin & E).
    exists (credited (JournalManager.get_entry_lines s entry_id) a).
    split; [rewrite Ha; apply in_map, Hin|exact E].
  - rewrite Hl, He. intros jl Hjl. destruct (C5 jl Hjl) as (je & Hje & E).
    destruct (update_rows_in
                [col_status posted; col_posted_at (Some now);
                 col_posted_by (Some posted_by)] entry_id _ je Hje)
      as (je' & Hje' & E').
    exists je'. split; [exact Hje'|congruence].
  - rewrite Hl. exact C6.
  - rewrite Ha. intros a' Hin. apply in_map_iff in Hin.
    destruct Hin as (a & <- & Hin).
    rewrite (cached_delta_status_update s s' _ entry_id e0 a
               (credited (JournalManager.get_entry_lines s entry_id) a)
               C2 G He Hl eq_refl eq_refl).
    pose proof (get_entry_details_id _ _ _ G) as Eid.
    rewrite (entry_delta_posting s entry_id
               (fold_left DatabaseManager.assign
                  [col_status posted; col_posted_at (Some now);
                   col_posted_by (Some posted_by)] e0) a
               ltac:(rewrite assign_all_id; exact Eid)
               ltac:(destruct e0; reflexivity)).
    unfold entry_delta at 1. rewrite St. simpl JournalManager.posted_or_approved.
    cbv iota. unfold credited. simpl.
    rewrite get_entry_lines_delta, (C7 a Hin) by assumption. lia.
  - unfold lines_of_entry. rewrite He, Hl. intros je' Hje'.
    destruct (update_rows_image _ _ _ _ Hje') as (je & Hje & ->).
    destruct (status_update_keeps
                [col_status posted; col_posted_at (Some now);
                 col_posted_by (Some posted_by)] entry_id eq_refl je)
      as (I & D & K).
    rewrite I, D, K. apply C8, Hje.
Qed.

Lemma approve_entry_inv s entry_id approved_by now s' :
  JournalManager.approve_entry s entry_id approved_by now = (true, s') ->
  exists entry n,
    JournalManager.get_entry_details s entry_id = Some entry /\
    JournalEntry.status entry = posted /\
    DatabaseManager.update_journal_entry
      [col_status approved; col_approved_at (Some now);
       col_approved_by (Some approved_by)] entry_id s = (Some n, s').
Proof.
  unfold JournalManager.approve_entry.
  destruct (JournalManager.get_entry_details s entry_id) as [entry|];
    [|discriminate].
  destruct (JournalEntry.status entry) eqn:St; simpl; try discriminate.
  destruct (DatabaseManager.update_journal_entry _ entry_id s)
    as [[n|] s2] eqn:W; [|discriminate].
  intros H; inversion H; subst.
  exists entry, n; auto.
Qed.

Lemma consistent_approve_entry s entry_id approved_by now s' :
  consistent s ->
  JournalManager.approve_entry s entry_id approved_by now = (true, s') ->
  consistent s'.
Proof.
  intros C H.
  destruct C as [C1 C2 C3 C4 C5 C6 C7 C8].
  apply approve_entry_inv in H. destruct H as (e0 & n & G & St & W).
  apply update_journal_entry_commit in W.
  destruct W as (Ha & Hl & _ & He & _).
  constructor.
  - rewrite Ha. exact C1.
  - rewrite He, update_rows_ids. exact C2.
  - rewrite Ha. exact C3.
  - rewrite Ha, Hl. exact C4.
  - rewrite Hl, He. intros jl Hjl. destruct (C5 jl Hjl) as (je & Hje & E).
    destruct (update_rows_in
                [col_status approved; col_approved_at (Some now);
                 col_approved_by (Some approved_by)] entry_id _ je Hje)
      as (je' & Hje' & E').
    exists je'. split; [exact Hje'|congruence].
  - rewrite Hl. exact C6.
  - rewrite Ha. intros a Hin.
    rewrite (cached_delta_status_update s s' _ entry_id e0 a a
               C2 G He Hl eq_refl eq_refl).
    rewrite (C7 a Hin).
    assert (E : entry_delta (journal_lines s) a JournalManager.posted_or_approved
                  (fold_left DatabaseManager.assign
                     [col_status approved; col_approved_at (Some now);
                      col_approved_by (Some approved_by)] e0)
                = entry_delta (journal_lines s) a
                    JournalManager.posted_or_approved e0).
    { unfold entry_delta. rewrite assign_all_id, St.
      destruct e0; reflexivity. }
    rewrite E. lia.
  - unfold lines_of_entry. rewrite He, Hl. intros je' Hje'.
    destruct (update_rows_image _ _ _ _ Hje') as (je & Hje & ->).
    destruct (status_update_keeps
                [col_status approved; col_approved_at (Some now);
                 col_approved_by (Some approved_by)] entry_id eq_refl je)
      as (I & D & K).
    rewrite I, D, K. apply C8, Hje.
Qed.

Lemma reachable_consistent s : reachable s -> consistent s.
Proof.
  induction 1.
  - apply consistent_new_store.
  - eapply consistent_add_account; eauto.
  - eapply consistent_create_entry; eauto.
  - eapply consistent_post_entry; eauto.
  - eapply consistent_approve_entry; eauto.
Qed.

(** ** The ledger *)

Lemma last_row_cons {A : Type} (x : A) l :
  last_row (x :: l) = match l with [] => Some x | _ :: _ => last_row l end.
Proof. destruct l; reflexivity. Qed.

Lemma last_row_snoc {A : Type} (x : A) l : last_row (l ++ [x]) = Some x.
Proof.
  unfold last_row. rewrite map_app. simpl. apply last_last.
Qed.

Lemma ledger_rows_nil category balance transactions :
  ReportManager.ledger_rows category balance transactions = [] ->
  transactions = [].
Proof.
  destruct transactions as [|[je jl] r]; [reflexivity|discriminate].
Qed.

Lemma ledger_rows_last category transactions : forall balance r,
  last_row (ReportManager.ledger_rows category balance transactions) = Some r ->
  LedgerRow.running_balance r = final_balance category balance transactions.
Proof.
  induction transactions as [|[je jl] rest IH]; intros balance r H;
    [discriminate|].
  simpl ReportManager.ledger_rows in H. rewrite last_row_cons in H.
  destruct (ReportManager.ledger_rows category _ rest) as [|x l] eqn:R.
  - apply ledger_rows_nil in R. subst rest.
    inversion H. reflexivity.
  - rewrite <- R in H. apply IH in H. exact H.
Qed.

Lemma ledger_step_signed category balance jl :
  amounts_ok (JournalLine.debit jl) (JournalLine.credit jl) ->
  ReportManager.ledger_step category balance
    (JournalLine.debit jl) (JournalLine.credit jl)
  = balance + signed_amount category jl.
Proof.
  unfold amounts_ok, ReportManager.ledger_step, signed_amount.
  intros (D & C & K). rewrite Z.gtb_ltb.
  destruct (Z.ltb_spec 0 (JournalLine.debit jl)),
           (debit_normal category); lia.
Qed.

Lemma final_balance_sum category transactions :
  (forall r, In r transactions ->
     amounts_ok (JournalLine.debit (snd r)) (JournalLine.credit (snd r))) ->
  forall balance,
    final_balance category balance transactions
    = balance + Sql.sum (fun r => signed_amount category (snd r)) transactions.
Proof.
  unfold final_balance, Sql.sum.
  induction transactions as [|x rest IH]; intros H balance; simpl; [lia|].
  rewrite IH by (intros; apply H; right; assumption).
  rewrite ledger_step_signed by (apply H; left; reflexivity). lia.
Qed.

Lemma entry_lines_in s account_id cond r :
  In r (ReportManager.entry_lines_of_account s account_id cond) ->
  In (snd r) (journal_lines s).
Proof.
  unfold ReportManager.entry_lines_of_account. intros H.
  apply in_flat_map in H. destruct H as (je & _ & H).
  destruct (cond je); [|destruct H].
  apply in_map_iff in H. destruct H as (jl & <- & H).
  apply filter_In in H. apply H.
Qed.

Lemma entry_lines_ext s account_id cond cond' :
  (forall je, cond je = cond' je) ->
  ReportManager.entry_lines_of_account s account_id cond
  = ReportManager.entry_lines_of_account s account_id cond'.
Proof.
  intros H. unfold ReportManager.entry_lines_of_account.
  apply flat_map_ext. intros je. rewrite H. reflexivity.
Qed.

(** Without an approved line, the posted lines of an account are all its
    posted or approved lines. *)
Lemma posted_delta_is_cached_delta s a :
  no_approved_line s (Account.id a) ->
  Sql.sum (entry_delta (journal_lines s) a
             (fun st => EntryStatus_eqb st posted)) (journal_entries s)
  = cached_delta s a.
Proof.
  intros NA. rewrite cached_delta_entries.
  apply sum_ext_in. intros je Hje. unfold entry_delta.
  destruct (JournalEntry.status je) eqn:St; simpl; try reflexivity.
  rewrite filter_none; [reflexivity|].
  intros jl Hjl.
  destruct (Nat.eqb_spec (JournalEntry.id je) (JournalLine.entry_id jl)) as [E|E];
    [|reflexivity].
  destruct (Nat.eqb_spec (JournalLine.account_id jl) (Account.id a)) as [K|K];
    [|reflexivity].
  exfalso. apply (NA je jl Hje Hjl (eq_sym E) K St).
Qed.

(** C6, as the code has it.  After any sequence of successful
    [add_account], [create_entry], [post_entry] and [approve_entry]
    operations on whole amounts that add up to less than 2^53 -- amounts
    the floats of the code add without rounding, so that the order of the
    additions does not matter -- for an account none of whose lines belongs
    to an approved entry, the last row of [get_ledger] without date bounds
    -- when the ledger has a row -- carries the cached [current_balance] as
    its running balance. *)
Theorem ledger_agrees_with_cache s a r :
  reachable s ->
  whole_amounts s = true ->
  In a (accounts s) ->
  no_approved_line s (Account.id a) ->
  last_row (ReportManager.get_ledger s (Account.id a) None None) = Some r ->
  LedgerRow.running_balance r = Account.current_balance a.
Proof.
  intros R _ Ha NA H.
  apply reachable_consistent in R.
  destruct R as [C1 _ _ _ _ C6 C7 _].
  assert (G : DatabaseManager.get_account s (Account.id a) = Some a)
    by (apply find_account_in; assumption).
  unfold ReportManager.get_ledger, ReportManager.get_account_opening_balance in H.
  rewrite G in H.
  set (T := Sql.order_by ReportManager.ledger_order _) in H.
  assert (F : LedgerRow.running_balance r
              = final_balance (Account.account_category a)
                  (Account.opening_balance a) T).
  { destruct (Z.eqb (Account.opening_balance a) 0).
    - apply ledger_rows_last, H.
    - rewrite last_row_cons in H.
      destruct (ReportManager.ledger_rows _ _ T) as [|x l] eqn:L.
      + apply ledger_rows_nil in L. rewrite L.
        inversion H. reflexivity.
      + rewrite <- L in H. apply ledger_rows_last, H. }
  rewrite F, final_balance_sum, (C7 a Ha).
  - f_equal. unfold T. rewrite sum_order_by.
    rewrite (entry_lines_ext s (Account.id a) _
               (fun je => EntryStatus_eqb (JournalEntry.status je) posted)).
    + rewrite (entry_lines_sum s a (fun st => EntryStatus_eqb st posted)).
      apply posted_delta_is_cached_delta, NA.
    + intros je. unfold ReportManager.is_posted. simpl.
      rewrite !andb_true_r. reflexivity.
  - intros x Hx. apply C6. unfold T in Hx.
    apply order_by_in in Hx. eapply entry_lines_in, Hx.
Qed.

Lemma after_post_reachable : reachable (Scenario.after_post []).
Proof.
  eapply reach_post_entry with (entry_id := 1%nat) (posted_by := 1%nat)
                               (now := 0%nat).
  - eapply reach_create_entry with (lines := Scenario.sale)
      (entry_date := 10%nat) (description := "sale") (fiscal_year_id := 1%nat)
      (created_by := None) (now := 0%nat) (entry_id := 1%nat).
    + eapply reach_add_account with (parent_id := None) (name_ar := "Revenue")
        (name_en := "Revenue") (account_type := "general")
        (account_category := "revenue") (opening_balance := 0)
        (created_by := None) (account_id := 2%nat).
      * eapply reach_add_account with (parent_id := None) (name_ar := "Cash")
          (name_en := "Cash") (account_type := "assistant")
          (account_category := "asset") (opening_balance := 500000)
          (created_by := None) (account_id := 1%nat).
        -- apply (reach_new [Scenario.fy2024] []).
        -- vm_compute; reflexivity.
      * vm_compute; reflexivity.
    + vm_compute; reflexivity.
  - vm_compute; reflexivity.
Qed.

Lemma after_approve_reachable : reachable (Scenario.after_approve []).
Proof.
  eapply reach_approve_entry with (entry_id := 1%nat) (approved_by := 1%nat)
                                  (now := 0%nat).
  - apply after_post_reachable.
  - vm_compute; reflexivity.
Qed.

Lemma ledger_agrees_with_cache_witness :
  exists cash r,
    In cash (accounts (Scenario.after_post [])) /\
    last_row (ReportManager.get_ledger (Scenario.after_post []) 1 None None)
      = Some r /\
    LedgerRow.running_balance r = Account.current_balance cash /\
    Account.current_balance cash = 600000.
Proof.
  assert (G : exists cash, In cash (accounts (Scenario.after_post []))
                           /\ Account.id cash = 1%nat
                           /\ Account.current_balance cash = 600000).
  { eexists. vm_compute. split; [left; reflexivity|]. split; reflexivity. }
  destruct G as (cash & Hin & Hid & Hb).
  assert (L : exists r,
            last_row (ReportManager.get_ledger (Scenario.after_post [])
                        (Account.id cash) None None) = Some r).
  { rewrite Hid. eexists. vm_compute. reflexivity. }
  destruct L as (r & L).
  exists cash, r. split; [exact Hin|].
  split; [rewrite <- Hid; exact L|]. split; [|exact Hb].
  apply (ledger_agrees_with_cache (Scenario.after_post []) cash r).
  - apply after_post_reachable.
  - vm_compute. reflexivity.
  - exact Hin.
  - rewrite Hid. intros je jl Hje Hjl _ _.
    vm_compute in Hje. destruct Hje as [<-|[]]. discriminate.
  - exact L.
Defined.

(** C6 as the spec states it fails once an entry is approved: [get_ledger]
    lists the lines of entries whose status is ['posted'] only, so after the
    sale is approved the ledger of Cash ends at 5000.00 while the cached
    balance is 6000.00. *)
Lemma ledger_after_approve_counterexample :
  ~ (forall s a r,
       reachable s -> In a (accounts s) ->
       last_row (ReportManager.get_ledger s (Account.id a) None None) = Some r ->
       LedgerRow.running_balance r = Account.current_balance a).
Proof.
  intros H.
  assert (G : exists cash r,
            In cash (accounts (Scenario.after_approve [])) /\
            last_row (ReportManager.get_ledger (Scenario.after_approve [])
                        (Account.id cash) None None) = Some r /\
            LedgerRow.running_balance r = 500000 /\
            Account.current_balance cash = 600000).
  { do 2 eexists. vm_compute. split; [left; reflexivity|]. repeat split. }
  destruct G as (cash & r & Hin & L & Hr & Hb).
  pose proof (H _ cash r after_approve_reachable Hin L) as E.
  rewrite Hr, Hb in E. discriminate.
Qed.

(** ** The trial balance *)

Lemma fold_left_sum {A : Type} (f : A -> Z) rows : forall acc,
  fold_left (fun t r => t + f r) rows acc = acc + Sql.sum f rows.
Proof.
  unfold Sql.sum. induction rows as [|x r IH]; intros acc; simpl; [lia|].
  rewrite IH. lia.
Qed.

Lemma trial_row_difference a period_debit period_credit :
  TrialRow.trial_debit (ReportManager.trial_row (a, period_debit, period_credit))
  - TrialRow.trial_credit (ReportManager.trial_row (a, period_debit, period_credit))
  = signed_opening a + period_debit - period_credit.
Proof.
  unfold ReportManager.trial_row, signed_opening. simpl.
  rewrite !Z.geb_leb.
  destruct (debit_normal (Account.account_category a));
    match goal with
    | |- context [Z.leb 0 ?x] => destruct (Z.leb_spec 0 x)
    end; lia.
Qed.

(** The totals row: the difference of its two sides, for every store. *)
Lemma trial_totals_difference s fiscal_year_id :
  exists totals,
    last_row (ReportManager.get_trial_balance s fiscal_year_id) = Some totals /\
    TrialRow.code totals = None /\
    TrialRow.trial_debit totals - TrialRow.trial_credit totals
    = Sql.sum (fun row => signed_opening (fst (fst row))
                          + snd (fst row) - snd row)
        (ReportManager.trial_query s fiscal_year_id).
Proof.
  unfold ReportManager.get_trial_balance.
  eexists. split; [apply last_row_snoc|]. split; [reflexivity|].
  simpl. rewrite !fold_left_sum, !sum_map, !Z.add_0_l.
  rewrite <- sum_minus. apply sum_ext_in.
  intros [[a d] c] _. apply trial_row_difference.
Qed.

Section ByKey.
Context {R L : Type} (rid : R -> nat) (lkey : L -> nat).

(** A sum over rows with distinct keys picks at most one row of a key. *)
Lemma sum_indicator rows n (P : R -> bool) c :
  NoDup (map rid rows) ->
  Sql.sum (fun r => if Nat.eqb (rid r) n && P r then c else 0) rows
  = if existsb (fun r => Nat.eqb (rid r) n && P r) rows then c else 0.
Proof.
  induction rows as [|x r IH]; intros N; [reflexivity|].
  simpl in N. inversion N as [|? ? Hx Hr]; subst.
  unfold Sql.sum in *. simpl.
  destruct (Nat.eqb_spec (rid x) n) as [K|K]; simpl.
  - assert (Z0 : fold_right
                   (fun r0 acc => (if Nat.eqb (rid r0) n && P r0 then c else 0) + acc)
                   0 r = 0).
    { apply (sum_zero (fun r0 => if Nat.eqb (rid r0) n && P r0 then c else 0)).
      intros y Hy. destruct (Nat.eqb_spec (rid y) n) as [Q|Q]; [|reflexivity].
      exfalso. apply Hx. rewrite K, <- Q. apply in_map, Hy. }
    assert (E0 : existsb (fun r0 => Nat.eqb (rid r0) n && P r0) r = false).
    { apply not_true_is_false. intros E. apply existsb_exists in E.
      destruct E as (y & Hy & Q). apply andb_true_iff in Q.
      destruct Q as (Q & _). apply Nat.eqb_eq in Q.
      apply Hx. rewrite K, <- Q. apply in_map, Hy. }
    rewrite Z0, E0. destruct (P x); simpl; lia.
  - rewrite (IH Hr). lia.
Qed.

(** Rows with distinct keys split the lines among themselves. *)
Lemma sum_by_key (f : L -> Z) (P : R -> bool) rows lines :
  NoDup (map rid rows) ->
  Sql.sum (fun r =>
             if P r
             then Sql.sum f (filter (fun l => Nat.eqb (rid r) (lkey l)) lines)
             else 0) rows
  = Sql.sum (fun l =>
               if existsb (fun r => Nat.eqb (rid r) (lkey l) && P r) rows
               then f l else 0) lines.
Proof.
  intros N. induction lines as [|l ls IH].
  - apply sum_zero. intros r _. destruct (P r); reflexivity.
  - rewrite (sum_ext_in _
               (fun r => (if Nat.eqb (rid r) (lkey l) && P r then f l else 0)
                         + (if P r
                            then Sql.sum f (filter (fun l0 => Nat.eqb (rid r) (lkey l0)) ls)
                            else 0))).
    + rewrite sum_plus, sum_indicator, IH by exact N.
      unfold Sql.sum. reflexivity.
    + intros r _. simpl.
      destruct (Nat.eqb (rid r) (lkey l)), (P r); unfold Sql.sum; simpl; lia.
Qed.
End ByKey.

Lemma trial_group_sum (f : JournalLine.t -> Z) s fiscal_year_id a :
  consistent s ->
  Sql.sum f (ReportManager.trial_group s fiscal_year_id a)
  = Sql.sum (fun jl => if counted_line s fiscal_year_id jl then f jl else 0)
      (filter (fun jl => Nat.eqb (Account.id a) (JournalLine.account_id jl))
              (journal_lines s)).
Proof.
  intros [_ C2 _ _ C5 _ _ _].
  assert (All : forall jl, In jl (journal_lines s) ->
            existsb (fun je => Nat.eqb (JournalEntry.id je)
                                 (JournalLine.entry_id jl) && true)
                    (journal_entries s) = true).
  { intros jl Hjl. destruct (C5 jl Hjl) as (je & Hje & E).
    apply existsb_exists. exists je. split; [exact Hje|].
    rewrite E, Nat.eqb_refl. reflexivity. }
  unfold ReportManager.trial_group, counted_line, counted_in_trial.
  destruct fiscal_year_id as [[|n]|].
  - apply sum_ext_in. intros jl Hjl.
    apply filter_In in Hjl. rewrite (All jl (proj1 Hjl)). reflexivity.
  - rewrite sum_flat_map. apply sum_ext_in. intros jl _.
    rewrite sum_map.
    rewrite <- (sum_indicator JournalEntry.id (journal_entries s)
                  (JournalLine.entry_id jl)
                  (fun je => ReportManager.is_posted je
                             && Nat.eqb (JournalEntry.fiscal_year_id je) (S n))
                  (f jl) C2).
    rewrite sum_filter. apply sum_ext_in. intros je _.
    rewrite (Nat.eqb_sym (JournalLine.entry_id jl)), andb_assoc. reflexivity.
  - apply sum_ext_in. intros jl Hjl.
    apply filter_In in Hjl. rewrite (All jl (proj1 Hjl)). reflexivity.
Qed.

Lemma trial_group_unlisted s fiscal_year_id a :
  ReportManager.trial_has_group s fiscal_year_id a = false ->
  ReportManager.trial_group s fiscal_year_id a = [].
Proof.
  unfold ReportManager.trial_has_group.
  destruct fiscal_year_id as [[|n]|]; try discriminate.
  destruct (ReportManager.trial_group s (Some (S n)) a); [reflexivity|].
  discriminate.
Qed.

(** The period columns of the report add up to the totals of the counted
    entries. *)
Lemma trial_period_sum (f : JournalLine.t -> Z) s fiscal_year_id :
  consistent s ->
  Sql.sum (fun a => Sql.sum f (ReportManager.trial_group s fiscal_year_id a))
    (listed_accounts s fiscal_year_id)
  = Sql.sum (fun je => if counted_in_trial fiscal_year_id je
                       then Sql.sum f (lines_of_entry s (JournalEntry.id je))
                       else 0)
      (journal_entries s).
Proof.
  intros C. pose proof C as [C1 C2 C3 C4 _ _ _ _].
  unfold listed_accounts, ReportManager.trial_query.
  rewrite map_map. simpl. rewrite map_id, sum_order_by, sum_filter.
  rewrite (sum_ext_in _
             (fun a => if true
                       then Sql.sum
                              (fun jl => if counted_line s fiscal_year_id jl
                                         then f jl else 0)
                              (filter (fun jl => Nat.eqb (Account.id a)
                                                   (JournalLine.account_id jl))
                                      (journal_lines s))
                       else 0)).
  - rewrite (sum_by_key Account.id JournalLine.account_id _ (fun _ => true)
               _ _ C1).
    unfold lines_of_entry.
    rewrite (sum_by_key JournalEntry.id JournalLine.entry_id f
               (counted_in_trial fiscal_year_id) _ _ C2).
    apply sum_ext_in. intros jl Hjl.
    destruct (C4 jl Hjl) as (a & Ha & E).
    replace (existsb (fun r => Nat.eqb (Account.id r) (JournalLine.account_id jl)
                               && true) (accounts s)) with true.
    + reflexivity.
    + symmetry. apply existsb_exists. exists a. split; [exact Ha|].
      rewrite E, Nat.eqb_refl. reflexivity.
  - intros a Ha. rewrite (C3 a Ha), andb_true_r.
    destruct (ReportManager.trial_has_group s fiscal_year_id a) eqn:G.
    + apply trial_group_sum, C.
    + rewrite <- (trial_group_sum f s fiscal_year_id a C).
      rewrite (trial_group_unlisted _ _ _ G). reflexivity.
Qed.

Lemma trial_query_sum s fiscal_year_id :
  consistent s ->
  Sql.sum (fun row => signed_opening (fst (fst row)) + snd (fst row) - snd row)
    (ReportManager.trial_query s fiscal_year_id)
  = signed_openings (listed_accounts s fiscal_year_id)
    + Sql.sum (fun je => if counted_in_trial fiscal_year_id je
                         then JournalEntry.total_debit je
                              - JournalEntry.total_credit je
                         else 0)
        (journal_entries s).
Proof.
  intros C.
  rewrite (sum_ext_in _
             (fun je => (if counted_in_trial fiscal_year_id je
                         then Sql.sum JournalLine.debit
                                (lines_of_entry s (JournalEntry.id je))
                         else 0)
                        - (if counted_in_trial fiscal_year_id je
                           then Sql.sum JournalLine.credit
                                  (lines_of_entry s (JournalEntry.id je))
                           else 0)) (journal_entries s)).
  - rewrite (sum_minus _ _ (journal_entries s)), <- !trial_period_sum by exact C.
    unfold signed_openings, listed_accounts, ReportManager.trial_query.
    rewrite !map_map, !sum_map. simpl.
    rewrite <- sum_minus, <- sum_plus. apply sum_ext_in. intros a _. lia.
  - intros je Hje. destruct (totals_are_sums s C je Hje) as (D & K).
    rewrite D, K. destruct (counted_in_trial fiscal_year_id je); lia.
Qed.

Lemma listed_accounts_all s :
  consistent s ->
  signed_openings (listed_accounts s None) = signed_openings (accounts s).
Proof.
  intros [_ _ C3 _ _ _ _ _].
  unfold signed_openings, listed_accounts, ReportManager.trial_query.
  rewrite map_map. simpl. rewrite map_id, sum_order_by, filter_all;
    [reflexivity|].
  intros a Ha. apply C3, Ha.
Qed.

(** ** The floats of the code on whole amounts *)

Module Binary64Facts.
Import SpecFloat.

Lemma digits2_bounds m :
  2 ^ (Zpos (digits2_pos m) - 1) <= Zpos m < 2 ^ Zpos (digits2_pos m).
Proof.
  induction m as [m IH|m IH|]; cbn [digits2_pos].
  - rewrite Pos2Z.inj_succ.
    replace (Z.succ (Zpos (digits2_pos m)) - 1) with (Z.succ (Zpos (digits2_pos m) - 1)) by lia.
    rewrite !Z.pow_succ_r by lia. lia.
  - rewrite Pos2Z.inj_succ.
    replace (Z.succ (Zpos (digits2_pos m)) - 1) with (Z.succ (Zpos (digits2_pos m) - 1)) by lia.
    rewrite !Z.pow_succ_r by lia. lia.
  - simpl. lia.
Qed.

Lemma digits2_unique m d :
  2 ^ (d - 1) <= Zpos m < 2 ^ d -> Zpos (digits2_pos m) = d.
Proof.
  intros H. pose proof (digits2_bounds m) as B.
  assert (0 < d).
  { destruct (Z.ltb_spec 0 d); [assumption|].
    destruct H as (_ & H). 
    assert (2 ^ d <= 1).
    { destruct (Z.eq_dec d 0) as [->|]; [simpl; lia|].
      rewrite Z.pow_neg_r by lia. lia. }
    lia. }
  assert (Zpos (digits2_pos m) - 1 < d).
  { apply (Z.pow_lt_mono_r_iff 2); lia. }
  assert (d - 1 < Zpos (digits2_pos m)).
  { apply (Z.pow_lt_mono_r_iff 2); lia. }
  lia.
Qed.

Lemma iter_xO_value m k : Zpos (Pos.iter xO m k) = Zpos m * 2 ^ Zpos k.
Proof.
  induction k as [|k IH] using Pos.peano_ind.
  - simpl. lia.
  - rewrite Pos.iter_succ, Pos2Z.inj_succ, Z.pow_succ_r by lia.
    rewrite Pos2Z.inj_xO, IH. lia.
Qed.

Lemma iter_pos_nat {A : Type} (f : A -> A) p : forall x,
  iter_pos f p x = Nat.iter (Pos.to_nat p) f x.
Proof.
  induction p as [p IH|p IH|]; intros x; cbn [iter_pos].
  - rewrite !IH, Pos2Nat.inj_xI.
    replace (S (2 * Pos.to_nat p)) with (Pos.to_nat p + (Pos.to_nat p + 1))%nat
      by lia.
    rewrite !Nat.iter_add. reflexivity.
  - rewrite !IH, Pos2Nat.inj_xO.
    replace (2 * Pos.to_nat p)%nat with (Pos.to_nat p + Pos.to_nat p)%nat by lia.
    rewrite Nat.iter_add. reflexivity.
  - reflexivity.
Qed.

Lemma shr_nat_exact k : forall m,
  Nat.iter k shr_1 (Build_shr_record (Zpos (Nat.iter k xO m)) false false)
  = Build_shr_record (Zpos m) false false.
Proof.
  induction k as [|k IH]; intros m; [reflexivity|].
  rewrite Nat.iter_succ_r. cbn [Nat.iter shr_1 orb]. apply IH.
Qed.

Lemma shr_exact m p :
  iter_pos shr_1 p (Build_shr_record (Zpos (Pos.iter xO m p)) false false)
  = Build_shr_record (Zpos m) false false.
Proof.
  rewrite iter_pos_nat, Pos2Nat.inj_iter. apply shr_nat_exact.
Qed.

Lemma round_exact s m e :
  Zpos (digits2_pos m) = 53 -> -1074 <= e <= 971 ->
  binary_round_aux 53 1024 s (Zpos m) e loc_Exact = S754_finite s m e.
Proof.
  intros D E.
  assert (F : fexp 53 1024 (53 + e) - e = 0) by (unfold fexp, emin; lia).
  unfold binary_round_aux, shr_fexp. cbn [Zdigits2 shr_record_of_loc].
  rewrite D, F. cbn [shr shr_m loc_of_shr_record round_nearest_even Zdigits2].
  rewrite D, F. cbn [shr shr_m].
  destruct (Z.leb_spec e (1024 - 53)); [reflexivity|lia].
Qed.

Lemma digits_small n :
  Zpos n < 2 ^ 53 -> 1 <= Zpos (digits2_pos n) <= 53.
Proof.
  intros H. pose proof (digits2_bounds n) as B.
  split; [lia|].
  assert (Zpos (digits2_pos n) - 1 < 53); [|lia].
  apply (Z.pow_lt_mono_r_iff 2); lia.
Qed.

Lemma scaled_bounds n k :
  0 <= k ->
  2 ^ (Zpos (digits2_pos n) + k - 1) <= Zpos n * 2 ^ k
    < 2 ^ (Zpos (digits2_pos n) + k).
Proof.
  intros K. pose proof (digits2_bounds n) as B.
  replace (Zpos (digits2_pos n) + k - 1) with (Zpos (digits2_pos n) - 1 + k)
    by lia.
  rewrite !Z.pow_add_r by lia.
  assert (0 < 2 ^ k) by (apply Z.pow_pos_nonneg; lia).
  nia.
Qed.

Lemma canon_mantissa n :
  Zpos n < 2 ^ 53 ->
  Zpos (Z.to_pos (Zpos n * 2 ^ (53 - Zpos (digits2_pos n))))
  = Zpos n * 2 ^ (53 - Zpos (digits2_pos n)) /\
  Zpos (digits2_pos (Z.to_pos (Zpos n * 2 ^ (53 - Zpos (digits2_pos n))))) = 53.
Proof.
  intros H. pose proof (digits_small n H) as D.
  pose proof (scaled_bounds n (53 - Zpos (digits2_pos n)) ltac:(lia)) as B.
  replace (Zpos (digits2_pos n) + (53 - Zpos (digits2_pos n))) with 53 in B
    by lia.
  assert (P : 0 < Zpos n * 2 ^ (53 - Zpos (digits2_pos n))).
  { assert (0 < 2 ^ (53 - 1)) by (apply Z.pow_pos_nonneg; lia). lia. }
  rewrite Z2Pos.id by exact P. split; [reflexivity|].
  apply digits2_unique. rewrite Z2Pos.id by exact P. exact B.
Qed.

Lemma binary_round_exact s M n k :
  0 <= k -> Zpos n < 2 ^ 53 -> Zpos M = Zpos n * 2 ^ k ->
  binary_round 53 1024 s M (- k) = Binary64.canon s n.
Proof.
  intros K H V.
  pose proof (digits_small n H) as D.
  destruct (canon_mantissa n H) as (Cv & Cd).
  set (d := Zpos (digits2_pos n)) in *.
  set (m' := Z.to_pos (Zpos n * 2 ^ (53 - d))) in *.
  assert (DM : Zpos (digits2_pos M) = d + k).
  { apply digits2_unique. rewrite V. apply scaled_bounds, K. }
  assert (F : fexp 53 1024 (d + k + - k) = d - 53)
    by (unfold fexp, emin; lia).
  unfold binary_round. rewrite DM, F. unfold shl_align.
  destruct (d - 53 - - k) as [|t|p] eqn:T.
  - (* already Binary64.canonical *)
    assert (E : - k = d - 53) by lia.
    assert (M = m').
    { apply Pos2Z.inj. rewrite Cv, V. f_equal. f_equal. lia. }
    subst M. rewrite E. unfold Binary64.canon. fold d. fold m'.
    apply round_exact; [exact Cd|lia].
  - (* too many digits: the low bits are zeros *)
    assert (EM : M = Pos.iter xO m' t).
    { apply Pos2Z.inj. rewrite iter_xO_value, Cv, V, <- Z.mul_assoc.
      rewrite <- Z.pow_add_r by lia. f_equal. f_equal. lia. }
    unfold binary_round_aux, shr_fexp. cbn [Zdigits2 shr_record_of_loc].
    rewrite DM, F, T. cbn [shr]. rewrite EM, shr_exact.
    cbn [shr_m loc_of_shr_record round_nearest_even Zdigits2].
    rewrite Cd.
    replace (fexp 53 1024 (53 + (- k + Z.pos t)) - (- k + Z.pos t)) with 0
      by (unfold fexp, emin; lia).
    cbn [shr shr_m].
    destruct (Z.leb_spec (- k + Z.pos t) (1024 - 53)); [|lia].
    unfold Binary64.canon. fold d. fold m'. f_equal. lia.
  - (* too few digits: aligned to the left *)
    assert (EM : Pos.iter xO M p = m').
    { apply Pos2Z.inj. rewrite iter_xO_value, Cv, V, <- Z.mul_assoc.
      rewrite <- Z.pow_add_r by lia. f_equal. f_equal. lia. }
    rewrite EM. unfold Binary64.canon. fold d. fold m'.
    apply round_exact; [exact Cd|lia].
Qed.

Lemma of_whole_pos n :
  Zpos n < 2 ^ 53 -> Binary64.of_whole (Zpos n) = Binary64.canon false n.
Proof.
  intros H. unfold Binary64.of_whole, binary_normalize.
  apply (binary_round_exact false n n 0); [lia|exact H|lia].
Qed.

Lemma of_whole_neg n :
  Zpos n < 2 ^ 53 -> Binary64.of_whole (Zneg n) = Binary64.canon true n.
Proof.
  intros H. unfold Binary64.of_whole, binary_normalize.
  apply (binary_round_exact true n n 0); [lia|exact H|lia].
Qed.

Lemma of_whole_signed s n :
  Zpos n < 2 ^ 53 -> Binary64.of_whole (cond_Zopp s (Zpos n)) = Binary64.canon s n.
Proof. destruct s; [apply of_whole_neg|apply of_whole_pos]. Qed.

Lemma shl_align_value mx ex ez :
  ez <= ex -> 
  Zpos (fst (shl_align mx ex ez)) = Zpos mx * 2 ^ (ex - ez)
  /\ snd (shl_align mx ex ez) = ez.
Proof.
  intros H. unfold shl_align.
  destruct (ez - ex) as [|p|p] eqn:E; cbn [fst snd].
  - replace (ex - ez) with 0 by lia. split; lia.
  - lia.
  - rewrite iter_xO_value. split; [f_equal; f_equal; lia|reflexivity].
Qed.

Lemma cond_Zopp_mul s x y : cond_Zopp s x * y = cond_Zopp s (x * y).
Proof. destruct s; simpl; lia. Qed.

Lemma add_canon sx a sy b :
  Zpos a < 2 ^ 53 -> Zpos b < 2 ^ 53 ->
  Z.abs (cond_Zopp sx (Zpos a) + cond_Zopp sy (Zpos b)) < 2 ^ 53 ->
  SFadd 53 1024 (Binary64.canon sx a) (Binary64.canon sy b)
  = Binary64.of_whole (cond_Zopp sx (Zpos a) + cond_Zopp sy (Zpos b)).
Proof.
  intros Ha Hb Hs.
  pose proof (digits_small a Ha) as Da. pose proof (digits_small b Hb) as Db.
  destruct (canon_mantissa a Ha) as (Va & _).
  destruct (canon_mantissa b Hb) as (Vb & _).
  unfold Binary64.canon. cbn [SFadd].
  set (ex := Zpos (digits2_pos a) - 53) in *.
  set (ey := Zpos (digits2_pos b) - 53) in *.
  set (mx := Z.to_pos (Zpos a * 2 ^ (53 - Zpos (digits2_pos a)))) in *.
  set (my := Z.to_pos (Zpos b * 2 ^ (53 - Zpos (digits2_pos b)))) in *.
  set (ez := Z.min ex ey).
  destruct (shl_align_value mx ex ez ltac:(lia)) as (Ax & _).
  destruct (shl_align_value my ey ez ltac:(lia)) as (Ay & _).
  rewrite Ax, Ay, Va, Vb, <- !Z.mul_assoc, <- !Z.pow_add_r by lia.
  replace (53 - Zpos (digits2_pos a) + (ex - ez)) with (- ez) by lia.
  replace (53 - Zpos (digits2_pos b) + (ey - ez)) with (- ez) by lia.
  rewrite <- !cond_Zopp_mul, <- Z.mul_add_distr_r.
  assert (P : 0 < 2 ^ (- ez)) by (apply Z.pow_pos_nonneg; lia).
  destruct (cond_Zopp sx (Zpos a) + cond_Zopp sy (Zpos b)) as [|n|n] eqn:S.
  - reflexivity.
  - rewrite of_whole_pos by (simpl in Hs; lia).
    destruct (Zpos n * 2 ^ (- ez)) as [|M|M] eqn:V; try lia.
    unfold binary_normalize.
    pose proof (binary_round_exact false M n (- ez)
                  ltac:(lia) ltac:(simpl in Hs; lia) (eq_sym V)) as R.
    rewrite Z.opp_involutive in R. exact R.
  - rewrite of_whole_neg by (simpl in Hs; lia).
    destruct (Zneg n * 2 ^ (- ez)) as [|M|M] eqn:V; try lia.
    unfold binary_normalize.
    pose proof (binary_round_exact true M n (- ez)
                  ltac:(lia) ltac:(simpl in Hs; lia) ltac:(lia)) as R.
    rewrite Z.opp_involutive in R. exact R.
Qed.

(** On whole numbers below 2^53 the addition of binary64 is exact. *)
Lemma add_whole u v :
  Z.abs u < 2 ^ 53 -> Z.abs v < 2 ^ 53 -> Z.abs (u + v) < 2 ^ 53 ->
  Binary64.add (Binary64.of_whole u) (Binary64.of_whole v) = Binary64.of_whole (u + v).
Proof.
  intros Hu Hv Hs. unfold Binary64.add.
  destruct u as [|a|a], v as [|b|b].
  - reflexivity.
  - rewrite Z.add_0_l, of_whole_pos by (simpl in Hv; lia). reflexivity.
  - rewrite Z.add_0_l, of_whole_neg by (simpl in Hv; lia). reflexivity.
  - rewrite Z.add_0_r, of_whole_pos by (simpl in Hu; lia). reflexivity.
  - rewrite !of_whole_pos by (simpl in Hu, Hv; lia).
    apply (add_canon false a false b); simpl in *; lia.
  - rewrite of_whole_pos, of_whole_neg by (simpl in Hu, Hv; lia).
    apply (add_canon false a true b); simpl in *; lia.
  - rewrite Z.add_0_r, of_whole_neg by (simpl in Hu; lia). reflexivity.
  - rewrite of_whole_neg, of_whole_pos by (simpl in Hu, Hv; lia).
    apply (add_canon true a false b); simpl in *; lia.
  - rewrite !of_whole_neg by (simpl in Hu, Hv; lia).
    apply (add_canon true a true b); simpl in *; lia.
Qed.

Lemma sub_add_opp x y : SFsub 53 1024 x y = SFadd 53 1024 x (SFopp y).
Proof.
  destruct x as [sx|sx| |sx mx ex], y as [sy|sy| |sy my ey];
    try destruct sx; try destruct sy; reflexivity.
Qed.

Lemma opp_whole v :
  v <> 0 -> Z.abs v < 2 ^ 53 ->
  SFopp (Binary64.of_whole v) = Binary64.of_whole (- v).
Proof.
  intros N H. destruct v as [|b|b]; [congruence| |]; simpl Z.opp.
  - rewrite of_whole_pos, of_whole_neg by (simpl in H; lia). reflexivity.
  - rewrite of_whole_pos, of_whole_neg by (simpl in H; lia). reflexivity.
Qed.

(** On whole numbers below 2^53 the subtraction of binary64 is exact. *)
Lemma sub_whole u v :
  Z.abs u < 2 ^ 53 -> Z.abs v < 2 ^ 53 -> Z.abs (u - v) < 2 ^ 53 ->
  Binary64.sub (Binary64.of_whole u) (Binary64.of_whole v) = Binary64.of_whole (u - v).
Proof.
  intros Hu Hv Hs. unfold Binary64.sub.
  destruct (Z.eq_dec v 0) as [->|N].
  - rewrite Z.sub_0_r. destruct u as [|a|a]; [reflexivity| |].
    + rewrite of_whole_pos by (simpl in Hu; lia). reflexivity.
    + rewrite of_whole_neg by (simpl in Hu; lia). reflexivity.
  - rewrite sub_add_opp, opp_whole by assumption.
    apply (add_whole u (- v)); lia.
Qed.

(** A running total of whole numbers, formed in any order, is exact as
    long as the magnitudes add up to less than 2^53. *)
Lemma running_total_whole l : forall acc,
  Z.abs acc + fold_right (fun x t => Z.abs x + t) 0 l < 2 ^ 53 ->
  fold_left (fun total x => Binary64.add total (Binary64.of_whole x)) l
    (Binary64.of_whole acc)
  = Binary64.of_whole (fold_left Z.add l acc).
Proof.
  induction l as [|x r IH]; intros acc H; [reflexivity|].
  cbn [fold_left fold_right] in *.
  assert (0 <= fold_right (fun x t => Z.abs x + t) 0 r).
  { clear. induction r as [|y r IH]; simpl; lia. }
  rewrite add_whole by lia. apply IH. lia.
Qed.

(** A whole difference is below 0.01 only when it is zero, and above 0.01
    as soon as it is not. *)
Lemma whole_against_tolerance d :
  Z.abs d < 2 ^ 53 ->
  Binary64.ltb (Binary64.abs (Binary64.of_whole d)) (Binary64.of_amount 1) = Z.eqb d 0 /\
  Binary64.ltb (Binary64.of_amount 1) (Binary64.abs (Binary64.of_whole d))
  = negb (Z.eqb d 0).
Proof.
  intros H.
  assert (T : Binary64.of_amount 1 = S754_finite false 5764607523034235 (-59))
    by (vm_compute; reflexivity).
  rewrite T. clear T.
  assert (G : forall s n, Zpos n < 2 ^ 53 ->
            Binary64.ltb (Binary64.abs (Binary64.canon s n))
              (S754_finite false 5764607523034235 (-59)) = false /\
            Binary64.ltb (S754_finite false 5764607523034235 (-59))
              (Binary64.abs (Binary64.canon s n)) = true).
  { intros s n Hn. pose proof (digits_small n Hn) as D.
    unfold Binary64.canon, Binary64.abs, Binary64.ltb, SFabs, SFltb, SFcompare.
    destruct (Z.compare_spec (Zpos (digits2_pos n) - 53) (-59));
      [exfalso; lia|exfalso; lia|].
    destruct (Z.compare_spec (-59) (Zpos (digits2_pos n) - 53));
      [exfalso; lia| |exfalso; lia].
    split; reflexivity. }
  destruct d as [|n|n].
  - split; reflexivity.
  - rewrite of_whole_pos by (simpl in H; lia). apply G. simpl in H. lia.
  - rewrite of_whole_neg by (simpl in H; lia). apply G. simpl in H. lia.
Qed.

(** On amounts with hundredths the order of the additions matters:
    0.1 + 0.2 + 0.3 is 0.6000000000000001 and 0.3 + 0.2 + 0.1 is 0.6. *)
Lemma order_of_additions_matters :
  Binary64.add (Binary64.add (Binary64.of_amount 10) (Binary64.of_amount 20))
    (Binary64.of_amount 30)
  <> Binary64.add (Binary64.add (Binary64.of_amount 30) (Binary64.of_amount 20))
       (Binary64.of_amount 10)
  /\
  Binary64.add (Binary64.add (Binary64.of_amount 30) (Binary64.of_amount 20))
    (Binary64.of_amount 10)
  = Binary64.of_amount 60.
Proof. split; [vm_compute; discriminate|vm_compute; reflexivity]. Qed.

(** 100.01 - 100.00 is above 0.01 in binary64. *)
Lemma tolerance_at_the_boundary :
  Binary64.ltb (Binary64.of_amount 1)
    (Binary64.abs (Binary64.sub (Binary64.of_amount 10001) (Binary64.of_amount 10000)))
  = true.
Proof. vm_compute. reflexivity. Qed.

End Binary64Facts.

(** ** Whole amounts *)

Lemma whole_multiple x : whole x = true <-> exists k, x = 100 * k.
Proof.
  unfold whole. rewrite Z.eqb_eq. split.
  - intros H. exists (x / 100). rewrite (Z.div_mod x 100) at 1 by lia. lia.
  - intros (k & ->). rewrite Z.mul_comm. apply Z.mod_mul. lia.
Qed.

Lemma whole_plus x y : whole x = true -> whole y = true -> whole (x + y) = true.
Proof.
  rewrite !whole_multiple. intros (a & ->) (b & ->). exists (a + b). lia.
Qed.

Lemma sum_whole {A : Type} (f : A -> Z) l :
  forallb (fun x => whole (f x)) l = true -> whole (Sql.sum f l) = true.
Proof.
  unfold Sql.sum. induction l as [|x r IH]; simpl; [reflexivity|].
  intros H. apply andb_true_iff in H. destruct H as (Hx & Hr).
  apply whole_plus; [exact Hx|apply IH, Hr].
Qed.

(** Two whole amounts within the tolerance of each other are equal. *)
Lemma whole_within_tolerance x y :
  whole x = true -> whole y = true ->
  Z.abs (x - y) <= tolerance -> x = y.
Proof.
  rewrite !whole_multiple. unfold tolerance. intros (a & ->) (b & ->) H. lia.
Qed.

Lemma forallb_filter {A : Type} (p q : A -> bool) l :
  forallb p l = true -> forallb p (filter q l) = true.
Proof.
  induction l as [|x r IH]; simpl; [reflexivity|].
  intros H. apply andb_true_iff in H. destruct H as (Hx & Hr).
  destruct (q x); simpl; [rewrite Hx|]; apply IH, Hr.
Qed.

Lemma whole_amounts_lines s :
  whole_amounts s = true ->
  forallb (fun jl => whole (JournalLine.debit jl)) (journal_lines s) = true /\
  forallb (fun jl => whole (JournalLine.credit jl)) (journal_lines s) = true.
Proof.
  unfold whole_amounts. intros H.
  apply andb_true_iff in H. destruct H as (H & _).
  apply andb_true_iff in H. destruct H as (_ & H).
  rewrite forallb_forall in H.
  split; apply forallb_forall; intros jl Hjl; specialize (H jl Hjl);
    apply andb_true_iff in H; tauto.
Qed.

(** Every entry of a reachable state passed [validate_entry]: its totals
    are within the tolerance of each other. *)
Lemma reachable_within_tolerance s :
  reachable s ->
  forall je, In je (journal_entries s) ->
    Z.abs (JournalEntry.total_debit je - JournalEntry.total_credit je)
      <= tolerance.
Proof.
  induction 1 as [fys fs
                 |s parent_id name_ar name_en account_type account_category
                    opening_balance created_by account_id s' R IH H
                 |s entry_date description lines fiscal_year_id created_by now
                    entry_id s' R IH H
                 |s entry_id posted_by now s' R IH H
                 |s entry_id approved_by now s' R IH H].
  - intros je [].
  - apply add_account_commit in H. destruct H as (data & H & _).
    apply insert_account_commit in H. destruct H as (_ & _ & _ & He & _).
    rewrite He. exact IH.
  - apply create_entry_commit in H.
    destruct H as (V & _ & _ & _ & He & _).
    apply validate_entry_valid in V. destruct V as (_ & T & _).
    rewrite He. intros je Hje. apply in_app_or in Hje.
    destruct Hje as [Hje|[<-|[]]]; [apply IH, Hje|exact T].
  - pose proof (reachable_consistent _ R) as C.
    destruct C as [C1 _ _ _ _ _ _ _].
    pose proof (post_entry_accounts _ _ _ _ _ C1 H) as (_ & _ & _ & He).
    rewrite He. intros je' Hje'.
    destruct (update_rows_image _ _ _ _ Hje') as (je & Hje & ->).
    destruct (status_update_keeps
                [col_status posted; col_posted_at (Some now);
                 col_posted_by (Some posted_by)] entry_id eq_refl je)
      as (_ & D & K).
    rewrite D, K. apply IH, Hje.
  - apply approve_entry_inv in H. destruct H as (e0 & n & _ & _ & W).
    apply update_journal_entry_commit in W.
    destruct W as (_ & _ & _ & He & _).
    rewrite He. intros je' Hje'.
    destruct (update_rows_image _ _ _ _ Hje') as (je & Hje & ->).
    destruct (status_update_keeps
                [col_status approved; col_approved_at (Some now);
                 col_approved_by (Some approved_by)] entry_id eq_refl je)
      as (_ & D & K).
    rewrite D, K. apply IH, Hje.
Qed.

(** With whole amounts an entry within the tolerance is balanced: every
    entry of a reachable state has equal totals. *)
Lemma reachable_whole_balanced s :
  reachable s ->
  whole_amounts s = true ->
  forall je, In je (journal_entries s) ->
    JournalEntry.total_debit je = JournalEntry.total_credit je.
Proof.
  intros R W je Hje.
  pose proof (reachable_within_tolerance s R je Hje) as T.
  apply reachable_consistent in R. destruct R as [_ _ _ _ _ _ _ C8].
  destruct (C8 je Hje) as (D & K).
  destruct (whole_amounts_lines s W) as (Wd & Wk).
  apply whole_within_tolerance; [| |exact T].
  - rewrite D. apply sum_whole, forallb_filter, Wd.
  - rewrite K. apply sum_whole, forallb_filter, Wk.
Qed.

(** C1, as the code has it.  After any sequence of successful
    [add_account], [create_entry], [post_entry] and [approve_entry]
    operations on whole amounts that add up to less than 2^53 -- amounts
    the floats of the code add without rounding, and on which an entry
    within the tolerance is balanced -- the totals row of
    [get_trial_balance] balances whenever the opening balances of the
    accounts it lists balance (debit-side openings equal credit-side
    openings); without a fiscal year it lists every account. *)
Theorem trial_balance_balances s :
  reachable s ->
  whole_amounts s = true ->
  (forall fiscal_year_id,
     signed_openings (listed_accounts s fiscal_year_id) = 0 ->
     exists totals,
       last_row (ReportManager.get_trial_balance s fiscal_year_id)
         = Some totals /\
       TrialRow.code totals = None /\
       TrialRow.trial_debit totals = TrialRow.trial_credit totals)
  /\
  (signed_openings (accounts s) = 0 ->
   exists totals,
     last_row (ReportManager.get_trial_balance s None) = Some totals /\
     TrialRow.code totals = None /\
     TrialRow.trial_debit totals = TrialRow.trial_credit totals).
Proof.
  intros R W. pose proof (reachable_whole_balanced s R W) as B.
  apply reachable_consistent in R.
  assert (G : forall fiscal_year_id,
     signed_openings (listed_accounts s fiscal_year_id) = 0 ->
     exists totals,
       last_row (ReportManager.get_trial_balance s fiscal_year_id)
         = Some totals /\
       TrialRow.code totals = None /\
       TrialRow.trial_debit totals = TrialRow.trial_credit totals).
  { intros fiscal_year_id O.
    destruct (trial_totals_difference s fiscal_year_id) as (totals & L & K & D).
    exists totals. split; [exact L|]. split; [exact K|].
    rewrite (trial_query_sum s fiscal_year_id R), O, sum_zero in D; [lia|].
    intros je Hje. rewrite (B je Hje).
    destruct (counted_in_trial fiscal_year_id je); lia. }
  split; [exact G|].
  intros O. apply G. rewrite listed_accounts_all; assumption.
Qed.

Lemma capital_posted_reachable : reachable Scenario.capital_posted.
Proof.
  eapply reach_post_entry with (entry_id := 1%nat) (posted_by := 1%nat)
                               (now := 0%nat).
  - eapply reach_create_entry with (lines := Scenario.sale)
      (entry_date := 10%nat) (description := "sale") (fiscal_year_id := 1%nat)
      (created_by := None) (now := 0%nat) (entry_id := 1%nat).
    + eapply reach_add_account with (parent_id := None) (name_ar := "Capital")
        (name_en := "Capital") (account_type := "general")
        (account_category := "equity") (opening_balance := 500000)
        (created_by := None) (account_id := 3%nat).
      * eapply reach_add_account with (parent_id := None) (name_ar := "Revenue")
          (name_en := "Revenue") (account_type := "general")
          (account_category := "revenue") (opening_balance := 0)
          (created_by := None) (account_id := 2%nat).
        -- eapply reach_add_account with (parent_id := None) (name_ar := "Cash")
             (name_en := "Cash") (account_type := "assistant")
             (account_category := "asset") (opening_balance := 500000)
             (created_by := None) (account_id := 1%nat).
           ++ apply (reach_new [Scenario.fy2024] []).
           ++ vm_compute; reflexivity.
        -- vm_compute; reflexivity.
      * vm_compute; reflexivity.
    + vm_compute; reflexivity.
  - vm_compute; reflexivity.
Qed.

Lemma unopened_posted_reachable : reachable Scenario.unopened_posted.
Proof.
  eapply reach_post_entry with (entry_id := 1%nat) (posted_by := 1%nat)
                               (now := 0%nat).
  - eapply reach_create_entry with (lines := Scenario.sale)
      (entry_date := 10%nat) (description := "sale") (fiscal_year_id := 1%nat)
      (created_by := None) (now := 0%nat) (entry_id := 1%nat).
    + eapply reach_add_account with (parent_id := None) (name_ar := "Sales")
        (name_en := "Sales") (account_type := "general")
        (account_category := "revenue") (opening_balance := 0)
        (created_by := None) (account_id := 2%nat).
      * eapply reach_add_account with (parent_id := None) (name_ar := "Bank")
          (name_en := "Bank") (account_type := "assistant")
          (account_category := "asset") (opening_balance := 0)
          (created_by := None) (account_id := 1%nat).
        -- apply (reach_new [Scenario.fy2024] []).
        -- vm_compute; reflexivity.
      * vm_compute; reflexivity.
    + vm_compute; reflexivity.
  - vm_compute; reflexivity.
Qed.

Lemma trial_balance_balances_witness :
  (exists totals,
     last_row (ReportManager.get_trial_balance Scenario.capital_posted None)
       = Some totals /\
     TrialRow.code totals = None /\
     TrialRow.trial_debit totals = TrialRow.trial_credit totals) /\
  (exists totals,
     last_row (ReportManager.get_trial_balance Scenario.unopened_posted
                 (Some 1%nat)) = Some totals /\
     TrialRow.code totals = None /\
     TrialRow.trial_debit totals = TrialRow.trial_credit totals).
Proof.
  split.
  - refine (proj2 (trial_balance_balances Scenario.capital_posted
                     capital_posted_reachable _) _).
    + vm_compute. reflexivity.
    + vm_compute. reflexivity.
  - refine (proj1 (trial_balance_balances Scenario.unopened_posted
                     unopened_posted_reachable _) (Some 1%nat) _).
    + vm_compute. reflexivity.
    + vm_compute. reflexivity.
Defined.

(** C1 as the spec states it fails: with Cash opened at 5000.00 and the
    sale posted, the totals row shows 6000.00 on the debit side and 1000.00
    on the credit side. *)
Lemma trial_balance_counterexample :
  ~ (forall s totals,
       reachable s ->
       last_row (ReportManager.get_trial_balance s None) = Some totals ->
       TrialRow.trial_debit totals = TrialRow.trial_credit totals).
Proof.
  intros H.
  assert (G : exists totals,
            last_row (ReportManager.get_trial_balance (Scenario.after_post [])
                        None) = Some totals /\
            TrialRow.trial_debit totals = 600000 /\
            TrialRow.trial_credit totals = 100000).
  { eexists. vm_compute. repeat split. }
  destruct G as (totals & L & D & C).
  pose proof (H _ totals after_post_reachable L) as E.
  rewrite D, C in E. discriminate.
Qed.

(** ** Calls that fail *)

Lemma same_tables_refl s : same_tables s s.
Proof. repeat split. Qed.

Lemma transaction_failed_tables {A : Type} (body : Store -> option (A * Store))
    s s' :
  DatabaseManager.transaction body s = (None, s') -> same_tables s s'.
Proof.
  intros H. apply transaction_rollback in H. subst s'.
  apply next_fault_same_tables.
Qed.

Lemma delete_account_commit id s n s' :
  DatabaseManager.delete_account id s = (Some n, s') ->
  n = DatabaseManager.count_rows (fun a => Nat.eqb (Account.id a) id) (accounts s).
Proof.
  unfold DatabaseManager.delete_account. intros H.
  apply transaction_commit in H.
  pose proof (next_fault_tables s) as T. cbv zeta in T.
  destruct T as (Ta & _).
  inversion H. rewrite Ta. reflexivity.
Qed.

(** X1.  A call of [add_account], [update_entry], [delete_entry],
    [approve_entry] or [delete_account] without [force] that reports a
    failure has changed no table: each of them writes in one transaction. *)
Theorem failed_call_changes_no_table s :
  (forall parent_id name_ar name_en account_type account_category
          opening_balance created_by s',
     AccountManager.add_account s parent_id name_ar name_en account_type
       account_category opening_balance created_by = (None, s') ->
     same_tables s s')
  /\
  (forall entry_id kwargs s',
     JournalManager.update_entry s entry_id kwargs = (false, s') ->
     same_tables s s')
  /\
  (forall entry_id s',
     JournalManager.delete_entry s entry_id = (false, s') -> same_tables s s')
  /\
  (forall entry_id approved_by now s',
     JournalManager.approve_entry s entry_id approved_by now = (false, s') ->
     same_tables s s')
  /\
  (forall depth account_id s',
     AccountManager.delete_account depth s account_id false = (false, s') ->
     same_tables s s').
Proof.
  assert (Upd : forall data entry_id entry s',
            JournalManager.get_entry_details s entry_id = Some entry ->
            match DatabaseManager.update_journal_entry data entry_id s with
            | (None, s1) => (false, s1)
            | (Some affected_rows, s1) => (Nat.ltb 0 affected_rows, s1)
            end = (false, s') ->
            same_tables s s').
  { intros data entry_id entry s' G H.
    destruct (DatabaseManager.update_journal_entry data entry_id s)
      as [[n|] s1] eqn:U.
    - apply update_journal_entry_commit in U.
      destruct U as (_ & _ & _ & _ & ->).
      apply find_some_count in G. apply Nat.ltb_lt in G.
      rewrite G in H. discriminate.
    - inversion H; subst.
      unfold DatabaseManager.update_journal_entry in U.
      eapply transaction_failed_tables, U. }
  split; [|split; [|split; [|split]]].
  - intros parent_id name_ar name_en account_type account_category
      opening_balance created_by s' H.
    unfold AccountManager.add_account in H.
    destruct (negb _); [inversion H; apply same_tables_refl|].
    destruct (AccountManager.generate_account_code s parent_id) as [code|];
      [|inversion H; apply same_tables_refl].
    destruct (parse_account_type account_type) as [ty|];
      [|inversion H; apply same_tables_refl].
    destruct (parse_account_category account_category) as [category|];
      [|inversion H; apply same_tables_refl].
    destruct (code =? ""); [inversion H; apply same_tables_refl|].
    unfold DatabaseManager.insert_account in H.
    eapply transaction_failed_tables, H.
  - intros entry_id kwargs s' H.
    unfold JournalManager.update_entry in H.
    destruct (JournalManager.get_entry_details s entry_id) as [entry|] eqn:G;
      [|inversion H; apply same_tables_refl].
    destruct (JournalManager.posted_or_approved _);
      [inversion H; apply same_tables_refl|].
    destruct (negb _); [inversion H; apply same_tables_refl|].
    eapply Upd; eassumption.
  - intros entry_id s' H.
    unfold JournalManager.delete_entry in H.
    destruct (JournalManager.get_entry_details s entry_id) as [entry|];
      [|inversion H; apply same_tables_refl].
    destruct (JournalManager.posted_or_approved _);
      [inversion H; apply same_tables_refl|].
    destruct (DatabaseManager.transaction _ s) as [[u|] s1] eqn:T;
      [discriminate|].
    inversion H; subst. eapply transaction_failed_tables, T.
  - intros entry_id approved_by now s' H.
    unfold JournalManager.approve_entry in H.
    destruct (JournalManager.get_entry_details s entry_id) as [entry|] eqn:G;
      [|inversion H; apply same_tables_refl].
    destruct (negb _); [inversion H; apply same_tables_refl|].
    eapply Upd; eassumption.
  - intros depth account_id s' H.
    destruct depth as [|depth]; simpl in H;
      [inversion H; apply same_tables_refl|].
    destruct (AccountManager.get_account_by_id s account_id) as [account|] eqn:G;
      [|inversion H; apply same_tables_refl].
    destruct (AccountManager._validate_account_deletion s account_id); simpl in H;
      [|inversion H; apply same_tables_refl].
    destruct (AccountManager._has_journal_entries s account_id); simpl in H;
      [inversion H; apply same_tables_refl|].
    destruct (DatabaseManager.delete_account account_id s) as [[n|] s1] eqn:D.
    + apply delete_account_commit in D. subst n.
      apply find_some_count in G. apply Nat.ltb_lt in G.
      unfold AccountManager.get_account_by_id in G.
      rewrite G in H. discriminate.
    + inversion H; subst. unfold DatabaseManager.delete_account in D.
      eapply transaction_failed_tables, D.
Qed.

Lemma failed_call_changes_no_table_witness :
  let s := Scenario.after_create [false; false; false; true] in
  fst (JournalManager.delete_entry s 1) = false /\
  same_tables s (snd (JournalManager.delete_entry s 1)).
Proof.
  split; [vm_compute; reflexivity|].
  apply (proj1 (proj2 (proj2 (failed_call_changes_no_table
           (Scenario.after_create [false; false; false; true])))) 1%nat).
  vm_compute. reflexivity.
Defined.

(** ** Approval *)

Lemma find_update_rows_other data n other rows :
  other <> n ->
  find (fun e => Nat.eqb (JournalEntry.id e) other)
       (DatabaseManager.update_rows data n rows)
  = find (fun e => Nat.eqb (JournalEntry.id e) other) rows.
Proof.
  intros N. induction rows as [|e r IH]; [reflexivity|].
  simpl. destruct (Nat.eqb_spec (JournalEntry.id e) n) as [E|E].
  - rewrite assign_all_id.
    destruct (Nat.eqb_spec (JournalEntry.id e) other) as [E'|E'];
      [congruence|apply IH].
  - destruct (Nat.eqb (JournalEntry.id e) other); [reflexivity|apply IH].
Qed.

Lemma update_journal_entry_no_fault data id s :
  hd false (faults s) = false ->
  data <> [] ->
  existsb DatabaseManager.is_unknown data = false ->
  existsb DatabaseManager.sets_entry_number data = false ->
  exists s',
    DatabaseManager.update_journal_entry data id s
    = (Some (DatabaseManager.count_rows
               (fun e => Nat.eqb (JournalEntry.id e) id) (journal_entries s)),
       s').
Proof.
  intros F D U N. unfold DatabaseManager.update_journal_entry.
  rewrite transaction_no_fault by exact F.
  destruct data as [|c data]; [congruence|].
  rewrite U, N. simpl.
  pose proof (next_fault_tables s) as T. cbv zeta in T.
  destruct T as (_ & _ & -> & _).
  eexists. reflexivity.
Qed.

(** X2.  [approve_entry] moves a posted entry to approved and records who
    approved it and when; it touches no other field of the entry, no other
    entry, no line and no account.  An entry that is missing, draft or
    already approved is refused with the store as it was, and a posted entry
    is approved whenever the storage does not raise. *)
Theorem approve_entry_contract s entry_id approved_by now :
  (forall s',
     JournalManager.approve_entry s entry_id approved_by now = (true, s') ->
     exists entry,
       JournalManager.get_entry_details s entry_id = Some entry /\
       JournalEntry.status entry = posted /\
       JournalManager.get_entry_details s' entry_id =
         Some (JournalEntry.mk (JournalEntry.id entry)
                 (JournalEntry.entry_number entry) (JournalEntry.date entry)
                 (JournalEntry.description entry)
                 (JournalEntry.fiscal_year_id entry)
                 (JournalEntry.total_debit entry)
                 (JournalEntry.total_credit entry) approved
                 (JournalEntry.posted_at entry) (JournalEntry.posted_by entry)
                 (Some now) (Some approved_by)
                 (JournalEntry.created_by entry) (JournalEntry.updated_by entry)) /\
       (forall other, other <> entry_id ->
          JournalManager.get_entry_details s' other
          = JournalManager.get_entry_details s other) /\
       accounts s' = accounts s /\
       journal_lines s' = journal_lines s)
  /\
  (JournalManager.get_entry_details s entry_id = None ->
   JournalManager.approve_entry s entry_id approved_by now = (false, s))
  /\
  (forall entry,
     JournalManager.get_entry_details s entry_id = Some entry ->
     JournalEntry.status entry <> posted ->
     JournalManager.approve_entry s entry_id approved_by now = (false, s))
  /\
  (forall entry,
     JournalManager.get_entry_details s entry_id = Some entry ->
     JournalEntry.status entry = posted ->
     hd false (faults s) = false ->
     exists s',
       JournalManager.approve_entry s entry_id approved_by now = (true, s')).
Proof.
  split; [|split; [|split]].
  - intros s' H. apply approve_entry_inv in H.
    destruct H as (entry & n & G & St & U).
    apply update_journal_entry_commit in U.
    destruct U as (Ha & Hl & _ & He & _).
    exists entry. split; [exact G|]. split; [exact St|].
    unfold JournalManager.get_entry_details in *. rewrite He.
    split; [|split; [|split]].
    + rewrite find_update_rows, G. destruct entry; reflexivity.
    + intros other N. apply find_update_rows_other, N.
    + exact Ha.
    + exact Hl.
  - intros G. unfold JournalManager.approve_entry. rewrite G. reflexivity.
  - intros entry G St. unfold JournalManager.approve_entry. rewrite G.
    destruct (JournalEntry.status entry); try reflexivity. congruence.
  - intros entry G St F. unfold JournalManager.approve_entry.
    rewrite G, St. simpl.
    destruct (update_journal_entry_no_fault
                [col_status approved; col_approved_at (Some now);
                 col_approved_by (Some approved_by)] entry_id s F)
      as (s' & U); try reflexivity; [discriminate|].
    rewrite U. apply find_some_count in G. apply Nat.ltb_lt in G.
    unfold JournalManager.get_entry_details in G. rewrite G.
    eexists. reflexivity.
Qed.

Lemma approve_entry_contract_witness :
  exists s',
    JournalManager.approve_entry (Scenario.after_post []) 1 7 20 = (true, s') /\
    map JournalEntry.status (journal_entries s') = [approved] /\
    JournalManager.approve_entry (Scenario.after_create []) 1 7 20
      = (false, Scenario.after_create []).
Proof.
  destruct (proj2 (proj2 (proj2
              (approve_entry_contract (Scenario.after_post []) 1 7 20))))
    with (entry := JournalEntry.mk 1 "JE-000001" 10 "sale" 1 100000 100000
                     posted (Some 0%nat) (Some 1%nat) None None None None)
    as (s' & H).
  - vm_compute. reflexivity.
  - reflexivity.
  - reflexivity.
  - exists s'. split; [exact H|]. split.
    + revert H. vm_compute. intros H. inversion H. reflexivity.
    + vm_compute. reflexivity.
Defined.

(** ** What [validate_entry] accepts and what it reports *)

Lemma validate_journal_line_complete s line account_id account :
  LineDict.account_id line = Some account_id ->
  DatabaseManager.get_account s account_id = Some account ->
  Account.is_active account = true ->
  amounts_ok (LineDict.debit line) (LineDict.credit line) ->
  JournalManager._validate_journal_line s line = valid.
Proof.
  intros Hid G Act (Hd & Hc & Hx).
  unfold JournalManager._validate_journal_line.
  rewrite Hid, G, Act. cbv zeta. simpl negb. cbv iota.
  destruct (Z.ltb_spec (LineDict.debit line) 0); [lia|].
  destruct (Z.ltb_spec (LineDict.credit line) 0); [lia|].
  simpl orb. cbv iota.
  destruct (Z.gtb_spec (LineDict.debit line) 0),
           (Z.gtb_spec (LineDict.credit line) 0),
           (Z.eqb_spec (LineDict.debit line) 0),
           (Z.eqb_spec (LineDict.credit line) 0);
    simpl; try reflexivity; lia.
Qed.

Lemma validate_lines_complete s lines : forall i,
  (forall line, In line lines ->
     JournalManager._validate_journal_line s line = valid) ->
  JournalManager.validate_lines s i lines = valid.
Proof.
  induction lines as [|line rest IH]; intros i H; [reflexivity|].
  simpl. rewrite (H line) by (left; reflexivity).
  apply IH. intros l Hl. apply H. right. exact Hl.
Qed.


Lemma whole_lines_amounts lines :
  whole_lines lines = true ->
  forallb (fun line => whole (LineDict.debit line)) lines = true /\
  forallb (fun line => whole (LineDict.credit line)) lines = true.
Proof.
  unfold whole_lines. intros H.
  apply andb_true_iff in H. destruct H as (H & _).
  rewrite forallb_forall in H.
  split; apply forallb_forall; intros line Hl; specialize (H line Hl);
    apply andb_true_iff in H; tauto.
Qed.

(** X3.  On lines whose amounts are whole and add up to less than 2^53 --
    amounts the floats of the code add without rounding -- [validate_entry]
    accepts exactly the entries of two lines or more whose debits and
    credits have the same total and whose lines each name an existing
    active account and carry one amount, debit or credit, that is positive
    while the other is zero. *)
Theorem validate_entry_accepts_exactly s lines :
  whole_lines lines = true ->
  (JournalManager.validate_entry s lines = valid <->
   (2 <= List.length lines)%nat /\
   Sql.sum LineDict.debit lines = Sql.sum LineDict.credit lines /\
   forall line, In line lines ->
     exists account_id account,
       LineDict.account_id line = Some account_id /\
       DatabaseManager.get_account s account_id = Some account /\
       Account.is_active account = true /\
       amounts_ok (LineDict.debit line) (LineDict.credit line)).
Proof.
  intros W. destruct (whole_lines_amounts lines W) as (Wd & Wk).
  split.
  - intros H. apply validate_entry_valid in H.
    destruct H as (L & B & V). split; [exact L|].
    split; [apply whole_within_tolerance;
            [apply sum_whole, Wd|apply sum_whole, Wk|exact B]|].
    intros line Hl. apply validate_journal_line_valid, V, Hl.
  - intros (L & B & V). unfold JournalManager.validate_entry.
    destruct (Nat.ltb_spec (List.length lines) 2); [lia|].
    rewrite calculate_entry_totals_sum. cbv zeta. simpl fst. simpl snd.
    destruct (Z.gtb_spec (Z.abs (Sql.sum LineDict.debit lines
                                 - Sql.sum LineDict.credit lines)) tolerance)
      as [T|T]; [rewrite B in T; unfold tolerance in T; lia|].
    apply validate_lines_complete. intros line Hl.
    destruct (V line Hl) as (account_id & account & Hid & G & Act & Am).
    eapply validate_journal_line_complete; eassumption.
Qed.


Lemma validate_entry_accepts_exactly_witness :
  JournalManager.validate_entry (Scenario.with_revenue []) Scenario.sale = valid.
Proof.
  apply (proj2 (validate_entry_accepts_exactly (Scenario.with_revenue [])
                  Scenario.sale eq_refl)).
  split; [simpl; lia|]. split; [reflexivity|].
  intros line [<-|[<-|[]]].
  - exists 1%nat. eexists. split; [reflexivity|].
    split; [vm_compute; reflexivity|]. split; [reflexivity|].
    unfold amounts_ok. simpl. lia.
  - exists 2%nat. eexists. split; [reflexivity|].
    split; [vm_compute; reflexivity|]. split; [reflexivity|].
    unfold amounts_ok. simpl. lia.
Defined.


(** ** Deleting a draft *)

Lemma find_filter_implied {A : Type} (p q : A -> bool) l :
  (forall x, p x = true -> q x = true) ->
  find p (filter q l) = find p l.
Proof.
  intros H. induction l as [|x r IH]; [reflexivity|].
  simpl. destruct (q x) eqn:Q; simpl.
  - destruct (p x); [reflexivity|exact IH].
  - destruct (p x) eqn:P; [|exact IH].
    apply H in P. congruence.
Qed.

Lemma filter_filter_implied {A : Type} (p q : A -> bool) l :
  (forall x, p x = true -> q x = true) ->
  filter p (filter q l) = filter p l.
Proof.
  intros H. induction l as [|x r IH]; [reflexivity|].
  simpl. destruct (q x) eqn:Q; simpl.
  - destruct (p x); [f_equal|]; exact IH.
  - destruct (p x) eqn:P; [|exact IH].
    apply H in P. congruence.
Qed.

Lemma filter_filter_none {A : Type} (p q : A -> bool) l :
  (forall x, p x = true -> q x = false) ->
  filter p (filter q l) = [].
Proof.
  intros H. apply filter_none. intros x Hx.
  apply filter_In in Hx. destruct Hx as (_ & Q).
  destruct (p x) eqn:P; [|reflexivity].
  apply H in P. congruence.
Qed.

(** X5.  [delete_entry] on a draft, the storage not raising, removes the entry
    and its lines and nothing else: every other entry keeps its row and its
    lines, and no account is touched. *)
Theorem delete_entry_removes_draft s entry_id entry :
  JournalManager.get_entry_details s entry_id = Some entry ->
  JournalEntry.status entry = draft ->
  hd false (faults s) = false ->
  exists s',
    JournalManager.delete_entry s entry_id = (true, s') /\
    JournalManager.get_entry_details s' entry_id = None /\
    lines_of_entry s' entry_id = [] /\
    accounts s' = accounts s /\
    forall other, other <> entry_id ->
      JournalManager.get_entry_details s' other
      = JournalManager.get_entry_details s other /\
      lines_of_entry s' other = lines_of_entry s other.
Proof.
  intros G St F. unfold JournalManager.delete_entry.
  rewrite G, St. simpl JournalManager.posted_or_approved. cbv iota.
  rewrite transaction_no_fault by exact F.
  pose proof (next_fault_tables s) as T. cbv zeta in T.
  destruct T as (Ta & _ & Te & Tl & _).
  eexists. split; [reflexivity|].
  unfold JournalManager.get_entry_details, lines_of_entry. simpl.
  rewrite Ta, Te, Tl.
  split; [|split; [|split; [reflexivity|]]].
  - apply find_all_false. intros e He.
    apply filter_In in He. destruct He as (_ & He).
    apply negb_true_iff in He. exact He.
  - apply filter_filter_none. intros jl E.
    apply Nat.eqb_eq in E. rewrite <- E, Nat.eqb_refl. reflexivity.
  - intros other N. split.
    + apply find_filter_implied. intros e E.
      apply Nat.eqb_eq in E. apply negb_true_iff, Nat.eqb_neq. congruence.
    + apply filter_filter_implied. intros jl E.
      apply Nat.eqb_eq in E. apply negb_true_iff, Nat.eqb_neq. congruence.
Qed.

Lemma delete_entry_removes_draft_witness :
  exists s',
    JournalManager.delete_entry (Scenario.after_create []) 1 = (true, s') /\
    journal_entries s' = [] /\ journal_lines s' = [] /\
    accounts s' = accounts (Scenario.after_create []).
Proof.
  destruct (delete_entry_removes_draft (Scenario.after_create []) 1
              (JournalEntry.mk 1 "JE-000001" 10 "sale" 1 100000 100000 draft
                 None None None None None None))
    as (s' & D & _ & _ & A & _).
  - vm_compute. reflexivity.
  - reflexivity.
  - reflexivity.
  - exists s'. split; [exact D|].
    revert D. vm_compute. intros D. inversion D. repeat split.
Defined.

Lemma filter_app_fresh {A : Type} (p : A -> bool) l1 l2 :
  (forall x, In x l1 -> p x = true) ->
  (forall x, In x l2 -> p x = false) ->
  filter p (l1 ++ l2) = l1.
Proof.
  intros H1 H2. rewrite filter_app, (filter_all _ _ H1), (filter_none _ _ H2).
  apply app_nil_r.
Qed.

(** X6.  Creating an entry and deleting it again restores the tables, when every
    line of the journal belongs to an entry of the journal: the new rows
    are the only ones the deletion removes. *)
Theorem create_then_delete_restores_tables s entry_date description lines
    fiscal_year_id created_by now entry_id s1 :
  (forall jl, In jl (journal_lines s) ->
     In (JournalLine.entry_id jl) (map JournalEntry.id (journal_entries s))) ->
  JournalManager.create_entry s entry_date description lines fiscal_year_id
    created_by now = (Some entry_id, s1) ->
  hd false (faults s1) = false ->
  exists s2,
    JournalManager.delete_entry s1 entry_id = (true, s2) /\
    same_tables s s2.
Proof.
  intros Hl C F.
  apply create_entry_commit in C.
  destruct C as (_ & Hid & Ha & Hf & He & rows & Hr & R).
  assert (G : JournalManager.get_entry_details s1 entry_id
              = Some (JournalEntry.mk entry_id
                        (JournalManager.generate_entry_number s fiscal_year_id now)
                        entry_date description fiscal_year_id
                        (Sql.sum LineDict.debit lines)
                        (Sql.sum LineDict.credit lines)
                        draft None None None None created_by None)).
  { unfold JournalManager.get_entry_details. rewrite He, find_app_none.
    - simpl. rewrite Nat.eqb_refl. reflexivity.
    - rewrite Hid. apply find_entry_fresh. }
  unfold JournalManager.delete_entry. rewrite G.
  simpl JournalManager.posted_or_approved. cbv iota.
  rewrite transaction_no_fault by exact F.
  pose proof (next_fault_tables s1) as T. cbv zeta in T.
  destruct T as (Ta & Tf & Te & Tl & _).
  eexists. split; [reflexivity|].
  unfold same_tables. simpl. rewrite Ta, Tf, Te, Tl, Ha, Hf, He, Hr.
  split; [reflexivity|]. split; [reflexivity|]. split.
  - apply filter_app_fresh.
    + intros e Hin. apply negb_true_iff, Nat.eqb_neq.
      rewrite Hid. apply next_rowid_fresh, in_map, Hin.
    + intros e [<-|[]]. simpl. rewrite Nat.eqb_refl. reflexivity.
  - apply filter_app_fresh.
    + intros jl Hin. apply negb_true_iff, Nat.eqb_neq.
      rewrite Hid. apply next_rowid_fresh, Hl, Hin.
    + intros jl Hin.
      destruct (rows_of_lines_in _ _ _ R jl Hin) as (line & _ & _ & E & _).
      rewrite E, Nat.eqb_refl. reflexivity.
Qed.

Lemma create_then_delete_restores_tables_witness :
  exists s2,
    JournalManager.delete_entry (Scenario.after_create []) 1 = (true, s2) /\
    same_tables (Scenario.with_revenue []) s2.
Proof.
  apply (create_then_delete_restores_tables (Scenario.with_revenue []) 10
           "sale" Scenario.sale 1 None 0 1 (Scenario.after_create [])).
  - intros jl H. vm_compute in H. destruct H.
  - vm_compute. reflexivity.
  - reflexivity.
Defined.

(** ** Decimal numerals *)

Lemma to_uint_not_nil n : Nat.to_uint n <> Decimal.Nil.
Proof.
  intros H. pose proof (DecimalNat.Unsigned.of_to n) as E. rewrite H in E.
  simpl in E. subst n. discriminate H.
Qed.

(** [int(str(n)) == n] *)
Lemma int_str n : Py.int (Py.str n) = Some n.
Proof.
  unfold Py.int, Py.str.
  rewrite NilZero.usu by apply to_uint_not_nil.
  simpl. f_equal. apply DecimalNat.Unsigned.of_to.
Qed.

Lemma int_leading_zero s :
  s <> "" -> Py.int (String "0" s) = Py.int s.
Proof.
  intros N. unfold Py.int.
  destruct s as [|c r]; [congruence|].
  change (NilZero.uint_of_string (String "0" (String c r)))
    with (uint_of_char "0" (NilEmpty.uint_of_string (String c r))).
  change (NilZero.uint_of_string (String c r))
    with (NilEmpty.uint_of_string (String c r)).
  destruct (NilEmpty.uint_of_string (String c r)) as [d|]; reflexivity.
Qed.

Lemma zeros_append_not_empty k s : s <> "" -> (Py.zeros k ++ s)%string <> "".
Proof. intros N. apply append_not_empty, N. Qed.

(** [int(f"{n:0wd}") == n] *)
Lemma int_zfill w n : Py.int (Py.zfill w n) = Some n.
Proof.
  unfold Py.zfill. cbv zeta.
  induction (w - String.length (Py.str n))%nat as [|k IH]; simpl.
  - apply int_str.
  - rewrite int_leading_zero; [exact IH|].
    apply zeros_append_not_empty, str_not_empty.
Qed.

Lemma after_last_dash_digits d : forall acc,
  Py.after_last_dash_aux acc (NilEmpty.string_of_uint d) = acc.
Proof. induction d; intros acc; simpl; auto. Qed.

Lemma after_last_dash_str n acc :
  Py.after_last_dash_aux acc (Py.str n) = acc.
Proof.
  unfold Py.str, NilZero.string_of_uint.
  destruct (Nat.to_uint n); try apply after_last_dash_digits. reflexivity.
Qed.

Lemma after_last_dash_zfill w n acc :
  Py.after_last_dash_aux acc (Py.zfill w n) = acc.
Proof.
  unfold Py.zfill. cbv zeta.
  induction (w - String.length (Py.str n))%nat as [|k IH]; simpl.
  - apply after_last_dash_str.
  - exact IH.
Qed.

(** The number [generate_entry_number] reads back from ["JE-000041"]. *)
Lemma entry_number_round_trip n :
  Py.int (Py.after_last_dash ("JE-" ++ Py.zfill 6 n)) = Some n.
Proof.
  unfold Py.after_last_dash. simpl.
  rewrite after_last_dash_zfill. apply int_zfill.
Qed.

(** ** The first row of an ORDER BY *)

Section OrderByHead.
Context {A : Type} (le : A -> A -> bool).

(** On rows that [le] compares totally and transitively, [ORDER BY ...
    LIMIT 1] yields a least row. *)
Lemma order_by_hd_least l :
  (forall a b, In a l -> In b l -> le a b = true \/ le b a = true) ->
  (forall a b c, In a l -> In b l -> In c l ->
     le a b = true -> le b c = true -> le a c = true) ->
  forall x, hd_error (Sql.order_by le l) = Some x ->
    In x l /\ forall y, In y l -> le x y = true.
Proof.
  induction l as [|a r IH]; intros Tot Tr x H; [discriminate|].
  simpl in H.
  assert (Tot' : forall a b, In a r -> In b r -> le a b = true \/ le b a = true)
    by (intros; apply Tot; right; assumption).
  assert (Tr' : forall a b c, In a r -> In b r -> In c r ->
            le a b = true -> le b c = true -> le a c = true)
    by (intros u v w Hu Hv Hw; apply Tr; right; assumption).
  specialize (IH Tot' Tr').
  assert (Raa : le a a = true)
    by (destruct (Tot a a) as [E|E]; try exact E; left; reflexivity).
  destruct (Sql.order_by le r) as [|h t] eqn:O.
  - apply order_by_nil in O. subst r. simpl in H. inversion H; subst.
    split; [left; reflexivity|]. intros y [<-|[]]. exact Raa.
  - destruct (IH h eq_refl) as (Hh & Least).
    simpl in H. destruct (le a h) eqn:L.
    + inversion H; subst. split; [left; reflexivity|].
      intros y [<-|Hy]; [exact Raa|].
      apply (Tr x h y); auto; try (left; reflexivity); right; assumption.
    + inversion H; subst. split; [right; exact Hh|].
      intros y [<-|Hy].
      * destruct (Tot a x) as [E|E]; auto; try (left; reflexivity);
          try (right; exact Hh). congruence.
      * apply Least, Hy.
Qed.
End OrderByHead.

(** ** Entry numbers *)

Lemma next_rowid_greater seq ids i :
  In i ids -> (i < DatabaseManager.next_rowid seq ids)%nat.
Proof.
  intros H. unfold DatabaseManager.next_rowid.
  pose proof (list_max_le ids (list_max ids)) as (L & _).
  specialize (L (Nat.le_refl _)).
  rewrite Forall_forall in L. specialize (L i H). lia.
Qed.

Lemma sorted_snoc (l : list nat) (x : nat) :
  StronglySorted lt l -> (forall y, In y l -> (y < x)%nat) ->
  StronglySorted lt (l ++ [x]).
Proof.
  induction 1 as [|a l Srt IH F]; intros H; simpl.
  - constructor; constructor.
  - constructor.
    + apply IH. intros y Hy. apply H. right. exact Hy.
    + apply Forall_app. split; [exact F|].
      constructor; [|constructor]. apply H. left. reflexivity.
Qed.

(** In a table whose ids grow along the rows, a row of greatest id is the
    last one. *)
Lemma greatest_id_is_last (l : list JournalEntry.t) x :
  StronglySorted lt (map JournalEntry.id l) ->
  In x l ->
  (forall y, In y l -> (JournalEntry.id y <= JournalEntry.id x)%nat) ->
  exists l', l = (l' ++ [x])%list.
Proof.
  induction l as [|a r IH]; intros Srt Hx Max; [destruct Hx|].
  simpl in Srt. inversion Srt as [|? ? Sr Fa]; subst.
  destruct r as [|b r'].
  - destruct Hx as [<-|[]]. exists []. reflexivity.
  - destruct Hx as [<-|Hx].
    + exfalso. rewrite Forall_forall in Fa.
      specialize (Fa (JournalEntry.id b) (or_introl eq_refl)).
      specialize (Max b (or_intror (or_introl eq_refl))). lia.
    + destruct (IH Sr Hx) as (l' & E).
      * intros y Hy. apply Max. right. exact Hy.
      * exists (a :: l'). simpl. rewrite E. reflexivity.
Qed.

Lemma generate_entry_number_next s fiscal_year_id now :
  StronglySorted lt (map JournalEntry.id (journal_entries s)) ->
  (forall je, In je (journal_entries s) ->
     JournalEntry.fiscal_year_id je = fiscal_year_id) ->
  numbered (journal_entries s) ->
  JournalManager.generate_entry_number s fiscal_year_id now
  = "JE-" ++ Py.zfill 6 (List.length (journal_entries s) + 1).
Proof.
  intros Srt Fy N. unfold JournalManager.generate_entry_number.
  rewrite filter_all
    by (intros je Hje; apply Nat.eqb_eq, Fy, Hje).
  destruct (hd_error _) as [x|] eqn:H.
  - apply order_by_hd_least in H.
    + destruct H as (Hx & Least).
      destruct (greatest_id_is_last _ x Srt Hx) as (l' & E).
      { intros y Hy. apply Nat.leb_le, Least, Hy. }
      unfold numbered in N. rewrite E in N |- *.
      rewrite length_app in N. simpl List.length in N.
      rewrite seq_app, !map_app in N. cbn [map seq] in N.
      apply app_inj_tail in N. destruct N as (_ & Last).
      replace (1 + List.length l')%nat with (List.length l' + 1)%nat in Last
        by lia.
      rewrite Last, entry_number_round_trip.
      rewrite length_app. simpl. reflexivity.
    + intros a b _ _.
      destruct (Nat.leb_spec (JournalEntry.id b) (JournalEntry.id a));
        [left; reflexivity|right; apply Nat.leb_le; lia].
    + intros a b c _ _ _ H1 H2. apply Nat.leb_le in H1, H2.
      apply Nat.leb_le. lia.
  - destruct (journal_entries s) as [|e r] eqn:E; [reflexivity|].
    exfalso.
    assert (O : Sql.order_by
                  (fun e1 e2 => Nat.leb (JournalEntry.id e2) (JournalEntry.id e1))
                  (e :: r) = []).
    { destruct (Sql.order_by _ (e :: r)); [reflexivity|discriminate]. }
    apply order_by_nil in O. discriminate.
Qed.

Lemma update_rows_keeps {B : Type} (f : JournalEntry.t -> B) data n rows :
  (forall e, f (fold_left DatabaseManager.assign data e) = f e) ->
  map f (DatabaseManager.update_rows data n rows) = map f rows.
Proof.
  intros H. unfold DatabaseManager.update_rows. rewrite map_map.
  apply map_ext. intros e.
  destruct (Nat.eqb (JournalEntry.id e) n); [apply H|reflexivity].
Qed.

(** What a step of the lifecycle leaves of the journal: the rows, in
    order, with their ids, numbers and fiscal years. *)
Lemma status_step_entries s s' :
  (exists entry_id posted_by now,
     JournalManager.post_entry s entry_id posted_by now = (true, s')) \/
  (exists entry_id approved_by now,
     JournalManager.approve_entry s entry_id approved_by now = (true, s')) ->
  map JournalEntry.id (journal_entries s')
    = map JournalEntry.id (journal_entries s) /\
  map JournalEntry.entry_number (journal_entries s')
    = map JournalEntry.entry_number (journal_entries s) /\
  map JournalEntry.fiscal_year_id (journal_entries s')
    = map JournalEntry.fiscal_year_id (journal_entries s).
Proof.
  intros [(entry_id & posted_by & now & H)|(entry_id & approved_by & now & H)].
  - apply post_entry_inv in H.
    destruct H as (entry & s1 & n & _ & _ & B & U).
    apply update_balances_entries in B. destruct B as (Be & _ & _).
    apply update_journal_entry_commit in U.
    destruct U as (_ & _ & _ & -> & _). rewrite Be.
    repeat split; apply update_rows_keeps; intros e; destruct e; reflexivity.
  - apply approve_entry_inv in H.
    destruct H as (entry & n & _ & _ & U).
    apply update_journal_entry_commit in U.
    destruct U as (_ & _ & _ & -> & _).
    repeat split; apply update_rows_keeps; intros e; destruct e; reflexivity.
Qed.

Lemma add_account_entries s parent_id name_ar name_en account_type
    account_category opening_balance created_by account_id s' :
  AccountManager.add_account s parent_id name_ar name_en account_type
    account_category opening_balance created_by = (Some account_id, s') ->
  journal_entries s' = journal_entries s /\ journal_lines s' = journal_lines s.
Proof.
  intros H. apply add_account_commit in H.
  destruct H as (data & H & _).
  apply insert_account_commit in H.
  destruct H as (_ & _ & _ & He & Hl). split; assumption.
Qed.

Lemma reachable_entry_ids_grow s :
  reachable s -> StronglySorted lt (map JournalEntry.id (journal_entries s)).
Proof.
  induction 1 as [fys fs
                 |s ? ? ? ? ? ? ? ? s' R IH H
                 |s ? ? ? ? ? ? ? s' R IH H
                 |s ? ? ? s' R IH H
                 |s ? ? ? s' R IH H].
  - constructor.
  - apply add_account_entries in H. destruct H as (-> & _). exact IH.
  - apply create_entry_commit in H.
    destruct H as (_ & Hid & _ & _ & He & _).
    rewrite He, map_app. simpl. apply sorted_snoc; [exact IH|].
    intros y Hy. rewrite Hid. apply next_rowid_greater, Hy.
  - destruct (status_step_entries s s') as (-> & _); [|exact IH].
    left. eauto.
  - destruct (status_step_entries s s') as (-> & _); [|exact IH].
    right. eauto.
Qed.

Lemma in_by_map {A B : Type} (f : A -> B) l l' (P : B -> Prop) :
  map f l' = map f l ->
  (forall x, In x l' -> P (f x)) -> forall x, In x l -> P (f x).
Proof.
  intros E H x Hx. apply (in_map f) in Hx. rewrite <- E in Hx.
  apply in_map_iff in Hx. destruct Hx as (y & <- & Hy). apply H, Hy.
Qed.

Lemma numbered_by_map l l' :
  map JournalEntry.entry_number l' = map JournalEntry.entry_number l ->
  numbered l -> numbered l'.
Proof.
  intros E N. unfold numbered in *. rewrite E, N.
  rewrite <- (length_map JournalEntry.entry_number l'), E, length_map.
  reflexivity.
Qed.

Lemma reachable_numbered s :
  reachable s ->
  forall fiscal_year_id,
    (forall je, In je (journal_entries s) ->
       JournalEntry.fiscal_year_id je = fiscal_year_id) ->
    numbered (journal_entries s).
Proof.
  induction 1 as [fys fs
                 |s ? ? ? ? ? ? ? ? s' R IH H
                 |s entry_date description lines fy created_by now entry_id
                    s' R IH H
                 |s ? ? ? s' R IH H
                 |s ? ? ? s' R IH H]; intros fiscal_year_id Fy.
  - reflexivity.
  - apply add_account_entries in H. destruct H as (He & _).
    rewrite He in *. eapply IH, Fy.
  - pose proof (reachable_entry_ids_grow s R) as Srt.
    apply create_entry_commit in H.
    destruct H as (_ & Hid & _ & _ & He & _).
    rewrite He in Fy |- *.
    assert (Fy0 : forall je, In je (journal_entries s) ->
                    JournalEntry.fiscal_year_id je = fiscal_year_id)
      by (intros je Hje; apply Fy, in_or_app; left; exact Hje).
    assert (E : fy = fiscal_year_id).
    { refine (Fy (JournalEntry.mk entry_id _ entry_date description fy _ _
                    draft None None None None created_by None) _).
      apply in_or_app. right. left. reflexivity. }
    subst fy. specialize (IH _ Fy0).
    rewrite (generate_entry_number_next s fiscal_year_id now Srt Fy0 IH).
    unfold numbered in *.
    rewrite length_app, seq_app, !map_app, IH.
    replace (1 + List.length (journal_entries s))%nat
      with (List.length (journal_entries s) + 1)%nat by lia.
    reflexivity.
  - destruct (status_step_entries s s') as (_ & En & Ef); [left; eauto|].
    apply (numbered_by_map (journal_entries s)); [exact En|].
    apply (IH fiscal_year_id).
    apply (in_by_map JournalEntry.fiscal_year_id _ _
             (fun v => v = fiscal_year_id) Ef Fy).
  - destruct (status_step_entries s s') as (_ & En & Ef); [right; eauto|].
    apply (numbered_by_map (journal_entries s)); [exact En|].
    apply (IH fiscal_year_id).
    apply (in_by_map JournalEntry.fiscal_year_id _ _
             (fun v => v = fiscal_year_id) Ef Fy).
Qed.

(** X7.  In a journal whose entries all belong to one fiscal year the entry
    numbers are consecutive: the entry at position [i] carries [JE-] and
    [i] on six digits, and the next entry of that year is given the number
    after the last. *)
Theorem entry_numbers_are_consecutive s fiscal_year_id :
  reachable s ->
  (forall je, In je (journal_entries s) ->
     JournalEntry.fiscal_year_id je = fiscal_year_id) ->
  map JournalEntry.entry_number (journal_entries s)
  = map (fun i => "JE-" ++ Py.zfill 6 i)
      (seq 1 (List.length (journal_entries s)))
  /\
  forall now,
    JournalManager.generate_entry_number s fiscal_year_id now
    = "JE-" ++ Py.zfill 6 (List.length (journal_entries s) + 1).
Proof.
  intros R Fy. split.
  - apply (reachable_numbered s R fiscal_year_id Fy).
  - intros now. apply generate_entry_number_next.
    + apply reachable_entry_ids_grow, R.
    + exact Fy.
    + apply (reachable_numbered s R fiscal_year_id Fy).
Qed.

Lemma entry_numbers_are_consecutive_witness :
  map JournalEntry.entry_number (journal_entries (Scenario.after_post []))
    = ["JE-000001"] /\
  JournalManager.generate_entry_number (Scenario.after_post []) 1 0
    = "JE-000002".
Proof.
  destruct (entry_numbers_are_consecutive (Scenario.after_post []) 1
              after_post_reachable) as (N & G).
  - intros je H. vm_compute in H. destruct H as [<-|[]]. reflexivity.
  - split; [exact N|apply G].
Defined.

(** X8.  The numbers start again at 1 in every fiscal year, but [entry_number]
    is UNIQUE over the whole table: while an entry numbered [JE-000001]
    exists, a fiscal year that has no entry yet cannot be given one.
    [create_entry] returns [None] and the tables stay as they were. *)
Theorem first_entry_of_another_year_collides s entry_date description lines
    fiscal_year_id created_by now e :
  (forall je, In je (journal_entries s) ->
     JournalEntry.fiscal_year_id je <> fiscal_year_id) ->
  In e (journal_entries s) ->
  JournalEntry.entry_number e = "JE-000001" ->
  exists s',
    JournalManager.create_entry s entry_date description lines fiscal_year_id
      created_by now = (None, s') /\
    same_tables s s'.
Proof.
  intros Fy He Hn. unfold JournalManager.create_entry.
  destruct (JournalManager.validate_entry s lines);
    [|eexists; split; [reflexivity|repeat split]].
  assert (G : JournalManager.generate_entry_number s fiscal_year_id now
              = "JE-000001").
  { unfold JournalManager.generate_entry_number. rewrite filter_none.
    - reflexivity.
    - intros je Hje. apply Nat.eqb_neq, Fy, Hje. }
  rewrite G. cbv zeta.
  match goal with
  | |- exists s', DatabaseManager.transaction ?b s = _ /\ _ => set (body := b)
  end.
  destruct (DatabaseManager.transaction body s) as [[entry_id|] s'] eqn:T.
  - exfalso. apply transaction_commit in T. unfold body in T.
    unfold JournalManager.insert_entry in T.
    pose proof (next_fault_tables s) as N. cbv zeta in N.
    destruct N as (_ & _ & Ne & _). rewrite Ne in T.
    replace (existsb _ (journal_entries s)) with true in T; [discriminate|].
    symmetry. apply existsb_exists. exists e. split; [exact He|].
    rewrite Hn. reflexivity.
  - exists s'. split; [reflexivity|].
    eapply transaction_failed_tables, T.
Qed.

Lemma first_entry_of_another_year_collides_witness :
  exists s',
    JournalManager.create_entry (Scenario.after_create []) 400 "sale"
      Scenario.sale 2 None 0 = (None, s') /\
    same_tables (Scenario.after_create []) s'.
Proof.
  apply (first_entry_of_another_year_collides (Scenario.after_create []) 400
           "sale" Scenario.sale 2 None 0
           (JournalEntry.mk 1 "JE-000001" 10 "sale" 1 100000 100000 draft
              None None None None None None)).
  - intros je H. vm_compute in H. destruct H as [<-|[]]. discriminate.
  - vm_compute. left. reflexivity.
  - reflexivity.
Defined.

(** ** Balances recomputed from the journal *)

Lemma sum_swap {A B : Type} (h : A -> B -> Z) l1 l2 :
  Sql.sum (fun x => Sql.sum (fun y => h x y) l2) l1
  = Sql.sum (fun y => Sql.sum (fun x => h x y) l1) l2.
Proof.
  induction l1 as [|x r IH].
  - simpl. symmetry. apply sum_zero. reflexivity.
  - change (Sql.sum (fun y => h x y) l2
            + Sql.sum (fun x0 => Sql.sum (fun y => h x0 y) l2) r
            = Sql.sum (fun y => h x y + Sql.sum (fun x0 => h x0 y) r) l2).
    rewrite IH, sum_plus. reflexivity.
Qed.

(** The sum over [journal_lines JOIN journal_entries] is the sum over
    [journal_entries JOIN journal_lines]. *)
Lemma lines_join_sum (g : JournalLine.t -> Z) (cond : JournalEntry.t -> bool)
    s account_id :
  Sql.sum (fun r => g (fst r))
    (flat_map
       (fun jl =>
          map (pair jl)
            (filter (fun je => Nat.eqb (JournalLine.entry_id jl) (JournalEntry.id je)
                               && cond je)
                    (journal_entries s)))
       (filter (fun jl => Nat.eqb (JournalLine.account_id jl) account_id)
               (journal_lines s)))
  = Sql.sum (fun r => g (snd r))
      (ReportManager.entry_lines_of_account s account_id cond).
Proof.
  set (h := fun (jl : JournalLine.t) (je : JournalEntry.t) =>
              if Nat.eqb (JournalLine.account_id jl) account_id
                 && Nat.eqb (JournalLine.entry_id jl) (JournalEntry.id je)
                 && cond je
              then g jl else 0).
  transitivity (Sql.sum (fun jl => Sql.sum (fun je => h jl je) (journal_entries s))
                  (journal_lines s)).
  - rewrite sum_flat_map, sum_filter. apply sum_ext_in. intros jl _.
    unfold h. destruct (Nat.eqb (JournalLine.account_id jl) account_id); simpl.
    + rewrite sum_map, sum_filter. reflexivity.
    + symmetry. apply sum_zero. reflexivity.
  - rewrite sum_swap. unfold ReportManager.entry_lines_of_account.
    rewrite sum_flat_map. apply sum_ext_in. intros je _.
    unfold h. destruct (cond je).
    + rewrite sum_map, sum_filter. apply sum_ext_in. intros jl _.
      rewrite andb_true_r, (Nat.eqb_sym (JournalEntry.id je)), andb_comm.
      reflexivity.
    + apply sum_zero. intros jl _. rewrite andb_false_r. reflexivity.
Qed.

Lemma positive_part_amount jl :
  amounts_ok (JournalLine.debit jl) (JournalLine.credit jl) ->
  ReportManager.positive_part (JournalLine.debit jl) = JournalLine.debit jl /\
  ReportManager.positive_part (JournalLine.credit jl) = JournalLine.credit jl.
Proof.
  intros (Hd & Hc & _). unfold ReportManager.positive_part.
  destruct (Z.gtb_spec (JournalLine.debit jl) 0),
           (Z.gtb_spec (JournalLine.credit jl) 0); split; lia.
Qed.

(** The balance a report recomputes from opening balance and positive
    parts is the opening balance and the signed amounts of the lines. *)
Lemma recomputed_balance category opening rows :
  (forall r : JournalEntry.t * JournalLine.t, In r rows ->
     amounts_ok (JournalLine.debit (snd r)) (JournalLine.credit (snd r))) ->
  (if debit_normal category
   then opening
        + Sql.sum (fun r => ReportManager.positive_part (JournalLine.debit (snd r))) rows
        - Sql.sum (fun r => ReportManager.positive_part (JournalLine.credit (snd r))) rows
   else opening
        - Sql.sum (fun r => ReportManager.positive_part (JournalLine.debit (snd r))) rows
        + Sql.sum (fun r => ReportManager.positive_part (JournalLine.credit (snd r))) rows)
  = opening + Sql.sum (fun r => signed_amount category (snd r)) rows.
Proof.
  intros H.
  rewrite (sum_ext_in (fun r => ReportManager.positive_part (JournalLine.debit (snd r)))
             (fun r => JournalLine.debit (snd r)) rows)
    by (intros r Hr; apply positive_part_amount, H, Hr).
  rewrite (sum_ext_in (fun r => ReportManager.positive_part (JournalLine.credit (snd r)))
             (fun r => JournalLine.credit (snd r)) rows)
    by (intros r Hr; apply positive_part_amount, H, Hr).
  unfold signed_amount. destruct (debit_normal category).
  - rewrite (sum_minus (fun r => JournalLine.debit (snd r))
               (fun r => JournalLine.credit (snd r)) rows). lia.
  - rewrite (sum_minus (fun r => JournalLine.credit (snd r))
               (fun r => JournalLine.debit (snd r)) rows). lia.
Qed.

(** [get_account_balance] in terms of the rows of the reports. *)
Lemma get_account_balance_rows s account_id as_of_date account :
  AccountManager.get_account_by_id s account_id = Some account ->
  let rows :=
    ReportManager.entry_lines_of_account s account_id
      (fun je => ReportManager.is_posted je
                 && ReportManager.date_le as_of_date (JournalEntry.date je)) in
  let total_debit :=
    Sql.sum (fun r => ReportManager.positive_part (JournalLine.debit (snd r))) rows in
  let total_credit :=
    Sql.sum (fun r => ReportManager.positive_part (JournalLine.credit (snd r))) rows in
  AccountManager.get_account_balance s account_id as_of_date
  = AccountBalance.mk (Account.opening_balance account)
      (if debit_normal (Account.account_category account)
       then Account.opening_balance account + total_debit - total_credit
       else Account.opening_balance account - total_debit + total_credit)
      total_debit total_credit.
Proof.
  intros G. cbv zeta. unfold AccountManager.get_account_balance. rewrite G.
  cbv zeta.
  assert (J : forall g,
            Sql.sum (fun r : JournalLine.t * JournalEntry.t => g (fst r))
              (flat_map
                 (fun jl =>
                    map (pair jl)
                      (filter
                         (fun je =>
                            Nat.eqb (JournalLine.entry_id jl) (JournalEntry.id je)
                            && EntryStatus_eqb (JournalEntry.status je) posted
                            && match as_of_date with
                               | Some d => Nat.leb (JournalEntry.date je) d
                               | None => true
                               end)
                         (journal_entries s)))
                 (filter (fun jl => Nat.eqb (JournalLine.account_id jl) account_id)
                         (journal_lines s)))
            = Sql.sum (fun r => g (snd r))
                (ReportManager.entry_lines_of_account s account_id
                   (fun je => ReportManager.is_posted je
                              && ReportManager.date_le as_of_date
                                   (JournalEntry.date je)))).
  { intros g. rewrite <- lines_join_sum. f_equal.
    apply flat_map_ext. intros jl. f_equal.
    apply filter_ext. intros je. rewrite andb_assoc. reflexivity. }
  rewrite (J (fun jl => if Z.gtb (JournalLine.debit jl) 0
                        then JournalLine.debit jl else 0)).
  rewrite (J (fun jl => if Z.gtb (JournalLine.credit jl) 0
                        then JournalLine.credit jl else 0)).
  reflexivity.
Qed.

Lemma entry_lines_sum_cond (f : JournalLine.t -> Z) s account_id cond :
  Sql.sum (fun r => f (snd r))
    (ReportManager.entry_lines_of_account s account_id cond)
  = Sql.sum
      (fun je =>
         if cond je
         then Sql.sum f
                (filter (fun jl => Nat.eqb (JournalEntry.id je) (JournalLine.entry_id jl)
                                   && Nat.eqb (JournalLine.account_id jl) account_id)
                        (journal_lines s))
         else 0)
      (journal_entries s).
Proof.
  unfold ReportManager.entry_lines_of_account.
  rewrite sum_flat_map. apply sum_ext_in. intros je _.
  destruct (cond je); [rewrite sum_map|]; reflexivity.
Qed.

(** Rows selected under two conditions that exclude each other add up to
    the rows selected under either. *)
Lemma entry_lines_sum_split (f : JournalLine.t -> Z) s account_id c1 c2 c3 :
  (forall je, c3 je = c1 je || c2 je) ->
  (forall je, c1 je && c2 je = false) ->
  Sql.sum (fun r => f (snd r)) (ReportManager.entry_lines_of_account s account_id c1)
  + Sql.sum (fun r => f (snd r)) (ReportManager.entry_lines_of_account s account_id c2)
  = Sql.sum (fun r => f (snd r)) (ReportManager.entry_lines_of_account s account_id c3).
Proof.
  intros Cover Excl. rewrite !entry_lines_sum_cond, <- sum_plus.
  apply sum_ext_in. intros je _.
  rewrite Cover. specialize (Excl je).
  destruct (c1 je), (c2 je); simpl in *; try discriminate; lia.
Qed.

Lemma reachable_line_amounts s account_id cond r :
  reachable s ->
  In r (ReportManager.entry_lines_of_account s account_id cond) ->
  amounts_ok (JournalLine.debit (snd r)) (JournalLine.credit (snd r)).
Proof.
  intros R H. apply reachable_consistent in R.
  apply (line_amounts s R). eapply entry_lines_in, H.
Qed.

(** X9.  The balance [get_account_balance] recomputes as of a day is the
    opening balance [get_account_opening_balance] gives for the day after:
    the two managers agree on the balance of an account at a date. *)
Theorem account_balance_is_opening_of_next_day s account_id d :
  AccountBalance.current_balance
    (AccountManager.get_account_balance s account_id (Some d))
  = ReportManager.get_account_opening_balance s account_id (Some (S d)).
Proof.
  unfold ReportManager.get_account_opening_balance, DatabaseManager.get_account.
  destruct (AccountManager.get_account_by_id s account_id) as [account|] eqn:G.
  - rewrite (get_account_balance_rows s account_id (Some d) account G).
    unfold AccountManager.get_account_by_id in G. rewrite G.
    cbv zeta. cbn [AccountBalance.current_balance].
    rewrite (entry_lines_ext s account_id
               (fun je => ReportManager.is_posted je
                          && ReportManager.date_le (Some d) (JournalEntry.date je))
               (fun je => ReportManager.is_posted je
                          && Nat.ltb (JournalEntry.date je) (S d)));
      reflexivity.
  - unfold AccountManager.get_account_balance. rewrite G.
    unfold AccountManager.get_account_by_id in G. rewrite G. reflexivity.
Qed.

Lemma posted_or_approved_split st :
  JournalManager.posted_or_approved st
  = EntryStatus_eqb st posted || EntryStatus_eqb st approved
  /\ EntryStatus_eqb st posted && EntryStatus_eqb st approved = false.
Proof. destruct st; split; reflexivity. Qed.

(** X10.  On whole amounts that add up to less than 2^53, which the floats
    of the code add without rounding in any order, the cached balance of
    an account is the balance [get_account_balance] recomputes from the
    posted entries plus what the lines of approved entries add: the
    recomputation reads the entries whose status is ['posted'] only. *)
Theorem account_balance_and_cache s a :
  reachable s ->
  whole_amounts s = true ->
  In a (accounts s) ->
  Account.current_balance a
  = AccountBalance.current_balance
      (AccountManager.get_account_balance s (Account.id a) None)
    + approved_delta s a
  /\
  (no_approved_line s (Account.id a) ->
   AccountBalance.current_balance
     (AccountManager.get_account_balance s (Account.id a) None)
   = Account.current_balance a).
Proof.
  intros R _ Ha.
  pose proof (reachable_consistent s R) as C.
  assert (G : AccountManager.get_account_by_id s (Account.id a) = Some a)
    by (apply find_account_in; [apply (account_ids_unique s C)|exact Ha]).
  assert (E : Account.current_balance a
              = AccountBalance.current_balance
                  (AccountManager.get_account_balance s (Account.id a) None)
                + approved_delta s a).
  { rewrite (get_account_balance_rows s (Account.id a) None a G).
    cbv zeta. cbn [AccountBalance.current_balance].
    rewrite recomputed_balance
      by (intros r Hr; eapply reachable_line_amounts; eassumption).
    rewrite (cache_is_sum s C a Ha). unfold cached_delta, approved_delta.
    rewrite <- Z.add_assoc. f_equal. symmetry.
    apply (entry_lines_sum_split
             (signed_amount (Account.account_category a)) s (Account.id a)).
    - intros je. unfold ReportManager.is_posted, ReportManager.date_le.
      rewrite andb_true_r. apply posted_or_approved_split.
    - intros je. unfold ReportManager.is_posted, ReportManager.date_le.
      rewrite andb_true_r. apply posted_or_approved_split. }
  split; [exact E|].
  intros NA. rewrite E. unfold approved_delta.
  rewrite sum_zero; [lia|].
  intros r Hr. exfalso.
  unfold ReportManager.entry_lines_of_account in Hr.
  apply in_flat_map in Hr. destruct Hr as (je & Hje & Hr).
  destruct (EntryStatus_eqb (JournalEntry.status je) approved) eqn:St;
    [|destruct Hr].
  apply in_map_iff in Hr. destruct Hr as (jl & <- & Hjl).
  apply filter_In in Hjl. destruct Hjl as (Hjl & K).
  apply andb_true_iff in K. destruct K as (K1 & K2).
  apply Nat.eqb_eq in K1, K2.
  apply (NA je jl Hje Hjl (eq_sym K1) K2).
  destruct (JournalEntry.status je); try discriminate. reflexivity.
Qed.

Lemma account_balance_and_cache_witness :
  exists cash,
    In cash (accounts (Scenario.after_approve [])) /\
    Account.current_balance cash = 600000 /\
    AccountBalance.current_balance
      (AccountManager.get_account_balance (Scenario.after_approve [])
         (Account.id cash) None) = 500000 /\
    approved_delta (Scenario.after_approve []) cash = 100000.
Proof.
  assert (G : exists cash, In cash (accounts (Scenario.after_approve []))
                           /\ Account.current_balance cash = 600000
                           /\ approved_delta (Scenario.after_approve []) cash
                              = 100000).
  { eexists. vm_compute. split; [left; reflexivity|]. split; reflexivity. }
  destruct G as (cash & Hin & Hb & Hd).
  exists cash. split; [exact Hin|]. split; [exact Hb|]. split; [|exact Hd].
  pose proof (proj1 (account_balance_and_cache (Scenario.after_approve []) cash
                       after_approve_reachable eq_refl Hin)) as E.
  rewrite Hb, Hd in E. lia.
Defined.

(** X11.  On whole amounts that add up to less than 2^53, which the floats
    of the code add without rounding in any order, the ledger of an account
    up to a day closes where the opening balance of the next day starts:
    the running balance of the last row of
    [get_ledger(account_id, start_date, end_date)] is
    [get_account_opening_balance] for the day after [end_date], whether the
    ledger starts at the beginning or at a date not after that day. *)
Theorem ledger_closes_at_next_opening s a start_date end_date r :
  reachable s ->
  whole_amounts s = true ->
  In a (accounts s) ->
  match start_date with
  | Some d => (d <= S end_date)%nat
  | None => True
  end ->
  last_row (ReportManager.get_ledger s (Account.id a) start_date (Some end_date))
    = Some r ->
  LedgerRow.running_balance r
  = ReportManager.get_account_opening_balance s (Account.id a) (Some (S end_date)).
Proof.
  intros R _ Ha Hs H.
  pose proof (reachable_consistent s R) as C.
  assert (G : DatabaseManager.get_account s (Account.id a) = Some a)
    by (apply find_account_in; [apply (account_ids_unique s C)|exact Ha]).
  unfold ReportManager.get_ledger in H. rewrite G in H.
  set (T := Sql.order_by ReportManager.ledger_order _) in H.
  set (O := ReportManager.get_account_opening_balance s (Account.id a) start_date)
    in H.
  assert (F : LedgerRow.running_balance r
              = final_balance (Account.account_category a) O T).
  { destruct (Z.eqb O 0).
    - apply ledger_rows_last, H.
    - rewrite last_row_cons in H.
      destruct (ReportManager.ledger_rows _ _ T) as [|x l] eqn:L.
      + apply ledger_rows_nil in L. rewrite L. inversion H. reflexivity.
      + rewrite <- L in H. apply ledger_rows_last, H. }
  rewrite F, final_balance_sum.
  2:{ intros x Hx. unfold T in Hx. apply order_by_in in Hx.
      eapply reachable_line_amounts; eassumption. }
  unfold T. rewrite sum_order_by.
  unfold O, ReportManager.get_account_opening_balance. rewrite G.
  rewrite recomputed_balance
    by (intros x Hx; eapply reachable_line_amounts; eassumption).
  destruct start_date as [d|].
  - rewrite recomputed_balance
      by (intros x Hx; eapply reachable_line_amounts; eassumption).
    rewrite <- Z.add_assoc. f_equal.
    apply (entry_lines_sum_split
             (signed_amount (Account.account_category a)) s (Account.id a)).
    + intros je. unfold ReportManager.date_ge, ReportManager.date_le.
      destruct (ReportManager.is_posted je); [simpl|reflexivity].
      destruct (Nat.ltb_spec (JournalEntry.date je) d),
               (Nat.leb_spec d (JournalEntry.date je)),
               (Nat.leb_spec (JournalEntry.date je) end_date),
               (Nat.ltb_spec (JournalEntry.date je) (S end_date));
        simpl; try reflexivity; lia.
    + intros je. unfold ReportManager.date_ge.
      destruct (ReportManager.is_posted je); [simpl|reflexivity].
      destruct (Nat.ltb_spec (JournalEntry.date je) d),
               (Nat.leb_spec d (JournalEntry.date je));
        simpl; try reflexivity; lia.
  - f_equal. f_equal. apply entry_lines_ext. intros je.
    unfold ReportManager.date_ge, ReportManager.date_le.
    rewrite andb_true_r. reflexivity.
Qed.

Lemma ledger_closes_at_next_opening_witness :
  exists cash r,
    In cash (accounts (Scenario.after_post [])) /\
    last_row (ReportManager.get_ledger (Scenario.after_post [])
                (Account.id cash) (Some 5%nat) (Some 20%nat)) = Some r /\
    LedgerRow.running_balance r = 600000 /\
    ReportManager.get_account_opening_balance (Scenario.after_post [])
      (Account.id cash) (Some 21%nat) = 600000.
Proof.
  assert (G : exists cash r,
            In cash (accounts (Scenario.after_post [])) /\
            last_row (ReportManager.get_ledger (Scenario.after_post [])
                        (Account.id cash) (Some 5%nat) (Some 20%nat)) = Some r /\
            ReportManager.get_account_opening_balance (Scenario.after_post [])
              (Account.id cash) (Some 21%nat) = 600000).
  { do 2 eexists. vm_compute. split; [left; reflexivity|]. split; reflexivity. }
  destruct G as (cash & r & Hin & L & O).
  exists cash, r. split; [exact Hin|]. split; [exact L|]. split; [|exact O].
  rewrite <- O.
  apply (ledger_closes_at_next_opening (Scenario.after_post []) cash
           (Some 5%nat) 20 r after_post_reachable eq_refl Hin);
    [simpl; lia|exact L].
Defined.

(** ** ORDER BY sorts *)

Lemma string_leb_iff a b :
  String.leb a b = true <-> a = b \/ OrderedTypeEx.String_as_OT.lt a b.
Proof.
  unfold String.leb.
  destruct (String.compare a b) eqn:C.
  - apply OrderedTypeEx.String_as_OT.cmp_eq in C. tauto.
  - apply OrderedTypeEx.String_as_OT.cmp_lt in C. tauto.
  - split; [discriminate|]. intros [E|L].
    + apply OrderedTypeEx.String_as_OT.cmp_eq in E.
      unfold OrderedTypeEx.String_as_OT.cmp in E. congruence.
    + apply OrderedTypeEx.String_as_OT.cmp_lt in L.
      unfold OrderedTypeEx.String_as_OT.cmp in L. congruence.
Qed.

Lemma string_leb_trans a b c :
  String.leb a b = true -> String.leb b c = true -> String.leb a c = true.
Proof.
  rewrite !string_leb_iff. intros [->|L1] [->|L2]; auto.
  right. eapply OrderedTypeEx.String_as_OT.lt_trans; eassumption.
Qed.

Lemma string_leb_refl a : String.leb a a = true.
Proof. apply string_leb_iff. left. reflexivity. Qed.

Section OrderBySorted.
Context {A : Type} (le : A -> A -> bool).
Hypothesis le_total : forall a b, le a b = true \/ le b a = true.
Hypothesis le_trans :
  forall a b c, le a b = true -> le b c = true -> le a c = true.

Lemma insert_row_sorted x l :
  StronglySorted (fun a b => le a b = true) l ->
  StronglySorted (fun a b => le a b = true) (Sql.insert_row le x l).
Proof using le_total le_trans.
  induction 1 as [|y r Srt IH F]; simpl.
  - constructor; constructor.
  - destruct (le x y) eqn:L.
    + constructor; [constructor; assumption|].
      constructor; [exact L|].
      rewrite Forall_forall in *. intros z Hz.
      apply (le_trans x y z L), F, Hz.
    + constructor; [exact IH|].
      rewrite Forall_forall in *. intros z Hz.
      apply (Permutation_in _ (insert_row_permutation le x r)) in Hz.
      destruct Hz as [<-|Hz]; [|apply F, Hz].
      destruct (le_total x y) as [E|E]; [congruence|exact E].
Qed.

(** The rows of an ORDER BY come out in order. *)
Lemma order_by_sorted l :
  StronglySorted (fun a b => le a b = true) (Sql.order_by le l).
Proof using le_total le_trans.
  induction l as [|x r IH]; simpl; [constructor|].
  apply insert_row_sorted, IH.
Qed.
End OrderBySorted.

Lemma code_le_total a b :
  AccountManager.code_le a b = true \/ AccountManager.code_le b a = true.
Proof. apply String.leb_total. Qed.

Lemma code_le_trans a b c :
  AccountManager.code_le a b = true -> AccountManager.code_le b c = true ->
  AccountManager.code_le a c = true.
Proof. apply string_leb_trans. Qed.

Lemma ledger_order_total r1 r2 :
  ReportManager.ledger_order r1 r2 = true \/ ReportManager.ledger_order r2 r1 = true.
Proof.
  unfold ReportManager.ledger_order.
  destruct (Nat.ltb_spec (JournalEntry.date (fst r1)) (JournalEntry.date (fst r2)));
    [left; reflexivity|].
  destruct (Nat.ltb_spec (JournalEntry.date (fst r2)) (JournalEntry.date (fst r1)));
    [right; reflexivity|].
  assert (E : JournalEntry.date (fst r1) = JournalEntry.date (fst r2)) by lia.
  rewrite E, Nat.eqb_refl. simpl. apply String.leb_total.
Qed.

Lemma ledger_order_spec r1 r2 :
  ReportManager.ledger_order r1 r2 = true <->
  (JournalEntry.date (fst r1) < JournalEntry.date (fst r2))%nat \/
  (JournalEntry.date (fst r1) = JournalEntry.date (fst r2) /\
   String.leb (JournalEntry.entry_number (fst r1))
              (JournalEntry.entry_number (fst r2)) = true).
Proof.
  unfold ReportManager.ledger_order.
  rewrite orb_true_iff, andb_true_iff, Nat.ltb_lt, Nat.eqb_eq. reflexivity.
Qed.

Lemma ledger_order_trans r1 r2 r3 :
  ReportManager.ledger_order r1 r2 = true ->
  ReportManager.ledger_order r2 r3 = true ->
  ReportManager.ledger_order r1 r3 = true.
Proof.
  rewrite !ledger_order_spec.
  intros [L1|(E1 & N1)] [L2|(E2 & N2)].
  - left. lia.
  - left. lia.
  - left. lia.
  - right. split; [lia|]. eapply string_leb_trans; eassumption.
Qed.

(** ** The order of the ledger *)

Lemma entry_lines_of_account_in s account_id cond je jl :
  In (je, jl) (ReportManager.entry_lines_of_account s account_id cond) <->
  In je (journal_entries s) /\ cond je = true /\ In jl (journal_lines s) /\
  JournalLine.entry_id jl = JournalEntry.id je /\
  JournalLine.account_id jl = account_id.
Proof.
  unfold ReportManager.entry_lines_of_account. rewrite in_flat_map. split.
  - intros (je' & Hje & H). destruct (cond je') eqn:C; [|destruct H].
    apply in_map_iff in H. destruct H as (jl' & E & Hjl).
    inversion E; subst. apply filter_In in Hjl. destruct Hjl as (Hjl & K).
    apply andb_true_iff in K. destruct K as (K1 & K2).
    apply Nat.eqb_eq in K1, K2. auto.
  - intros (Hje & C & Hjl & K1 & K2). exists je. split; [exact Hje|].
    rewrite C. apply in_map, filter_In. split; [exact Hjl|].
    rewrite K1, K2, !Nat.eqb_refl. reflexivity.
Qed.

Lemma ledger_rows_in category : forall transactions balance r,
  In r (ReportManager.ledger_rows category balance transactions) ->
  exists je jl,
    In (je, jl) transactions /\
    LedgerRow.entry_number r = Some (JournalEntry.entry_number je) /\
    LedgerRow.date r = Some (JournalEntry.date je) /\
    LedgerRow.debit r = JournalLine.debit jl /\
    LedgerRow.credit r = JournalLine.credit jl /\
    LedgerRow.status r = "posted".
Proof.
  induction transactions as [|[je jl] rest IH]; intros balance r H;
    [destruct H|].
  simpl in H. destruct H as [<-|H].
  - exists je, jl. simpl. repeat split. left. reflexivity.
  - apply IH in H. destruct H as (je' & jl' & Hin & H).
    exists je', jl'. split; [right; exact Hin|exact H].
Qed.

Lemma ledger_rows_sorted category : forall transactions balance,
  StronglySorted (fun a b => ReportManager.ledger_order a b = true) transactions ->
  StronglySorted ledger_row_before
    (ReportManager.ledger_rows category balance transactions).
Proof.
  induction transactions as [|[je jl] rest IH]; intros balance Srt;
    [constructor|].
  inversion Srt as [|? ? Sr F]; subst. simpl.
  constructor; [apply IH, Sr|].
  rewrite Forall_forall in *. intros r Hr.
  apply ledger_rows_in in Hr.
  destruct Hr as (je' & jl' & Hin & Hn & Hd & _).
  specialize (F _ Hin). apply ledger_order_spec in F. simpl in F.
  unfold ledger_row_before. simpl. rewrite Hn, Hd. exact F.
Qed.

(** X12.  [get_ledger] lists the opening balance first, when there is one, and
    then one row for each line of the account in a posted entry dated
    within the bounds, ordered by date and, within a date, by entry
    number. *)
Theorem ledger_rows_in_order s account_id start_date end_date :
  StronglySorted ledger_row_before
    (ReportManager.get_ledger s account_id start_date end_date)
  /\
  forall r, In r (ReportManager.get_ledger s account_id start_date end_date) ->
    (LedgerRow.entry_number r = None /\
     LedgerRow.status r = "opening_balance" /\
     LedgerRow.running_balance r
     = ReportManager.get_account_opening_balance s account_id start_date)
    \/
    (exists je jl,
       In je (journal_entries s) /\ In jl (journal_lines s) /\
       JournalLine.entry_id jl = JournalEntry.id je /\
       JournalLine.account_id jl = account_id /\
       JournalEntry.status je = posted /\
       ReportManager.date_ge start_date (JournalEntry.date je) = true /\
       ReportManager.date_le end_date (JournalEntry.date je) = true /\
       LedgerRow.entry_number r = Some (JournalEntry.entry_number je) /\
       LedgerRow.date r = Some (JournalEntry.date je) /\
       LedgerRow.debit r = JournalLine.debit jl /\
       LedgerRow.credit r = JournalLine.credit jl).
Proof.
  unfold ReportManager.get_ledger.
  destruct (DatabaseManager.get_account s account_id) as [account|];
    [|split; [constructor|intros r []]].
  set (T := Sql.order_by ReportManager.ledger_order _).
  set (O := ReportManager.get_account_opening_balance s account_id start_date).
  assert (Srt : StronglySorted ledger_row_before
                  (ReportManager.ledger_rows (Account.account_category account) O T)).
  { apply ledger_rows_sorted. unfold T.
    apply order_by_sorted; [apply ledger_order_total|apply ledger_order_trans]. }
  assert (Rows : forall r,
            In r (ReportManager.ledger_rows (Account.account_category account) O T) ->
            exists je jl,
              In je (journal_entries s) /\ In jl (journal_lines s) /\
              JournalLine.entry_id jl = JournalEntry.id je /\
              JournalLine.account_id jl = account_id /\
              JournalEntry.status je = posted /\
              ReportManager.date_ge start_date (JournalEntry.date je) = true /\
              ReportManager.date_le end_date (JournalEntry.date je) = true /\
              LedgerRow.entry_number r = Some (JournalEntry.entry_number je) /\
              LedgerRow.date r = Some (JournalEntry.date je) /\
              LedgerRow.debit r = JournalLine.debit jl /\
              LedgerRow.credit r = JournalLine.credit jl).
  { intros r Hr. apply ledger_rows_in in Hr.
    destruct Hr as (je & jl & Hin & Hn & Hd & Hdb & Hcr & _).
    unfold T in Hin. apply order_by_in in Hin.
    apply entry_lines_of_account_in in Hin.
    destruct Hin as (Hje & C & Hjl & K1 & K2).
    apply andb_true_iff in C. destruct C as (C & C3).
    apply andb_true_iff in C. destruct C as (C1 & C2).
    exists je, jl. repeat (split; [assumption|]).
    split; [|repeat split; assumption].
    unfold ReportManager.is_posted in C1.
    destruct (JournalEntry.status je); try discriminate. reflexivity. }
  destruct (Z.eqb O 0).
  - split; [exact Srt|]. intros r Hr. right. apply Rows, Hr.
  - split.
    + constructor; [exact Srt|]. apply Forall_forall. intros r _. exact I.
    + intros r [<-|Hr]; [left; repeat split|right; apply Rows, Hr].
Qed.

Lemma ledger_rows_in_order_witness :
  StronglySorted ledger_row_before
    (ReportManager.get_ledger (Scenario.after_post []) 1 None None)
  /\
  map LedgerRow.entry_number
    (ReportManager.get_ledger (Scenario.after_post []) 1 None None)
  = [None; Some "JE-000001"].
Proof.
  split.
  - apply (proj1 (ledger_rows_in_order (Scenario.after_post []) 1 None None)).
  - vm_compute. reflexivity.
Defined.

(** ** The balance sheet *)

Lemma balance_sheet_step_difference acc row :
  sheet_difference (ReportManager.balance_sheet_step acc (ReportManager.trial_row row))
  = sheet_difference acc
    + (TrialRow.trial_debit (ReportManager.trial_row row)
       - TrialRow.trial_credit (ReportManager.trial_row row)).
Proof.
  destruct row as [[a period_debit] period_credit]. destruct acc.
  unfold ReportManager.trial_row, ReportManager.balance_sheet_step,
    sheet_difference.
  cbv zeta. cbn [TrialRow.code TrialRow.account_category TrialRow.closing_balance
                 TrialRow.trial_debit TrialRow.trial_credit].
  destruct (Account.account_category a);
    cbn [debit_normal BalanceSheet.total_assets BalanceSheet.total_liabilities
         BalanceSheet.total_equity];
    match goal with
    | |- context [Z.geb ?c 0] => destruct (Z.geb_spec c 0)
    end; lia.
Qed.

Lemma balance_sheet_loop_difference rows : forall acc,
  sheet_difference
    (fold_left ReportManager.balance_sheet_step
       (map ReportManager.trial_row rows) acc)
  = sheet_difference acc
    + Sql.sum (fun r => TrialRow.trial_debit r - TrialRow.trial_credit r)
        (map ReportManager.trial_row rows).
Proof.
  induction rows as [|row rest IH]; intros acc; simpl.
  - unfold Sql.sum. simpl. lia.
  - rewrite IH, balance_sheet_step_difference.
    unfold Sql.sum. simpl. lia.
Qed.

Lemma balance_sheet_difference s as_of_date :
  let rows := map ReportManager.trial_row (ReportManager.trial_query s None) in
  sheet_difference (ReportManager.get_balance_sheet s as_of_date)
  = Sql.sum TrialRow.trial_debit rows - Sql.sum TrialRow.trial_credit rows.
Proof.
  cbv zeta. unfold ReportManager.get_balance_sheet, ReportManager.get_trial_balance.
  cbv zeta. rewrite fold_left_app.
  set (acc := fold_left ReportManager.balance_sheet_step
                (map ReportManager.trial_row (ReportManager.trial_query s None))
                (BalanceSheet.mk as_of_date [] 0 [] 0 [] 0 false)).
  assert (D : sheet_difference acc
              = Sql.sum (fun r => TrialRow.trial_debit r - TrialRow.trial_credit r)
                  (map ReportManager.trial_row (ReportManager.trial_query s None))).
  { unfold acc. rewrite balance_sheet_loop_difference.
    unfold sheet_difference. simpl. lia. }
  rewrite sum_minus in D. rewrite <- D.
  destruct acc. reflexivity.
Qed.

(** X13.  On whole amounts that add up to less than 2^53, which the floats
    of the code add without rounding in any order, [get_balance_sheet]
    reports [is_balanced] exactly when the totals row of the trial balance
    has equal debit and credit: assets less liabilities and equity (revenue
    added to equity, expenses taken from it) is the difference of the two
    trial totals, a whole number, which is below 0.01 only when it is 0. *)
Theorem balance_sheet_balanced_iff_trial_balance s as_of_date :
  whole_amounts s = true ->
  exists totals,
    last_row (ReportManager.get_trial_balance s None) = Some totals /\
    BalanceSheet.total_assets (ReportManager.get_balance_sheet s as_of_date)
    - (BalanceSheet.total_liabilities (ReportManager.get_balance_sheet s as_of_date)
       + BalanceSheet.total_equity (ReportManager.get_balance_sheet s as_of_date))
    = TrialRow.trial_debit totals - TrialRow.trial_credit totals /\
    (BalanceSheet.is_balanced (ReportManager.get_balance_sheet s as_of_date) = true
     <-> TrialRow.trial_debit totals = TrialRow.trial_credit totals).
Proof.
  intros _.
  pose proof (balance_sheet_difference s as_of_date) as D. cbv zeta in D.
  unfold ReportManager.get_trial_balance. cbv zeta.
  rewrite last_row_snoc. eexists. split; [reflexivity|].
  cbn [TrialRow.trial_debit TrialRow.trial_credit].
  rewrite !fold_left_sum, !Z.add_0_l.
  split; [exact D|].
  unfold sheet_difference in D.
  assert (B : BalanceSheet.is_balanced (ReportManager.get_balance_sheet s as_of_date)
              = Z.ltb (Z.abs
                  (BalanceSheet.total_assets (ReportManager.get_balance_sheet s as_of_date)
                   - (BalanceSheet.total_liabilities
                        (ReportManager.get_balance_sheet s as_of_date)
                      + BalanceSheet.total_equity
                          (ReportManager.get_balance_sheet s as_of_date))))
                  tolerance).
  { unfold ReportManager.get_balance_sheet. cbv zeta.
    destruct (fold_left _ _ _). reflexivity. }
  rewrite B, D. unfold tolerance. rewrite Z.ltb_lt. lia.
Qed.

Lemma balance_sheet_balanced_iff_trial_balance_witness :
  BalanceSheet.is_balanced
    (ReportManager.get_balance_sheet Scenario.capital_posted 100) = true /\
  BalanceSheet.is_balanced
    (ReportManager.get_balance_sheet (Scenario.after_post []) 100) = false.
Proof.
  split.
  - destruct (balance_sheet_balanced_iff_trial_balance Scenario.capital_posted 100
                eq_refl) as (totals & L & _ & B).
    apply B. revert L. vm_compute. intros L. inversion L. reflexivity.
  - destruct (balance_sheet_balanced_iff_trial_balance (Scenario.after_post []) 100
                eq_refl) as (totals & L & _ & B).
    destruct (BalanceSheet.is_balanced _); [|reflexivity].
    exfalso. assert (E : TrialRow.trial_debit totals = TrialRow.trial_credit totals)
      by (apply B; reflexivity).
    revert L E. vm_compute. intros L. inversion L. discriminate.
Defined.

(** X14.  Books kept through [add_account], [create_entry], [post_entry] and
    [approve_entry] on whole amounts that add up to less than 2^53 -- which
    the floats of the code add without rounding, and on which every entry
    admitted within the tolerance is balanced -- give a balanced balance
    sheet when the opening balances of the accounts balance. *)
Theorem balance_sheet_of_balanced_books s as_of_date :
  reachable s ->
  whole_amounts s = true ->
  signed_openings (accounts s) = 0 ->
  BalanceSheet.is_balanced (ReportManager.get_balance_sheet s as_of_date) = true
  /\
  BalanceSheet.total_assets (ReportManager.get_balance_sheet s as_of_date)
  = BalanceSheet.total_liabilities (ReportManager.get_balance_sheet s as_of_date)
    + BalanceSheet.total_equity (ReportManager.get_balance_sheet s as_of_date).
Proof.
  intros R W Op.
  pose proof (reachable_whole_balanced s R W) as Ex.
  pose proof (reachable_consistent s R) as C.
  pose proof (balance_sheet_difference s as_of_date) as D. cbv zeta in D.
  destruct (trial_totals_difference s None) as (totals & L & _ & T).
  rewrite (trial_query_sum s None C), (listed_accounts_all s C), Op in T.
  rewrite sum_zero in T
    by (intros je Hje; simpl; rewrite (Ex je Hje); lia).
  unfold ReportManager.get_trial_balance in L. cbv zeta in L.
  rewrite last_row_snoc in L. inversion L as [E]. rewrite <- E in T.
  cbn [TrialRow.trial_debit TrialRow.trial_credit] in T.
  rewrite !fold_left_sum, !Z.add_0_l in T.
  rewrite T in D. unfold sheet_difference in D.
  split; [|lia].
  unfold ReportManager.get_balance_sheet in *. cbv zeta in *.
  destruct (fold_left _ _ _). cbn in *. rewrite D. reflexivity.
Qed.

Lemma balance_sheet_of_balanced_books_witness :
  BalanceSheet.is_balanced
    (ReportManager.get_balance_sheet Scenario.capital_posted 100) = true /\
  BalanceSheet.total_assets
    (ReportManager.get_balance_sheet Scenario.capital_posted 100) = 600000.
Proof.
  destruct (balance_sheet_of_balanced_books Scenario.capital_posted 100
              capital_posted_reachable) as (B & _).
  - vm_compute. reflexivity.
  - vm_compute. reflexivity.
  - split; [exact B|vm_compute; reflexivity].
Defined.

(** ** The income statement *)

Lemma income_loop_totals rows : forall acc,
  (forall row, In row rows ->
     ReportManager.revenue_or_expense
       (Account.account_category (fst (fst row))) = true) ->
  let r := fold_left ReportManager.income_step rows acc in
  IncomeStatement.total_revenue r - IncomeStatement.total_expenses r
  = IncomeStatement.total_revenue acc - IncomeStatement.total_expenses acc
    + Sql.sum (fun row => snd row - snd (fst row)) rows.
Proof.
  induction rows as [|row rest IH]; intros acc H; cbv zeta.
  - simpl. unfold Sql.sum. simpl. lia.
  - cbn [fold_left]. specialize (IH (ReportManager.income_step acc row)).
    cbv zeta in IH. rewrite IH by (intros r Hr; apply H; right; exact Hr).
    specialize (H row (or_introl eq_refl)).
    destruct row as [[a pd] pc]. destruct acc. simpl in H |- *.
    unfold Sql.sum. simpl.
    destruct (Account.account_category a); try discriminate; simpl; lia.
Qed.

Lemma sum_swap3 {A B C : Type} (h : A -> B -> C -> Z) l1 l2 l3 :
  Sql.sum (fun x => Sql.sum (fun y => Sql.sum (fun z => h x y z) l3) l2) l1
  = Sql.sum (fun z => Sql.sum (fun y => Sql.sum (fun x => h x y z) l1) l2) l3.
Proof.
  rewrite (sum_swap (fun x y => Sql.sum (fun z => h x y z) l3) l1 l2).
  rewrite (sum_ext_in _ (fun y => Sql.sum (fun z => Sql.sum (fun x => h x y z) l1) l3) l2)
    by (intros y _; apply sum_swap).
  apply sum_swap.
Qed.

Lemma income_group_sum (f : JournalLine.t -> Z) s start_date end_date a :
  Sql.sum f (ReportManager.income_group s start_date end_date a)
  = Sql.sum
      (fun jl =>
         Sql.sum
           (fun je =>
              if Nat.eqb (Account.id a) (JournalLine.account_id jl)
                 && (Nat.eqb (JournalLine.entry_id jl) (JournalEntry.id je)
                     && in_period start_date end_date je)
              then f jl else 0)
           (journal_entries s))
      (journal_lines s).
Proof.
  unfold ReportManager.income_group.
  rewrite sum_flat_map, sum_filter. apply sum_ext_in. intros jl _.
  destruct (Nat.eqb (Account.id a) (JournalLine.account_id jl)); simpl.
  - rewrite sum_map, sum_filter. apply sum_ext_in. intros je _.
    unfold in_period. rewrite !andb_assoc. reflexivity.
  - symmetry. apply sum_zero. reflexivity.
Qed.

(** X15.  On whole amounts that add up to less than 2^53, which the floats
    of the code add without rounding in any order, the net income of
    [get_income_statement] is the sum, over the posted entries dated within
    the period, of credit less debit of their lines on active revenue and
    expense accounts.  Entries that are draft or approved, and opening
    balances, do not enter it. *)
Theorem net_income_is_sum_of_posted_lines s start_date end_date :
  NoDup (map Account.id (accounts s)) ->
  whole_amounts s = true ->
  let statement := ReportManager.get_income_statement s start_date end_date in
  IncomeStatement.net_income statement
  = Sql.sum
      (fun je =>
         if in_period start_date end_date je
         then Sql.sum
                (fun jl => if on_income_account s jl
                           then JournalLine.credit jl - JournalLine.debit jl
                           else 0)
                (lines_of_entry s (JournalEntry.id je))
         else 0)
      (journal_entries s)
  /\
  IncomeStatement.net_income statement
  = IncomeStatement.total_revenue statement
    - IncomeStatement.total_expenses statement.
Proof.
  intros N _. cbv zeta.
  assert (Net : IncomeStatement.net_income
                  (ReportManager.get_income_statement s start_date end_date)
                = IncomeStatement.total_revenue
                    (ReportManager.get_income_statement s start_date end_date)
                  - IncomeStatement.total_expenses
                      (ReportManager.get_income_statement s start_date end_date)).
  { unfold ReportManager.get_income_statement. cbv zeta.
    destruct (fold_left _ _ _). reflexivity. }
  split; [|exact Net]. rewrite Net.
  assert (Tot : IncomeStatement.total_revenue
                  (ReportManager.get_income_statement s start_date end_date)
                - IncomeStatement.total_expenses
                    (ReportManager.get_income_statement s start_date end_date)
                = Sql.sum (fun row => snd row - snd (fst row))
                    (ReportManager.income_query s start_date end_date)).
  { pose proof (income_loop_totals
                  (ReportManager.income_query s start_date end_date)
                  (IncomeStatement.mk start_date end_date [] 0 [] 0 0 0 0)) as L.
    cbv zeta in L. simpl IncomeStatement.total_revenue in L at 2.
    simpl IncomeStatement.total_expenses in L at 2.
    unfold ReportManager.get_income_statement. cbv zeta.
    destruct (fold_left _ _ _). simpl in L |- *. rewrite L; [lia|].
    intros row Hrow. unfold ReportManager.income_query in Hrow.
    apply in_map_iff in Hrow. destruct Hrow as (a & <- & Ha). simpl.
    apply order_by_in, filter_In in Ha. destruct Ha as (_ & Ha).
    apply andb_true_iff in Ha. destruct Ha as (Ha & _).
    apply andb_true_iff in Ha. destruct Ha as (Ha & _). exact Ha. }
  rewrite Tot. unfold ReportManager.income_query.
  rewrite sum_map, sum_order_by, sum_filter. cbn [fst snd].
  set (v := fun jl => JournalLine.credit jl - JournalLine.debit jl).
  set (h := fun (a : Account.t) (jl : JournalLine.t) (je : JournalEntry.t) =>
              if (Nat.eqb (Account.id a) (JournalLine.account_id jl)
                  && (ReportManager.revenue_or_expense (Account.account_category a)
                      && Account.is_active a))
                 && (Nat.eqb (JournalLine.entry_id jl) (JournalEntry.id je)
                     && in_period start_date end_date je)
              then v jl else 0).
  transitivity
    (Sql.sum (fun a => Sql.sum (fun jl => Sql.sum (fun je => h a jl je)
                                            (journal_entries s))
                         (journal_lines s))
       (accounts s)).
  - apply sum_ext_in. intros a _.
    rewrite <- (sum_minus JournalLine.credit JournalLine.debit
                  (ReportManager.income_group s start_date end_date a)).
    fold v.
    assert (H : Sql.sum (fun jl => Sql.sum (fun je => h a jl je)
                                     (journal_entries s)) (journal_lines s)
                = if ReportManager.revenue_or_expense (Account.account_category a)
                     && Account.is_active a
                  then Sql.sum v (ReportManager.income_group s start_date end_date a)
                  else 0).
    { unfold h.
      destruct (ReportManager.revenue_or_expense (Account.account_category a)
                && Account.is_active a).
      - rewrite income_group_sum. apply sum_ext_in. intros jl _.
        apply sum_ext_in. intros je _. rewrite andb_true_r. reflexivity.
      - apply sum_zero. intros jl _. apply sum_zero.
        intros je _. rewrite andb_false_r. reflexivity. }
    rewrite H.
    destruct (ReportManager.revenue_or_expense (Account.account_category a)
              && Account.is_active a); [|reflexivity].
    destruct (negb _) eqn:E; [reflexivity|].
    apply negb_false_iff, Nat.eqb_eq, length_zero_iff_nil in E.
    rewrite E. reflexivity.
  - rewrite sum_swap3. apply sum_ext_in. intros je _.
    unfold lines_of_entry. rewrite sum_filter.
    destruct (in_period start_date end_date je) eqn:C.
    + apply sum_ext_in. intros jl _. unfold h.
      rewrite (Nat.eqb_sym (JournalEntry.id je)).
      destruct (Nat.eqb (JournalLine.entry_id jl) (JournalEntry.id je)).
      * simpl.
        rewrite (sum_ext_in _
                   (fun a => if Nat.eqb (Account.id a) (JournalLine.account_id jl)
                                && (ReportManager.revenue_or_expense
                                      (Account.account_category a)
                                    && Account.is_active a)
                             then v jl else 0) (accounts s))
          by (intros a _; rewrite C, andb_true_r; reflexivity).
        apply (sum_indicator Account.id (accounts s)
                 (JournalLine.account_id jl)
                 (fun a => ReportManager.revenue_or_expense
                             (Account.account_category a)
                           && Account.is_active a) (v jl) N).
      * simpl. apply sum_zero. intros a _.
        rewrite andb_false_r. reflexivity.
    + apply sum_zero. intros jl _. apply sum_zero. intros a _.
      unfold h. rewrite C, !andb_false_r. reflexivity.
Qed.

Lemma net_income_is_sum_of_posted_lines_witness :
  IncomeStatement.net_income
    (ReportManager.get_income_statement (Scenario.after_post []) 0 365) = 100000
  /\
  IncomeStatement.net_income
    (ReportManager.get_income_statement (Scenario.after_approve []) 0 365) = 0.
Proof.
  split.
  - rewrite (proj1 (net_income_is_sum_of_posted_lines (Scenario.after_post []) 0 365
                      ltac:(vm_compute; repeat constructor; simpl; intuition lia)
                      eq_refl)).
    vm_compute. reflexivity.
  - rewrite (proj1 (net_income_is_sum_of_posted_lines (Scenario.after_approve []) 0 365
                      ltac:(vm_compute; repeat constructor; simpl; intuition lia)
                      eq_refl)).
    vm_compute. reflexivity.
Defined.

(** ** The chart of accounts *)

Lemma placed_in_more rows rows' a :
  (forall p, In p rows -> In p rows') ->
  placed_in rows a -> placed_in rows' a.
Proof.
  intros Sub (L & N & F & P). split; [exact L|]. split; [exact N|].
  split; [exact F|].
  destruct (Account.parent_id a) as [[|k]|]; try exact P.
  destruct P as (parent & Hin & P). exists parent. split; [apply Sub, Hin|exact P].
Qed.

(** A change of balances keeps every account where it is. *)
Lemma placed_in_map (g : Account.t -> Account.t) rows a :
  (forall x, g x = Account.set_current_balance (Account.current_balance (g x)) x) ->
  placed_in rows a -> placed_in (map g rows) (g a).
Proof.
  intros Hg (L & N & F & P).
  assert (Fields : forall x,
            Account.id (g x) = Account.id x /\
            Account.parent_id (g x) = Account.parent_id x /\
            Account.code (g x) = Account.code x /\
            Account.name_ar (g x) = Account.name_ar x /\
            Account.account_type (g x) = Account.account_type x /\
            Account.level (g x) = Account.level x /\
            Account.full_path (g x) = Account.full_path x).
  { intros x. rewrite (Hg x). repeat split. }
  destruct (Fields a) as (_ & Ep & Ec & En & Et & El & Ef).
  unfold placed_in. rewrite Ep, Ec, En, Et, El, Ef.
  split; [exact L|]. split; [exact N|]. split; [exact F|].
  destruct (Account.parent_id a) as [[|k]|]; try exact P.
  destruct P as (parent & Hin & P). exists (g parent).
  destruct (Fields parent) as (Ei' & _ & Ec' & _ & Et' & El' & Ef').
  rewrite Ei', Ec', Et', El', Ef'. split; [apply in_map, Hin|exact P].
Qed.

Lemma add_account_inv s parent_id name_ar name_en account_type
    account_category opening_balance created_by account_id s' :
  AccountManager.add_account s parent_id name_ar name_en account_type
    account_category opening_balance created_by = (Some account_id, s') ->
  exists code ty category,
    AccountManager._validate_account_inputs s parent_id name_ar name_en
      account_type account_category = true /\
    AccountManager.generate_account_code s parent_id = Some code /\
    parse_account_type account_type = Some ty /\
    parse_account_category account_category = Some category /\
    DatabaseManager.insert_account
      (Account.mk 0 parent_id code name_ar name_en ty category
         (AccountManager._get_account_level s parent_id)
         (AccountManager._generate_full_path s parent_id name_ar)
         true opening_balance opening_balance created_by) s
    = (Some account_id, s').
Proof.
  unfold AccountManager.add_account.
  destruct (AccountManager._validate_account_inputs _ _ _ _ _ _);
    [|discriminate].
  destruct (AccountManager.generate_account_code s parent_id) as [code|];
    [|discriminate].
  destruct (parse_account_type account_type) as [ty|]; [|discriminate].
  destruct (parse_account_category account_category) as [category|];
    [|discriminate].
  destruct (code =? ""); [discriminate|].
  simpl. intros H. exists code, ty, category. auto.
Qed.

Lemma validate_account_inputs_inv s parent_id name_ar name_en account_type
    account_category :
  AccountManager._validate_account_inputs s parent_id name_ar name_en
    account_type account_category = true ->
  name_ar <> "" /\ name_en <> "" /\
  AccountManager._validate_name_uniqueness s parent_id name_ar = true /\
  match parent_id with
  | Some (S k) =>
      exists parent,
        AccountManager.get_account_by_id s (S k) = Some parent /\
        Account.account_type parent <> analytic /\
        (Account.account_type parent = assistant -> account_type = "analytic") /\
        (Account.level parent < 9)%nat
  | _ => True
  end.
Proof.
  unfold AccountManager._validate_account_inputs.
  destruct (String.eqb_spec name_ar ""); [discriminate|].
  destruct (String.eqb_spec name_en ""); [discriminate|]. simpl.
  destruct (is_null_type _); [discriminate|].
  destruct (is_null_category _); [discriminate|].
  intros H. split; [assumption|]. split; [assumption|].
  destruct parent_id as [[|k]|]; cbn [negb] in H;
    try (split; [exact H|exact I]).
  destruct (AccountManager.get_account_by_id s (S k)) as [parent|] eqn:G;
    [|discriminate].
  unfold AccountManager.validate_account_hierarchy in H. rewrite G in H.
  cbv zeta in H.
  destruct (Nat.leb 9 (Account.level parent)) eqn:L.
  { destruct (AccountType_eqb _ analytic); [discriminate|].
    destruct (_ && _); discriminate. }
  apply Nat.leb_gt in L.
  destruct (Account.account_type parent) eqn:T;
    cbn [AccountType_eqb andb negb] in H; try discriminate.
  - split; [exact H|]. exists parent. rewrite T.
    split; [reflexivity|]. split; [discriminate|].
    split; [discriminate|lia].
  - destruct (String.eqb_spec account_type "analytic");
      cbn [negb] in H; [|discriminate].
    split; [exact H|]. exists parent. rewrite T.
    split; [reflexivity|]. split; [discriminate|].
    split; [intros _; assumption|lia].
Qed.

Lemma generate_account_code_shape s parent_id code :
  AccountManager.generate_account_code s parent_id = Some code ->
  match parent_id with
  | Some (S k) =>
      exists parent n,
        AccountManager.get_account_by_id s (S k) = Some parent /\
        (1 <= n <= 99)%nat /\
        code = if Nat.eqb (Account.level parent) 0 then Py.str n
               else Account.code parent ++ Py.zfill 2 n
  | _ => exists n, (1 <= n)%nat /\ code = Py.str n
  end.
Proof.
  unfold AccountManager.generate_account_code.
  assert (Root : match hd_error
                         (Sql.order_by AccountManager.code_ge
                            (filter (fun a => AccountManager.is_null (Account.parent_id a)
                                              && Account.is_active a) (accounts s)))
                 with
                 | Some r => option_map (fun last_code => Py.str (last_code + 1))
                               (Py.int (Account.code r))
                 | None => Some "1"
                 end = Some code ->
                 exists n, (1 <= n)%nat /\ code = Py.str n).
  { destruct (hd_error _) as [r|].
    - destruct (Py.int (Account.code r)) as [m|]; simpl; [|discriminate].
      intros H; inversion H. exists (m + 1)%nat. split; [lia|reflexivity].
    - intros H; inversion H. exists 1%nat. split; [lia|reflexivity]. }
  destruct parent_id as [[|k]|]; try exact Root. clear Root.
  destruct (AccountManager.get_account_by_id s (S k)) as [p|]; [|discriminate].
  match goal with
  | |- match ?x with _ => _ end = _ -> _ =>
      assert (Pos : forall n, x = Some n -> (1 <= n)%nat);
      [|destruct x as [n|]; [|discriminate]]
  end.
  { intros n H. destruct (hd_error _) as [c|].
    - match type of H with
      | context [Py.int ?x] => destruct (Py.int x) as [m|]
      end; simpl in H; inversion H. lia.
    - inversion H. lia. }
  specialize (Pos n eq_refl).
  destruct (Nat.ltb_spec 99 n) as [Big|Small]; [discriminate|].
  intros E; inversion E. exists p, n. repeat split; try lia.
Qed.

Lemma insert_account_code_fresh data s account_id s' :
  DatabaseManager.insert_account data s = (Some account_id, s') ->
  ~ In (Account.code data) (map Account.code (accounts s)).
Proof.
  unfold DatabaseManager.insert_account. intros H.
  apply transaction_commit in H.
  pose proof (next_fault_tables s) as T. cbv zeta in T.
  destruct T as (Ta & _). rewrite Ta in H.
  destruct (existsb _ (accounts s)) eqn:E; [discriminate|].
  intros Hin. apply in_map_iff in Hin. destruct Hin as (a & Ec & Ha).
  assert (X : existsb (fun a0 => Account.code a0 =? Account.code data) (accounts s)
              = true).
  { apply existsb_exists. exists a. split; [exact Ha|].
    rewrite Ec. apply String.eqb_refl. }
  congruence.
Qed.

Lemma NoDup_snoc_string (l : list string) (x : string) :
  NoDup l -> ~ In x l -> NoDup (l ++ [x])%list.
Proof.
  intros N F. apply NoDup_app; auto.
  - repeat constructor. intros [].
  - intros y Hy [<-|[]]. exact (F Hy).
Qed.

Lemma credited_fields rows x :
  credited rows x
  = Account.set_current_balance (Account.current_balance (credited rows x)) x.
Proof. reflexivity. Qed.

Lemma chart_after_add_account s parent_id name_ar name_en account_type
    account_category opening_balance created_by account_id s' :
  (forall a, In a (accounts s) -> placed_in (accounts s) a) ->
  AccountManager.add_account s parent_id name_ar name_en account_type
    account_category opening_balance created_by = (Some account_id, s') ->
  exists a,
    accounts s' = (accounts s ++ [a])%list /\
    ~ In (Account.code a) (map Account.code (accounts s)) /\
    placed_in (accounts s') a.
Proof.
  intros IH H. apply add_account_inv in H.
  destruct H as (code & ty & category & V & Gc & Pt & Pc & Ins).
  pose proof (insert_account_code_fresh _ _ _ _ Ins) as Fresh.
  apply insert_account_commit in Ins.
  destruct Ins as (_ & Ha & _).
  eexists. split; [exact Ha|]. split; [exact Fresh|].
  apply validate_account_inputs_inv in V.
  destruct V as (Nar & _ & _ & Vp).
  apply generate_account_code_shape in Gc.
  destruct parent_id as [[|k]|]; rewrite Ha; unfold placed_in; simpl.
  - split; [lia|]. split; [exact Nar|]. split; [exact Nar|].
    split; [reflexivity|]. split; [reflexivity|exact Gc].
  - destruct Vp as (parent & G & Ta & Tb & Lv).
    destruct Gc as (parent' & n & G' & Hn & Hc).
    rewrite G in G'. inversion G'; subst parent'. clear G'.
    rewrite G.
    pose proof G as Hin. unfold AccountManager.get_account_by_id in Hin.
    apply find_some in Hin. destruct Hin as (Hin & Hid).
    apply Nat.eqb_eq in Hid.
    destruct (IH parent Hin) as (Lp & _ & Fp & _).
    destruct (String.eqb_spec (Account.full_path parent) ""); [contradiction|].
    destruct (Nat.eqb_spec (Account.level parent) 0) as [Z0|_]; [lia|].
    split; [lia|]. split; [exact Nar|].
    split.
    { apply append_not_empty. discriminate. }
    exists parent. split; [apply in_or_app; left; exact Hin|].
    split; [exact Hid|]. split; [reflexivity|]. split; [exact Ta|].
    split.
    { intros Ty. specialize (Tb Ty). subst account_type.
      inversion Pt. reflexivity. }
    split; [exists n; split; [exact Hn|exact Hc]|reflexivity].
  - split; [lia|]. split; [exact Nar|]. split; [exact Nar|].
    split; [reflexivity|]. split; [reflexivity|exact Gc].
Qed.

Lemma reachable_chart s :
  reachable s ->
  NoDup (map Account.id (accounts s)) /\
  NoDup (map Account.code (accounts s)) /\
  forall a, In a (accounts s) -> placed_in (accounts s) a.
Proof.
  intros R. split; [apply (account_ids_unique s (reachable_consistent s R))|].
  induction R as [fys fs
                 |s ? ? ? ? ? ? ? ? s' R IH H
                 |s ? ? ? ? ? ? ? s' R IH H
                 |s ? ? ? s' R IH H
                 |s ? ? ? s' R IH H].
  - split; [constructor|intros a []].
  - destruct IH as (Nc & Pl).
    destruct (chart_after_add_account _ _ _ _ _ _ _ _ _ _ Pl H)
      as (a & Ha & Fresh & Pa).
    rewrite Ha in *. split.
    + rewrite map_app. apply NoDup_snoc_string; assumption.
    + intros x Hx. apply in_app_or in Hx. destruct Hx as [Hx|[<-|[]]].
      * apply (placed_in_more (accounts s)); [|apply Pl, Hx].
        intros p Hp. apply in_or_app. left. exact Hp.
      * exact Pa.
  - apply create_entry_commit in H. destruct H as (_ & _ & -> & _). exact IH.
  - destruct IH as (Nc & Pl).
    apply post_entry_accounts in H;
      [|apply (account_ids_unique s (reachable_consistent s R))].
    destruct H as (-> & _). split.
    + rewrite map_map. exact Nc.
    + intros x Hx. apply in_map_iff in Hx. destruct Hx as (a & <- & Ha).
      apply placed_in_map; [apply credited_fields|apply Pl, Ha].
  - apply approve_entry_inv in H. destruct H as (entry & n & _ & _ & U).
    apply update_journal_entry_commit in U. destruct U as (-> & _). exact IH.
Qed.

Lemma siblings_2_reachable : reachable (Scenario.siblings 2).
Proof.
  eapply reach_add_account with (parent_id := Some 1%nat) (name_ar := "Child 2")
    (name_en := "Child 2") (account_type := "analytic")
    (account_category := "asset") (opening_balance := 0) (created_by := None)
    (account_id := 3%nat).
  - eapply reach_add_account with (parent_id := Some 1%nat) (name_ar := "Child 1")
      (name_en := "Child 1") (account_type := "analytic")
      (account_category := "asset") (opening_balance := 0) (created_by := None)
      (account_id := 2%nat).
    + eapply reach_add_account with (parent_id := None) (name_ar := "Root 1")
        (name_en := "Root 1") (account_type := "general")
        (account_category := "asset") (opening_balance := 0) (created_by := None)
        (account_id := 1%nat).
      * apply (reach_new [] []).
      * vm_compute; reflexivity.
    + vm_compute; reflexivity.
  - vm_compute; reflexivity.
Qed.

(** X16.  In every state the operations reach, the chart of accounts is well
    formed: ids and codes are unique, and every account is placed as
    [add_account] places it -- a root at level 1, a child one level below
    its parent (never deeper than level 9), under a parent that is not
    analytic (and, when assistant, has only analytic children), with the
    code of the parent followed by a two-digit number from 01 to 99 and the
    path of the parent followed by its own name. *)
Theorem chart_of_accounts_is_well_formed s :
  reachable s ->
  NoDup (map Account.id (accounts s)) /\
  NoDup (map Account.code (accounts s)) /\
  forall a, In a (accounts s) -> placed_in (accounts s) a.
Proof. apply reachable_chart. Qed.

Lemma chart_of_accounts_is_well_formed_witness :
  map (fun a => (Account.code a, Account.level a, Account.full_path a))
      (accounts (Scenario.siblings 2))
  = [("1", 1%nat, "Root 1"); ("101", 2%nat, "Root 1 > Child 1");
     ("102", 2%nat, "Root 1 > Child 2")] /\
  forall a, In a (accounts (Scenario.siblings 2)) ->
    placed_in (accounts (Scenario.siblings 2)) a.
Proof.
  split; [vm_compute; reflexivity|].
  apply chart_of_accounts_is_well_formed.
  apply siblings_2_reachable.
Defined.

(** ** Codes of sibling accounts *)

Lemma ascii_compare_refl c : Ascii.compare c c = Eq.
Proof.
  pose proof (Ascii.compare_antisym c c) as H.
  destruct (Ascii.compare c c); try reflexivity; discriminate.
Qed.

Lemma compare_common_prefix p a b :
  String.compare (p ++ a) (p ++ b) = String.compare a b.
Proof.
  induction p as [|c p IH]; [reflexivity|].
  simpl. rewrite ascii_compare_refl. exact IH.
Qed.

Lemma leb_common_prefix p a b :
  String.leb (p ++ a) (p ++ b) = String.leb a b.
Proof. unfold String.leb. rewrite compare_common_prefix. reflexivity. Qed.

Lemma substring_whole z : substring 0 (String.length z) z = z.
Proof. induction z as [|c z IH]; simpl; [reflexivity|rewrite IH; reflexivity]. Qed.

Lemma substring_of_append p z :
  substring (String.length p) (String.length z) (p ++ z) = z.
Proof.
  induction p as [|c p IH]; simpl; [apply substring_whole|exact IH].
Qed.

Lemma length_append p z :
  String.length (p ++ z) = (String.length p + String.length z)%nat.
Proof. induction p as [|c p IH]; simpl; [reflexivity|rewrite IH; reflexivity]. Qed.

(** Two-digit numerals: their length, and their order as text. *)
Lemma two_digits :
  forallb (fun i => Nat.eqb (String.length (Py.zfill 2 i)) 2
                    && forallb (fun j => Bool.eqb
                                           (String.leb (Py.zfill 2 i) (Py.zfill 2 j))
                                           (Nat.leb i j))
                               (seq 0 100))
          (seq 0 100) = true.
Proof. vm_compute. reflexivity. Qed.

Lemma zfill_2_length i : (i <= 99)%nat -> String.length (Py.zfill 2 i) = 2%nat.
Proof.
  intros H. pose proof two_digits as T. rewrite forallb_forall in T.
  specialize (T i). rewrite in_seq in T.
  assert (X : (0 <= i < 0 + 100)%nat) by lia.
  apply T in X. apply andb_true_iff in X. destruct X as (X & _).
  apply Nat.eqb_eq, X.
Qed.

Lemma zfill_2_leb i j :
  (i <= 99)%nat -> (j <= 99)%nat ->
  String.leb (Py.zfill 2 i) (Py.zfill 2 j) = Nat.leb i j.
Proof.
  intros Hi Hj. pose proof two_digits as T. rewrite forallb_forall in T.
  specialize (T i). rewrite in_seq in T.
  assert (X : (0 <= i < 0 + 100)%nat) by lia.
  apply T in X. apply andb_true_iff in X. destruct X as (_ & X).
  rewrite forallb_forall in X. specialize (X j). rewrite in_seq in X.
  apply Bool.eqb_prop, X. lia.
Qed.

(** The last two characters of a child's code are its number. *)
Lemma child_number_round_trip p n :
  (n <= 99)%nat -> Py.int (Py.suffix 2 (p ++ Py.zfill 2 n)) = Some n.
Proof.
  intros H. unfold Py.suffix.
  rewrite length_append, zfill_2_length by exact H.
  replace (String.length p + 2 - 2)%nat with (String.length p) by lia.
  rewrite <- (zfill_2_length n H) at 1.
  rewrite substring_of_append. apply int_zfill.
Qed.

Lemma code_ge_total a b :
  AccountManager.code_ge a b = true \/ AccountManager.code_ge b a = true.
Proof. unfold AccountManager.code_ge. apply String.leb_total. Qed.

Lemma code_ge_trans a b c :
  AccountManager.code_ge a b = true -> AccountManager.code_ge b c = true ->
  AccountManager.code_ge a c = true.
Proof.
  unfold AccountManager.code_ge. intros H1 H2.
  eapply string_leb_trans; eassumption.
Qed.

Lemma generate_child_code_next s k parent :
  AccountManager.get_account_by_id s (S k) = Some parent ->
  Account.level parent <> 0%nat ->
  (List.length (children_of (accounts s) (S k)) <= 99)%nat ->
  map Account.code (children_of (accounts s) (S k))
  = child_codes parent (List.length (children_of (accounts s) (S k))) ->
  AccountManager.generate_account_code s (Some (S k))
  = if Nat.ltb (List.length (children_of (accounts s) (S k))) 99
    then Some (Account.code parent
               ++ Py.zfill 2 (List.length (children_of (accounts s) (S k)) + 1))
    else None.
Proof.
  intros G Lv Le Codes.
  set (ch := children_of (accounts s) (S k)) in *.
  destruct (hd_error (Sql.order_by AccountManager.code_ge ch)) as [x|] eqn:H.
  - pose proof H as H0.
    apply order_by_hd_least in H0;
      [|intros a b _ _; apply code_ge_total
       |intros a b c _ _ _; apply code_ge_trans].
    destruct H0 as (Hx & Least).
    assert (Pos : (1 <= List.length ch)%nat)
      by (destruct ch; [destruct Hx|simpl; lia]).
    (* the code of [x] is one of the sequence, and the last of it *)
    assert (Cx : In (Account.code x) (child_codes parent (List.length ch)))
      by (rewrite <- Codes; apply in_map, Hx).
    unfold child_codes in Cx. apply in_map_iff in Cx.
    destruct Cx as (i & Ei & Hi). apply in_seq in Hi.
    assert (Cl : In (Account.code parent ++ Py.zfill 2 (List.length ch))
                    (map Account.code ch)).
    { rewrite Codes. unfold child_codes. apply in_map_iff.
      exists (List.length ch). split; [reflexivity|]. apply in_seq. lia. }
    apply in_map_iff in Cl. destruct Cl as (y & Ey & Hy).
    specialize (Least y Hy). unfold AccountManager.code_ge in Least.
    rewrite Ey, <- Ei, leb_common_prefix, zfill_2_leb in Least by lia.
    apply Nat.leb_le in Least.
    assert (i = List.length ch) by lia. subst i.
    rewrite (next_child_code s k parent x (List.length ch) G Lv H).
    + destruct (Nat.ltb_spec 99 (List.length ch + 1)),
               (Nat.ltb_spec (List.length ch) 99); try reflexivity; lia.
    + rewrite <- Ei. apply child_number_round_trip. lia.
  - assert (E : ch = []).
    { destruct (Sql.order_by AccountManager.code_ge ch) eqn:O; [|discriminate].
      apply order_by_nil in O. exact O. }
    rewrite E. simpl.
    apply first_child_code; assumption.
Qed.

Lemma add_account_new_row s parent_id name_ar name_en account_type
    account_category opening_balance created_by account_id s' :
  AccountManager.add_account s parent_id name_ar name_en account_type
    account_category opening_balance created_by = (Some account_id, s') ->
  exists a,
    accounts s' = (accounts s ++ [a])%list /\
    Account.id a = account_id /\
    ~ In account_id (map Account.id (accounts s)) /\
    (1 <= account_id)%nat /\
    Account.parent_id a = parent_id /\
    Account.is_active a = true /\
    AccountManager.generate_account_code s parent_id = Some (Account.code a).
Proof.
  intros H. apply add_account_inv in H.
  destruct H as (code & ty & category & _ & Gc & _ & _ & Ins).
  apply insert_account_commit in Ins.
  destruct Ins as (Hid & Ha & _).
  eexists. split; [exact Ha|]. simpl.
  split; [reflexivity|]. split; [rewrite Hid; apply next_rowid_not_in|].
  split; [rewrite Hid; unfold DatabaseManager.next_rowid; lia|].
  split; [reflexivity|]. split; [reflexivity|exact Gc].
Qed.

Lemma children_of_app rows a p :
  children_of (rows ++ [a]) p
  = (children_of rows p
     ++ (if AccountManager.option_nat_eqb (Account.parent_id a) p
            && Account.is_active a then [a] else []))%list.
Proof. unfold children_of. rewrite filter_app. reflexivity. Qed.

Lemma children_of_map (g : Account.t -> Account.t) rows p :
  (forall x, g x = Account.set_current_balance (Account.current_balance (g x)) x) ->
  children_of (map g rows) p = map g (children_of rows p).
Proof.
  intros Hg. unfold children_of. induction rows as [|x r IH]; [reflexivity|].
  simpl. rewrite (Hg x) at 1 2. simpl.
  destruct (_ && _); simpl; rewrite IH; reflexivity.
Qed.

Lemma children_sequence_after_add s parent_id name_ar name_en account_type
    account_category opening_balance created_by account_id s' :
  reachable s ->
  children_in_sequence (accounts s) ->
  AccountManager.add_account s parent_id name_ar name_en account_type
    account_category opening_balance created_by = (Some account_id, s') ->
  children_in_sequence (accounts s').
Proof.
  intros R IH H.
  destruct (reachable_chart s R) as (Ni & _ & Pl).
  apply add_account_new_row in H.
  destruct H as (a & Ha & Hid & Fresh & Pos & Hp & Act & Gc).
  rewrite Ha. intros parent k Hin Ek.
  rewrite children_of_app.
  apply in_app_or in Hin. destruct Hin as [Hin|[<-|[]]].
  - (* an account that was there *)
    destruct (IH parent k Hin Ek) as (Le & Codes).
    destruct (AccountManager.option_nat_eqb (Account.parent_id a) (S k)
              && Account.is_active a) eqn:C.
    + apply andb_true_iff in C. destruct C as (C & _).
      rewrite Hp in C. destruct parent_id as [p|]; [|discriminate].
      simpl in C. apply Nat.eqb_eq in C. subst p.
      assert (G : AccountManager.get_account_by_id s (S k) = Some parent).
      { rewrite <- Ek. apply find_account_in; assumption. }
      destruct (Pl parent Hin) as (Lv & _).
      rewrite (generate_child_code_next s k parent G) in Gc; try lia;
        try assumption.
      destruct (Nat.ltb_spec (List.length (children_of (accounts s) (S k))) 99)
        as [Lt|]; [|discriminate].
      inversion Gc as [Ec]. rewrite length_app, map_app, Codes. simpl.
      split; [lia|]. unfold child_codes.
      rewrite seq_app, map_app. simpl. rewrite <- Ec.
      replace (S (List.length (children_of (accounts s) (S k))))
        with (List.length (children_of (accounts s) (S k)) + 1)%nat by lia.
      reflexivity.
    + rewrite app_nil_r. split; assumption.
  - (* the new account has no child *)
    assert (E : children_of (accounts s) (S k) = []).
    { apply filter_none. intros x Hx.
      destruct (Account.parent_id x) as [[|p]|] eqn:Px; try reflexivity.
      simpl. destruct (Nat.eqb_spec p k) as [->|]; [|reflexivity].
      exfalso. destruct (Pl x Hx) as (_ & _ & _ & P). rewrite Px in P.
      destruct P as (q & Hq & Eq & _).
      apply Fresh. rewrite <- Hid, Ek, <- Eq. apply in_map, Hq. }
    rewrite E.
    assert (C : AccountManager.option_nat_eqb (Account.parent_id a) (S k) = false).
    { rewrite Hp. destruct parent_id as [[|p]|]; try reflexivity.
      simpl. destruct (Nat.eqb_spec p k) as [->|]; [|reflexivity].
      exfalso.
      apply generate_account_code_shape in Gc.
      destruct Gc as (q & n & G & _).
      unfold AccountManager.get_account_by_id in G. apply find_some in G.
      destruct G as (Hq & Eq). apply Nat.eqb_eq in Eq.
      apply Fresh. rewrite <- Hid, Ek, <- Eq. apply in_map, Hq. }
    rewrite C. simpl. split; [lia|reflexivity].
Qed.

Lemma reachable_children_in_sequence s :
  reachable s -> children_in_sequence (accounts s).
Proof.
  induction 1 as [fys fs
                 |s ? ? ? ? ? ? ? ? s' R IH H
                 |s ? ? ? ? ? ? ? s' R IH H
                 |s ? ? ? s' R IH H
                 |s ? ? ? s' R IH H].
  - intros parent k [].
  - eapply children_sequence_after_add; eassumption.
  - apply create_entry_commit in H. destruct H as (_ & _ & -> & _). exact IH.
  - apply post_entry_accounts in H;
      [|apply (account_ids_unique s (reachable_consistent s R))].
    destruct H as (-> & _).
    intros parent' k Hin Ek.
    apply in_map_iff in Hin. destruct Hin as (parent & <- & Hin).
    rewrite credited_id in Ek.
    destruct (IH parent k Hin Ek) as (Le & Codes).
    rewrite children_of_map by apply credited_fields.
    rewrite length_map, map_map.
    split; [exact Le|]. exact Codes.
  - apply approve_entry_inv in H. destruct H as (entry & n & _ & _ & U).
    apply update_journal_entry_commit in U. destruct U as (-> & _). exact IH.
Qed.

Lemma order_by_sorted_id {A : Type} (le : A -> A -> bool) l :
  StronglySorted (fun a b => le a b = true) l -> Sql.order_by le l = l.
Proof.
  induction 1 as [|x r Srt IH F]; [reflexivity|].
  simpl. rewrite IH. destruct r as [|y r']; [reflexivity|].
  simpl. inversion F as [|? ? L _]; subst. rewrite L. reflexivity.
Qed.

Lemma sequence_sorted parent : forall l start n,
  (start + n <= 100)%nat ->
  map Account.code l
  = map (fun i => Account.code parent ++ Py.zfill 2 i) (seq start n) ->
  StronglySorted (fun a b => AccountManager.code_le a b = true) l.
Proof.
  induction l as [|x r IH]; intros start n Le E; [constructor|].
  destruct n as [|n]; [discriminate|].
  simpl in E. inversion E as [[Ex Er]].
  constructor; [apply (IH (S start) n); [lia|exact Er]|].
  apply Forall_forall. intros y Hy.
  apply (in_map Account.code) in Hy. rewrite Er in Hy.
  apply in_map_iff in Hy. destruct Hy as (j & Ej & Hj). apply in_seq in Hj.
  unfold AccountManager.code_le.
  rewrite Ex, <- Ej, leb_common_prefix, zfill_2_leb by lia.
  apply Nat.leb_le. lia.
Qed.

(** X17.  The children of an account carry its code followed by 01, 02, ... in
    the order they were created; the next child is given the number after
    the last, and once 99 children exist no code is generated. *)
Theorem child_codes_are_sequential s k parent :
  reachable s ->
  AccountManager.get_account_by_id s (S k) = Some parent ->
  let n := List.length (AccountManager.get_child_accounts s (S k)) in
  (n <= 99)%nat /\
  map Account.code (AccountManager.get_child_accounts s (S k))
  = map (fun i => Account.code parent ++ Py.zfill 2 i) (seq 1 n) /\
  AccountManager.generate_account_code s (Some (S k))
  = if Nat.ltb n 99
    then Some (Account.code parent ++ Py.zfill 2 (n + 1))
    else None.
Proof.
  intros R G. cbv zeta.
  destruct (reachable_chart s R) as (Ni & _ & Pl).
  pose proof G as Hin. unfold AccountManager.get_account_by_id in Hin.
  apply find_some in Hin. destruct Hin as (Hin & Ek). apply Nat.eqb_eq in Ek.
  destruct (reachable_children_in_sequence s R parent k Hin Ek) as (Le & Codes).
  destruct (Pl parent Hin) as (Lv & _).
  assert (E : AccountManager.get_child_accounts s (S k)
              = children_of (accounts s) (S k)).
  { unfold AccountManager.get_child_accounts. apply order_by_sorted_id.
    apply (sequence_sorted parent _ 1
             (List.length (children_of (accounts s) (S k)))); [lia|exact Codes]. }
  rewrite E. split; [exact Le|]. split; [exact Codes|].
  apply generate_child_code_next; try assumption. lia.
Qed.

Lemma child_codes_are_sequential_witness :
  map Account.code (AccountManager.get_child_accounts (Scenario.siblings 2) 1)
    = ["101"; "102"] /\
  AccountManager.generate_account_code (Scenario.siblings 2) (Some 1%nat)
    = Some "103".
Proof.
  destruct (child_codes_are_sequential (Scenario.siblings 2) 0
              (Account.mk 1 None "1" "Root 1" "Root 1" general asset 1 "Root 1"
                 true 0 0 None) siblings_2_reachable)
    as (_ & C & G).
  - vm_compute. reflexivity.
  - split.
    + rewrite C. vm_compute. reflexivity.
    + rewrite G. vm_compute. reflexivity.
Defined.

(** ** Operations on accounts leave the journal alone *)

Lemma same_journal_refl s : same_journal s s.
Proof. split; reflexivity. Qed.

Lemma same_journal_trans s1 s2 s3 :
  same_journal s1 s2 -> same_journal s2 s3 -> same_journal s1 s3.
Proof. intros (A & B) (C & D). split; congruence. Qed.

Lemma same_tables_journal s s' : same_tables s s' -> same_journal s s'.
Proof. intros (_ & _ & A & B). split; assumption. Qed.

Lemma transaction_journal {A : Type} (body : Store -> option (A * Store))
    s r s' :
  (forall s0 a s1, body s0 = Some (a, s1) -> same_journal s0 s1) ->
  DatabaseManager.transaction body s = (r, s') -> same_journal s s'.
Proof.
  intros B H. destruct r as [a|].
  - apply transaction_commit in H. apply B in H.
    eapply same_journal_trans; [|exact H].
    apply same_tables_journal, next_fault_same_tables.
  - apply same_tables_journal. eapply transaction_failed_tables, H.
Qed.

Lemma db_update_account_journal data id s r s' :
  DatabaseManager.update_account data id s = (r, s') -> same_journal s s'.
Proof.
  unfold DatabaseManager.update_account. apply transaction_journal.
  intros s0 a s1 H. destruct data; [discriminate|].
  destruct (existsb _ _); [discriminate|].
  destruct (_ && _); [discriminate|].
  inversion H. split; reflexivity.
Qed.

Lemma db_delete_account_journal id s r s' :
  DatabaseManager.delete_account id s = (r, s') -> same_journal s s'.
Proof.
  unfold DatabaseManager.delete_account. apply transaction_journal.
  intros s0 a s1 H. inversion H. split; reflexivity.
Qed.

Lemma db_update_account_balance_journal id v s r s' :
  DatabaseManager.update_account_balance id v s = (r, s') -> same_journal s s'.
Proof.
  unfold DatabaseManager.update_account_balance. apply transaction_journal.
  intros s0 a s1 H. inversion H. split; reflexivity.
Qed.

Lemma db_insert_account_journal data s r s' :
  DatabaseManager.insert_account data s = (r, s') -> same_journal s s'.
Proof.
  unfold DatabaseManager.insert_account. apply transaction_journal.
  intros s0 a s1 H. destruct (existsb _ _); [discriminate|].
  inversion H. split; reflexivity.
Qed.

Lemma fold_left_journal {A : Type} (f : Store -> A -> Store) l :
  (forall st x, same_journal st (f st x)) ->
  forall s, same_journal s (fold_left f l s).
Proof.
  intros H. induction l as [|x r IH]; intros s; simpl.
  - apply same_journal_refl.
  - eapply same_journal_trans; [apply H|apply IH].
Qed.

Lemma add_account_journal s parent_id name_ar name_en account_type
    account_category opening_balance created_by :
  same_journal s
    (snd (AccountManager.add_account s parent_id name_ar name_en account_type
            account_category opening_balance created_by)).
Proof.
  unfold AccountManager.add_account.
  destruct (negb _); [apply same_journal_refl|].
  destruct (AccountManager.generate_account_code s parent_id);
    [|apply same_journal_refl].
  destruct (parse_account_type account_type); [|apply same_journal_refl].
  destruct (parse_account_category account_category);
    [|apply same_journal_refl].
  destruct (_ =? ""); [apply same_journal_refl|].
  destruct (DatabaseManager.insert_account _ s) as [r s'] eqn:I.
  eapply db_insert_account_journal, I.
Qed.

Lemma update_account_full_path_journal depth : forall s account_id,
  same_journal s (AccountManager._update_account_full_path depth s account_id).
Proof.
  induction depth as [|depth IH]; intros s account_id; simpl;
    [apply same_journal_refl|].
  destruct (AccountManager.get_account_by_id s account_id) as [account|];
    [|apply same_journal_refl].
  destruct (DatabaseManager.update_account _ account_id s) as [[n|] s1] eqn:U;
    apply db_update_account_journal in U; [|exact U].
  eapply same_journal_trans; [exact U|].
  apply fold_left_journal. intros st child. apply IH.
Qed.

Lemma update_account_journal depth s account_id kwargs :
  same_journal s (snd (AccountManager.update_account depth s account_id kwargs)).
Proof.
  unfold AccountManager.update_account.
  destruct (AccountManager.get_account_by_id s account_id);
    [|apply same_journal_refl].
  destruct (negb _); [apply same_journal_refl|].
  destruct (DatabaseManager.update_account kwargs account_id s)
    as [[n|] s'] eqn:U; apply db_update_account_journal in U; [|exact U].
  destruct (Nat.ltb 0 n); [|exact U]. simpl.
  destruct (AccountManager.lookup_name_ar kwargs); [|exact U].
  eapply same_journal_trans; [exact U|].
  apply update_account_full_path_journal.
Qed.

Lemma delete_account_journal depth : forall s account_id force,
  same_journal s (snd (AccountManager.delete_account depth s account_id force)).
Proof.
  induction depth as [|depth IH]; intros s account_id force; simpl;
    [apply same_journal_refl|].
  destruct (AccountManager.get_account_by_id s account_id);
    [|apply same_journal_refl].
  destruct (negb force && _); [apply same_journal_refl|].
  destruct (_ && negb force); [apply same_journal_refl|].
  match goal with
  | |- same_journal s (snd (match DatabaseManager.delete_account _ ?s1 with _ => _ end)) =>
      assert (J : same_journal s s1)
  end.
  { destruct force; [|apply same_journal_refl].
    apply fold_left_journal. intros st child. apply IH. }
  match goal with
  | |- same_journal s (snd (match ?d with _ => _ end)) =>
      destruct d as [[n|] s2] eqn:D
  end; apply db_delete_account_journal in D;
    eapply same_journal_trans; eassumption.
Qed.

Lemma update_balances_journal lines : forall s,
  same_journal s (snd (JournalManager.update_balances lines s)).
Proof.
  induction lines as [|line rest IH]; intros s; simpl;
    [apply same_journal_refl|].
  destruct (AccountManager.get_account_by_id s _); [|apply IH].
  destruct (DatabaseManager.update_account_balance _ _ s) as [[n|] s'] eqn:U;
    apply db_update_account_balance_journal in U.
  - eapply same_journal_trans; [exact U|apply IH].
  - exact U.
Qed.

(** ** Posted entries are permanent *)

Lemma still_posted_refl e :
  JournalManager.posted_or_approved (JournalEntry.status e) = true ->
  still_posted e e.
Proof. intros H. unfold still_posted. repeat split; auto. Qed.

Lemma still_posted_trans e1 e2 e3 :
  still_posted e1 e2 -> still_posted e2 e3 -> still_posted e1 e3.
Proof.
  unfold still_posted.
  intros (A1 & A2 & A3 & A4 & A5 & A6 & A7 & A8 & A9 & A10 & A11)
         (B1 & B2 & B3 & B4 & B5 & B6 & B7 & B8 & B9 & B10 & B11).
  repeat split; try congruence.
  intros St. specialize (A11 St). subst e2. apply B11, St.
Qed.

Section EntryLookup.
Variable rows : list JournalEntry.t.
Hypothesis ids : NoDup (map JournalEntry.id rows).

Lemma find_entry_in e :
  In e rows ->
  find (fun x => Nat.eqb (JournalEntry.id x) (JournalEntry.id e)) rows = Some e.
Proof using ids.
  revert ids. induction rows as [|x r IH]; intros N He; [destruct He|].
  inversion N as [|? ? Hx Hr]; subst. simpl.
  destruct He as [<-|He].
  - rewrite Nat.eqb_refl. reflexivity.
  - destruct (Nat.eqb_spec (JournalEntry.id x) (JournalEntry.id e)) as [E|E].
    + exfalso. apply Hx. rewrite E. apply in_map, He.
    + apply IH; assumption.
Qed.
End EntryLookup.

(** An UPDATE of one row of the journal, found draft -- or found posted and
    approved by the update --, keeps every posted entry. *)
Lemma update_rows_keeps_posted data n rows e0 e :
  NoDup (map JournalEntry.id rows) ->
  find (fun x => Nat.eqb (JournalEntry.id x) n) rows = Some e0 ->
  JournalEntry.status e0 = draft \/
  (JournalEntry.status e0 = posted /\
   exists now approved_by,
     data = [col_status approved; col_approved_at now; col_approved_by approved_by]) ->
  In e rows ->
  JournalManager.posted_or_approved (JournalEntry.status e) = true ->
  exists e', In e' (DatabaseManager.update_rows data n rows) /\ still_posted e e'.
Proof.
  intros N F Cases He P.
  destruct (Nat.eqb_spec (JournalEntry.id e) n) as [E|E].
  - assert (e0 = e).
    { rewrite <- E in F. rewrite (find_entry_in rows N e He) in F.
      inversion F. reflexivity. }
    subst e0. destruct Cases as [D|(Ps & now & by_ & ->)].
    + rewrite D in P. discriminate.
    + exists (fold_left DatabaseManager.assign
                [col_status approved; col_approved_at now; col_approved_by by_] e).
      split.
      * unfold DatabaseManager.update_rows. apply in_map_iff.
        exists e. split; [|exact He].
        rewrite E, Nat.eqb_refl. reflexivity.
      * destruct e. simpl in Ps. subst. unfold still_posted. simpl.
        repeat split; auto. discriminate.
  - exists e. split; [|apply still_posted_refl, P].
    unfold DatabaseManager.update_rows. apply in_map_iff.
    exists e. split; [|exact He].
    apply Nat.eqb_neq in E. rewrite E. reflexivity.
Qed.

Lemma db_update_entry_effect data id s r s' :
  DatabaseManager.update_journal_entry data id s = (r, s') ->
  journal_lines s' = journal_lines s /\
  (journal_entries s' = journal_entries s \/
   journal_entries s' = DatabaseManager.update_rows data id (journal_entries s)).
Proof.
  intros H. destruct r as [n|].
  - apply update_journal_entry_commit in H.
    destruct H as (_ & Hl & _ & He & _). split; [exact Hl|right; exact He].
  - unfold DatabaseManager.update_journal_entry in H.
    apply transaction_failed_tables in H.
    destruct H as (_ & _ & He & Hl). split; [exact Hl|left; exact He].
Qed.

Lemma keeps_posted_same_journal s s' : same_journal s s' -> keeps_posted s s'.
Proof.
  intros (He & Hl) N. unfold lines_of_entry. rewrite He, Hl.
  split; [exact N|]. intros e Hin P. exists e.
  split; [exact Hin|]. split; [apply still_posted_refl, P|reflexivity].
Qed.

Lemma keeps_posted_update data n s s' e0 :
  JournalManager.get_entry_details s n = Some e0 ->
  JournalEntry.status e0 = draft \/
  (JournalEntry.status e0 = posted /\
   exists now approved_by,
     data = [col_status approved; col_approved_at now; col_approved_by approved_by]) ->
  journal_lines s' = journal_lines s ->
  journal_entries s' = journal_entries s \/
  journal_entries s' = DatabaseManager.update_rows data n (journal_entries s) ->
  keeps_posted s s'.
Proof.
  intros G Cases Hl [He|He].
  - apply keeps_posted_same_journal. split; assumption.
  - intros N. unfold lines_of_entry. rewrite He, Hl, update_rows_ids.
    split; [exact N|]. intros e Hin P.
    destruct (update_rows_keeps_posted data n _ e0 e N G Cases Hin P)
      as (e' & Hin' & K).
    exists e'. split; [exact Hin'|]. split; [exact K|reflexivity].
Qed.

Lemma NoDup_map_filter {A B : Type} (f : A -> B) (p : A -> bool) l :
  NoDup (map f l) -> NoDup (map f (filter p l)).
Proof.
  induction l as [|x r IH]; intros N; [constructor|].
  simpl in N. inversion N as [|? ? Hx Hr]; subst. simpl.
  destruct (p x); [|apply IH, Hr].
  simpl. constructor; [|apply IH, Hr].
  intros H. apply Hx. apply in_map_iff in H. destruct H as (y & E & Hy).
  apply filter_In in Hy. destruct Hy as (Hy & _).
  rewrite <- E. apply in_map, Hy.
Qed.

Lemma not_posted_is_draft st :
  JournalManager.posted_or_approved st = false -> st = draft.
Proof. destruct st; try discriminate; reflexivity. Qed.

Lemma posted_entry_is_not_the_draft rows n e0 e :
  NoDup (map JournalEntry.id rows) ->
  find (fun x => Nat.eqb (JournalEntry.id x) n) rows = Some e0 ->
  JournalEntry.status e0 = draft ->
  In e rows ->
  JournalManager.posted_or_approved (JournalEntry.status e) = true ->
  JournalEntry.id e <> n.
Proof.
  intros N F D He P E. rewrite <- E in F.
  rewrite (find_entry_in rows N e He) in F. inversion F; subst e0.
  rewrite D in P. discriminate.
Qed.

Lemma create_entry_keeps_posted s entry_date description lines fiscal_year_id
    created_by now :
  keeps_posted s
    (snd (JournalManager.create_entry s entry_date description lines
            fiscal_year_id created_by now)).
Proof.
  destruct (JournalManager.create_entry s entry_date description lines
              fiscal_year_id created_by now) as [[entry_id|] s'] eqn:C; simpl.
  - apply create_entry_commit in C.
    destruct C as (_ & Hid & _ & _ & He & rows & Hl & Rows).
    intros N. unfold lines_of_entry. rewrite He, Hl, map_app. simpl.
    split.
    + apply NoDup_snoc_fresh; [exact N|].
      rewrite Hid. apply next_rowid_not_in.
    + intros e Hin P. exists e.
      split; [apply in_or_app; left; exact Hin|].
      split; [apply still_posted_refl, P|].
      rewrite filter_app, (filter_none _ rows), app_nil_r; [reflexivity|].
      intros jl Hjl.
      destruct (rows_of_lines_in _ _ _ Rows jl Hjl) as (line & _ & _ & E & _).
      rewrite E. apply Nat.eqb_neq. rewrite Hid.
      apply next_rowid_fresh, in_map, Hin.
  - apply keeps_posted_same_journal, same_tables_journal.
    eapply create_entry_rollback, C.
Qed.

Lemma delete_entry_keeps_posted s entry_id :
  keeps_posted s (snd (JournalManager.delete_entry s entry_id)).
Proof.
  unfold JournalManager.delete_entry.
  destruct (JournalManager.get_entry_details s entry_id) as [entry|] eqn:G;
    [|apply keeps_posted_same_journal, same_journal_refl].
  destruct (JournalManager.posted_or_approved (JournalEntry.status entry)) eqn:St;
    [apply keeps_posted_same_journal, same_journal_refl|].
  apply not_posted_is_draft in St.
  destruct (DatabaseManager.transaction _ s) as [[u|] s'] eqn:T; simpl.
  - apply transaction_commit in T. inversion T as [E]. clear T.
    pose proof (next_fault_tables s) as F. cbv zeta in F.
    destruct F as (_ & _ & Fe & Fl & _).
    intros N. unfold lines_of_entry. simpl. rewrite Fe, Fl.
    split; [apply NoDup_map_filter, N|].
    intros e Hin P.
    pose proof (posted_entry_is_not_the_draft _ _ _ _ N G St Hin P) as Ne.
    exists e. split.
    + apply filter_In. split; [exact Hin|].
      apply negb_true_iff, Nat.eqb_neq, Ne.
    + split; [apply still_posted_refl, P|].
      apply filter_filter_implied. intros jl K.
      apply Nat.eqb_eq in K. apply negb_true_iff, Nat.eqb_neq. congruence.
  - apply keeps_posted_same_journal, same_tables_journal.
    eapply transaction_failed_tables, T.
Qed.

Lemma update_entry_keeps_posted s entry_id kwargs :
  keeps_posted s (snd (JournalManager.update_entry s entry_id kwargs)).
Proof.
  unfold JournalManager.update_entry.
  destruct (JournalManager.get_entry_details s entry_id) as [entry|] eqn:G;
    [|apply keeps_posted_same_journal, same_journal_refl].
  destruct (JournalManager.posted_or_approved (JournalEntry.status entry)) eqn:St;
    [apply keeps_posted_same_journal, same_journal_refl|].
  apply not_posted_is_draft in St.
  destruct (negb _); [apply keeps_posted_same_journal, same_journal_refl|].
  destruct (DatabaseManager.update_journal_entry kwargs entry_id s)
    as [r s'] eqn:U.
  apply db_update_entry_effect in U. destruct U as (Hl & He).
  assert (K : keeps_posted s s')
    by (eapply (keeps_posted_update _ entry_id s s' entry G);
        [|exact Hl|exact He]; left; assumption).
  destruct r; exact K.
Qed.

Lemma approve_entry_keeps_posted s entry_id approved_by now :
  keeps_posted s (snd (JournalManager.approve_entry s entry_id approved_by now)).
Proof.
  unfold JournalManager.approve_entry.
  destruct (JournalManager.get_entry_details s entry_id) as [entry|] eqn:G;
    [|apply keeps_posted_same_journal, same_journal_refl].
  destruct (EntryStatus_eqb (JournalEntry.status entry) posted) eqn:St; simpl;
    [|apply keeps_posted_same_journal, same_journal_refl].
  assert (Ps : JournalEntry.status entry = posted)
    by (destruct (JournalEntry.status entry); try discriminate; reflexivity).
  destruct (DatabaseManager.update_journal_entry _ entry_id s) as [r s'] eqn:U.
  apply db_update_entry_effect in U. destruct U as (Hl & He).
  assert (K : keeps_posted s s').
  { eapply (keeps_posted_update _ entry_id s s' entry G);
      [|exact Hl|exact He].
    right. split; [exact Ps|eauto]. }
  destruct r; exact K.
Qed.

Lemma post_entry_keeps_posted s entry_id posted_by now :
  keeps_posted s (snd (JournalManager.post_entry s entry_id posted_by now)).
Proof.
  unfold JournalManager.post_entry.
  destruct (JournalManager.get_entry_details s entry_id) as [entry|] eqn:G;
    [|apply keeps_posted_same_journal, same_journal_refl].
  destruct (EntryStatus_eqb (JournalEntry.status entry) draft) eqn:St; simpl;
    [|apply keeps_posted_same_journal, same_journal_refl].
  assert (D : JournalEntry.status entry = draft)
    by (destruct (JournalEntry.status entry); try discriminate; reflexivity).
  unfold JournalManager._update_account_balances.
  pose proof (update_balances_journal
                (JournalManager.get_entry_lines s entry_id) s) as J.
  destruct (JournalManager.update_balances _ s) as [[|] s1]; simpl in J;
    [|apply keeps_posted_same_journal, J].
  destruct J as (Je & Jl).
  destruct (DatabaseManager.update_journal_entry _ entry_id s1) as [r s'] eqn:U.
  apply db_update_entry_effect in U. destruct U as (Hl & He).
  rewrite Je in He. rewrite Jl in Hl.
  assert (K : keeps_posted s s')
    by (eapply (keeps_posted_update _ entry_id s s' entry G);
        [|exact Hl|exact He]; left; assumption).
  destruct r; exact K.
Qed.

Lemma step_keeps_posted s s' : step s s' -> keeps_posted s s'.
Proof.
  intros [].
  - apply keeps_posted_same_journal, add_account_journal.
  - apply keeps_posted_same_journal, update_account_journal.
  - apply keeps_posted_same_journal, delete_account_journal.
  - apply create_entry_keeps_posted.
  - apply update_entry_keeps_posted.
  - apply delete_entry_keeps_posted.
  - apply post_entry_keeps_posted.
  - apply approve_entry_keeps_posted.
Qed.

Lemma steps_keep_posted s s' : steps s s' -> keeps_posted s s'.
Proof.
  induction 1 as [s|s1 s2 s3 _ IH St].
  - apply keeps_posted_same_journal, same_journal_refl.
  - intros N. destruct (IH N) as (N2 & K2).
    destruct (step_keeps_posted _ _ St N2) as (N3 & K3).
    split; [exact N3|]. intros e Hin P.
    destruct (K2 e Hin P) as (e2 & Hin2 & S2 & L2).
    assert (P2 : JournalManager.posted_or_approved (JournalEntry.status e2) = true)
      by (destruct S2 as (_ & _ & _ & _ & _ & _ & _ & _ & _ & X & _); exact X).
    destruct (K3 e2 Hin2 P2) as (e3 & Hin3 & S3 & L3).
    exists e3. split; [exact Hin3|].
    split; [eapply still_posted_trans; eassumption|].
    destruct S2 as (Eid & _). rewrite Eid in L3. congruence.
Qed.

(** X18.  Once an entry is posted, no sequence of calls of the managers --
    succeeding or failing, with or without storage faults -- removes it,
    returns it to draft, or changes its number, date, description, fiscal
    year, totals or lines: only its approval can still be recorded, and an
    approved entry does not change at all. *)
Theorem posted_entries_are_permanent s s' e :
  NoDup (map JournalEntry.id (journal_entries s)) ->
  steps s s' ->
  In e (journal_entries s) ->
  JournalEntry.status e = posted \/ JournalEntry.status e = approved ->
  exists e',
    JournalManager.get_entry_details s' (JournalEntry.id e) = Some e' /\
    still_posted e e' /\
    lines_of_entry s' (JournalEntry.id e) = lines_of_entry s (JournalEntry.id e).
Proof.
  intros N St Hin P.
  assert (P' : JournalManager.posted_or_approved (JournalEntry.status e) = true)
    by (destruct P as [-> | ->]; reflexivity).
  destruct (steps_keep_posted s s' St N) as (N' & K).
  destruct (K e Hin P') as (e' & Hin' & S' & L').
  exists e'. split; [|split; assumption].
  unfold JournalManager.get_entry_details.
  destruct S' as (Eid & _). rewrite <- Eid.
  apply find_entry_in; assumption.
Qed.

Lemma posted_entries_are_permanent_witness :
  let s := Scenario.after_post [] in
  let s' := snd (AccountManager.delete_account 10
                   (snd (JournalManager.delete_entry s 1)) 1 true) in
  exists e',
    JournalManager.get_entry_details s' 1 = Some e' /\
    JournalEntry.entry_number e' = "JE-000001" /\
    JournalEntry.total_debit e' = 100000 /\
    List.length (lines_of_entry s' 1) = 2%nat /\
    AccountManager.get_account_by_id s' 1 = None.
Proof.
  cbv zeta.
  destruct (posted_entries_are_permanent (Scenario.after_post [])
              (snd (AccountManager.delete_account 10
                      (snd (JournalManager.delete_entry (Scenario.after_post []) 1))
                      1 true))
              (JournalEntry.mk 1 "JE-000001" 10 "sale" 1 100000 100000 posted
                 (Some 0%nat) (Some 1%nat) None None None None))
    as (e' & G & K & L).
  - vm_compute. constructor; [intros []|constructor].
  - eapply steps_step; [eapply steps_step; [apply steps_refl|]|].
    + apply step_delete_entry.
    + apply step_delete_account.
  - vm_compute. left. reflexivity.
  - left. reflexivity.
  - exists e'. split; [exact G|].
    destruct K as (_ & En & _ & _ & _ & Td & _).
    split; [exact En|]. split; [exact Td|].
    split; [simpl JournalEntry.id in L; rewrite L; vm_compute; reflexivity
           |vm_compute; reflexivity].
Defined.

(** ** Updating an account *)

Lemma assign_account_id a c :
  Account.id (DatabaseManager.assign_account a c) = Account.id a.
Proof. destruct a, c; reflexivity. Qed.

Lemma assign_account_all_id data : forall a,
  Account.id (fold_left DatabaseManager.assign_account data a) = Account.id a.
Proof.
  induction data as [|c r IH]; intros a; simpl; [reflexivity|].
  rewrite IH. apply assign_account_id.
Qed.

Lemma find_update_account_rows data id rows :
  find (fun a => Nat.eqb (Account.id a) id)
       (DatabaseManager.update_account_rows data id rows)
  = option_map (fold_left DatabaseManager.assign_account data)
      (find (fun a => Nat.eqb (Account.id a) id) rows).
Proof.
  induction rows as [|a r IH]; [reflexivity|].
  simpl. destruct (Nat.eqb (Account.id a) id) eqn:E.
  - simpl. rewrite assign_account_all_id, E. reflexivity.
  - simpl. rewrite E. exact IH.
Qed.

Lemma find_update_account_rows_other data id other rows :
  other <> id ->
  find (fun a => Nat.eqb (Account.id a) other)
       (DatabaseManager.update_account_rows data id rows)
  = find (fun a => Nat.eqb (Account.id a) other) rows.
Proof.
  intros N. induction rows as [|a r IH]; [reflexivity|].
  simpl. destruct (Nat.eqb_spec (Account.id a) id) as [E|E].
  - simpl. rewrite assign_account_all_id.
    destruct (Nat.eqb_spec (Account.id a) other) as [E'|E'];
      [congruence|apply IH].
  - simpl. destruct (Nat.eqb (Account.id a) other); [reflexivity|apply IH].
Qed.

Lemma db_update_account_commit data id s n s' :
  DatabaseManager.update_account data id s = (Some n, s') ->
  accounts s' = DatabaseManager.update_account_rows data id (accounts s) /\
  n = DatabaseManager.count_rows (fun a => Nat.eqb (Account.id a) id) (accounts s).
Proof.
  unfold DatabaseManager.update_account. intros H.
  apply transaction_commit in H.
  pose proof (next_fault_tables s) as T. cbv zeta in T.
  destruct T as (Ta & _). rewrite Ta in H.
  destruct data; [discriminate|].
  destruct (existsb _ _); [discriminate|].
  destruct (_ && _); [discriminate|].
  inversion H. split; reflexivity.
Qed.

Lemma db_update_account_no_fault data id s :
  hd false (faults s) = false ->
  data <> [] ->
  existsb DatabaseManager.is_unknown_account_column data = false ->
  existsb DatabaseManager.sets_code data = false ->
  exists s',
    DatabaseManager.update_account data id s
    = (Some (DatabaseManager.count_rows
               (fun a => Nat.eqb (Account.id a) id) (accounts s)), s') /\
    accounts s' = DatabaseManager.update_account_rows data id (accounts s).
Proof.
  intros F D U C. unfold DatabaseManager.update_account.
  rewrite transaction_no_fault by exact F.
  destruct data as [|c data]; [congruence|].
  rewrite U, C. simpl.
  pose proof (next_fault_tables s) as T. cbv zeta in T.
  destruct T as (-> & _).
  eexists. split; reflexivity.
Qed.

(** X19.  [update_account] with a [name_ar] refuses the name of any active
    account under the same parent -- the account itself included: a call
    that passes the name the account already has returns [False] and
    changes nothing, whatever else it asks to change. *)
Theorem update_account_refuses_own_name depth s account_id account kwargs :
  AccountManager.get_account_by_id s account_id = Some account ->
  Account.is_active account = true ->
  Account.parent_id account <> Some 0%nat ->
  AccountManager.lookup_name_ar kwargs = Some (Account.name_ar account) ->
  AccountManager.update_account depth s account_id kwargs = (false, s).
Proof.
  intros G Act Np L. unfold AccountManager.update_account. rewrite G.
  assert (V : AccountManager._validate_update_data s account_id kwargs = false).
  { unfold AccountManager._validate_update_data.
    destruct (_ && _); [reflexivity|]. rewrite L, G.
    unfold AccountManager._validate_name_uniqueness.
    pose proof G as Hin. unfold AccountManager.get_account_by_id in Hin.
    apply find_some in Hin. destruct Hin as (Hin & _).
    destruct (Account.parent_id account) as [[|k]|] eqn:P; [congruence| |].
    - destruct (find _ (accounts s)) eqn:F; [reflexivity|].
      apply (find_none _ _ F) in Hin.
      rewrite P, Act, String.eqb_refl in Hin. simpl in Hin.
      rewrite Nat.eqb_refl in Hin. discriminate.
    - destruct (find _ (accounts s)) eqn:F; [reflexivity|].
      apply (find_none _ _ F) in Hin.
      rewrite P, Act, String.eqb_refl in Hin. discriminate. }
  rewrite V. reflexivity.
Qed.

Lemma update_account_refuses_own_name_witness :
  AccountManager.update_account 10 (Scenario.with_revenue []) 1
    [acc_name_ar "Cash"; acc_name_en "Cash in hand"; acc_updated_by (Some 1%nat)]
  = (false, Scenario.with_revenue []).
Proof.
  apply (update_account_refuses_own_name 10 (Scenario.with_revenue []) 1
           (Account.mk 1 None "1" "Cash" "Cash" assistant asset 1 "Cash" true
              500000 500000 None)).
  - vm_compute. reflexivity.
  - reflexivity.
  - discriminate.
  - reflexivity.
Defined.

Lemma unchecked_account_columns_flags kwargs :
  forallb unchecked_account_column kwargs = true ->
  AccountManager.has_parent_id kwargs = false /\
  existsb DatabaseManager.is_unknown_account_column kwargs = false /\
  existsb DatabaseManager.sets_code kwargs = false /\
  forall acc,
    fold_left (fun acc c => match c with acc_name_ar v => Some v | _ => acc end)
      kwargs acc = acc.
Proof.
  induction kwargs as [|c r IH]; intros H; [repeat split|].
  simpl in H. apply andb_true_iff in H. destruct H as (Hc & Hr).
  destruct (IH Hr) as (A & B & C & D).
  unfold AccountManager.has_parent_id in *. simpl.
  rewrite A, B, C.
  destruct c; try discriminate; repeat split; intros; apply D.
Qed.

(** X20.  [update_account] writes the type, category, level, path, activity and
    both balances of an account as given: when the keywords name none of
    [parent_id], [name_ar] and [code], nothing is checked -- not the
    hierarchy rules of [add_account], nor the balance against the journal.
    Every other account and the journal stay as they were. *)
Theorem update_account_writes_unchecked depth s account_id account kwargs :
  AccountManager.get_account_by_id s account_id = Some account ->
  hd false (faults s) = false ->
  kwargs <> [] ->
  forallb unchecked_account_column kwargs = true ->
  exists s',
    AccountManager.update_account depth s account_id kwargs = (true, s') /\
    AccountManager.get_account_by_id s' account_id
    = Some (fold_left DatabaseManager.assign_account kwargs account) /\
    (forall other, other <> account_id ->
       AccountManager.get_account_by_id s' other
       = AccountManager.get_account_by_id s other) /\
    journal_entries s' = journal_entries s /\
    journal_lines s' = journal_lines s.
Proof.
  intros G F Ne U.
  destruct (unchecked_account_columns_flags kwargs U) as (Hp & Hu & Hc & Hn).
  unfold AccountManager.update_account. rewrite G.
  unfold AccountManager._validate_update_data. rewrite Hp. simpl andb. cbv iota.
  unfold AccountManager.lookup_name_ar. rewrite Hn. simpl negb. cbv iota.
  destruct (db_update_account_no_fault kwargs account_id s F Ne Hu Hc)
    as (s' & Up & Ha).
  rewrite Up.
  pose proof (find_some_count _ _ _ G) as Pos. apply Nat.ltb_lt in Pos.
  rewrite Pos. exists s'. split; [reflexivity|].
  unfold AccountManager.get_account_by_id in *. rewrite Ha.
  split; [rewrite find_update_account_rows, G; reflexivity|].
  split; [intros other N; apply find_update_account_rows_other, N|].
  apply db_update_account_journal in Up. exact Up.
Qed.

Lemma update_account_writes_unchecked_witness :
  exists s' cash,
    AccountManager.update_account 10 (Scenario.after_post []) 1
      [acc_current_balance 0; acc_account_category revenue] = (true, s') /\
    AccountManager.get_account_by_id s' 1 = Some cash /\
    Account.current_balance cash = 0 /\
    Account.account_category cash = revenue /\
    journal_lines s' = journal_lines (Scenario.after_post []).
Proof.
  destruct (update_account_writes_unchecked 10 (Scenario.after_post []) 1
              (Account.mk 1 None "1" "Cash" "Cash" assistant asset 1 "Cash" true
                 500000 600000 None)
              [acc_current_balance 0; acc_account_category revenue])
    as (s' & U & G & _ & _ & L).
  - vm_compute. reflexivity.
  - reflexivity.
  - discriminate.
  - reflexivity.
  - exists s'. eexists. split; [exact U|]. split; [exact G|].
    repeat split. exact L.
Defined.

(** X21.  [update_account] moves an account that has no active child under any
    account it is given -- an analytic account, or the account itself --
    without one of the hierarchy rules of [add_account], and leaves its
    level, code and type as they were; it refuses to move an account that
    has active children. *)
Theorem update_account_moves_unchecked depth s account_id account :
  AccountManager.get_account_by_id s account_id = Some account ->
  (forall kwargs,
     AccountManager.has_parent_id kwargs = true ->
     AccountManager.get_child_accounts s account_id <> [] ->
     AccountManager.update_account depth s account_id kwargs = (false, s))
  /\
  (forall parent_id parent,
     AccountManager.get_account_by_id s parent_id = Some parent ->
     AccountManager.get_child_accounts s account_id = [] ->
     hd false (faults s) = false ->
     exists s' moved,
       AccountManager.update_account depth s account_id
         [acc_parent_id (Some parent_id)] = (true, s') /\
       AccountManager.get_account_by_id s' account_id = Some moved /\
       Account.parent_id moved = Some parent_id /\
       Account.level moved = Account.level account /\
       Account.code moved = Account.code account /\
       Account.account_type moved = Account.account_type account /\
       journal_entries s' = journal_entries s /\
       journal_lines s' = journal_lines s).
Proof.
  intros G. split.
  - intros kwargs Hp Ch. unfold AccountManager.update_account. rewrite G.
    unfold AccountManager._validate_update_data. rewrite Hp.
    destruct (AccountManager.get_child_accounts s account_id); [congruence|].
    reflexivity.
  - intros parent_id parent _ Ch F. unfold AccountManager.update_account.
    rewrite G.
    unfold AccountManager._validate_update_data. rewrite Ch. simpl.
    destruct (db_update_account_no_fault [acc_parent_id (Some parent_id)]
                account_id s F) as (s' & Up & Ha);
      try reflexivity; [discriminate|].
    rewrite Up.
    pose proof (find_some_count _ _ _ G) as Pos. apply Nat.ltb_lt in Pos.
    rewrite Pos. exists s'. eexists. split; [reflexivity|].
    unfold AccountManager.get_account_by_id in *.
    rewrite Ha, find_update_account_rows, G.
    split; [reflexivity|].
    apply db_update_account_journal in Up.
    destruct account; simpl. repeat split; apply Up.
Qed.

Lemma update_account_moves_unchecked_witness :
  exists s' cash,
    AccountManager.update_account 10 (Scenario.siblings 2) 1
      [acc_parent_id (Some 3%nat)] = (false, Scenario.siblings 2) /\
    AccountManager.update_account 10 (Scenario.siblings 2) 2
      [acc_parent_id (Some 3%nat)] = (true, s') /\
    AccountManager.get_account_by_id s' 2 = Some cash /\
    Account.parent_id cash = Some 3%nat /\
    Account.level cash = 2%nat /\ Account.code cash = "101".
Proof.
  destruct (proj2 (update_account_moves_unchecked 10 (Scenario.siblings 2) 2
                     (Account.mk 2 (Some 1%nat) "101" "Child 1" "Child 1"
                        analytic asset 2 "Root 1 > Child 1" true 0 0 None)
                     ltac:(vm_compute; reflexivity))
              3%nat
              (Account.mk 3 (Some 1%nat) "102" "Child 2" "Child 2"
                 analytic asset 2 "Root 1 > Child 2" true 0 0 None))
    as (s' & moved & U & G & P & L & C & _).
  - vm_compute. reflexivity.
  - vm_compute. reflexivity.
  - reflexivity.
  - exists s', moved. split.
    + apply (proj1 (update_account_moves_unchecked 10 (Scenario.siblings 2) 1
                      (Account.mk 1 None "1" "Root 1" "Root 1" general asset 1
                         "Root 1" true 0 0 None)
                      ltac:(vm_compute; reflexivity))).
      * reflexivity.
      * vm_compute. discriminate.
    + split; [exact U|]. split; [exact G|]. split; [exact P|].
      split; [rewrite L|rewrite C]; reflexivity.
Defined.

(** ** What [add_account] stores *)

Lemma find_app_some {A : Type} (p : A -> bool) l1 l2 x :
  find p l1 = Some x -> find p (l1 ++ l2) = Some x.
Proof.
  induction l1 as [|y r IH]; [discriminate|].
  simpl. destruct (p y); [auto|exact IH].
Qed.

(** X22.  A successful [add_account] stores one new row under an id no account
    had: the row carries the names, type, category and creator as given,
    the generated code, the level and path derived from the parent, and the
    opening balance as current balance; it is active.  Every other account
    and the journal are as before. *)
Theorem add_account_stores_the_account s parent_id name_ar name_en
    account_type account_category opening_balance created_by account_id s' :
  AccountManager.add_account s parent_id name_ar name_en account_type
    account_category opening_balance created_by = (Some account_id, s') ->
  AccountManager.get_account_by_id s account_id = None /\
  (exists code ty category,
     AccountManager.generate_account_code s parent_id = Some code /\
     parse_account_type account_type = Some ty /\
     parse_account_category account_category = Some category /\
     AccountManager.get_account_by_id s' account_id
     = Some (Account.mk account_id parent_id code name_ar name_en ty category
               (AccountManager._get_account_level s parent_id)
               (AccountManager._generate_full_path s parent_id name_ar)
               true opening_balance opening_balance created_by)) /\
  (forall other, other <> account_id ->
     AccountManager.get_account_by_id s' other
     = AccountManager.get_account_by_id s other) /\
  journal_entries s' = journal_entries s /\
  journal_lines s' = journal_lines s.
Proof.
  intros H. apply add_account_inv in H.
  destruct H as (code & ty & category & _ & Gc & Pt & Pc & Ins).
  apply insert_account_commit in Ins.
  destruct Ins as (Hid & Ha & _ & He & Hl).
  assert (Fresh : AccountManager.get_account_by_id s account_id = None)
    by (rewrite Hid; apply find_account_fresh).
  split; [exact Fresh|].
  unfold AccountManager.get_account_by_id in *. rewrite Ha.
  split; [|split; [|split; assumption]].
  - exists code, ty, category. repeat (split; [assumption|]).
    rewrite find_app_none by exact Fresh.
    simpl. rewrite Nat.eqb_refl. reflexivity.
  - intros other N.
    destruct (find (fun a => Nat.eqb (Account.id a) other) (accounts s))
      as [x|] eqn:F.
    + apply find_app_some, F.
    + rewrite find_app_none by exact F.
      simpl. apply Nat.eqb_neq in N. rewrite Nat.eqb_sym, N. reflexivity.
Qed.

Lemma add_account_stores_the_account_witness :
  AccountManager.get_account_by_id (Scenario.with_revenue []) 2
  = Some (Account.mk 2 None "2" "Revenue" "Revenue" general revenue 1
            "Revenue" true 0 0 None) /\
  AccountManager.get_account_by_id (Scenario.with_revenue []) 1
  = AccountManager.get_account_by_id (Scenario.with_cash []) 1.
Proof.
  destruct (add_account_stores_the_account (Scenario.with_cash []) None
              "Revenue" "Revenue" "general" "revenue" 0 None 2
              (Scenario.with_revenue []))
    as (_ & (code & ty & category & Gc & Pt & Pc & G) & O & _).
  - vm_compute. reflexivity.
  - split.
    + rewrite G. revert Gc Pt Pc. vm_compute.
      intros Gc Pt Pc. inversion Gc. inversion Pt. inversion Pc. reflexivity.
    + apply O. discriminate.
Defined.

(** ** The lines of a new entry *)

Lemma insert_lines_rows entry_id created_by lines : forall i s s',
  JournalManager.insert_lines entry_id created_by i lines s = Some s' ->
  accounts s' = accounts s /\
  exists rows,
    journal_lines s' = (journal_lines s ++ rows)%list /\
    map JournalLine.line_number rows = seq i (List.length lines) /\
    map line_dict rows = lines /\
    forall jl, In jl rows -> JournalLine.entry_id jl = entry_id.
Proof.
  induction lines as [|line rest IH]; intros i s s' H; simpl in H.
  - inversion H; subst. split; [reflexivity|]. exists [].
    rewrite app_nil_r. repeat split. intros jl [].
  - destruct (LineDict.account_id line) as [account_id|] eqn:A; [|discriminate].
    destruct (existsb _ _); [discriminate|].
    apply IH in H. simpl in H. destruct H as (Ha & rows & Hl & Hn & Hd & He).
    split; [exact Ha|].
    eexists (_ :: rows). split; [rewrite Hl, <- app_assoc; reflexivity|].
    simpl. rewrite Hn, Hd. split; [reflexivity|]. split.
    + f_equal. unfold line_dict. simpl. rewrite <- A. destruct line; reflexivity.
    + intros jl [<-|Hjl]; [reflexivity|apply He, Hjl].
Qed.

Lemma create_entry_inv s entry_date description lines fiscal_year_id
    created_by now entry_id s' :
  JournalManager.create_entry s entry_date description lines fiscal_year_id
    created_by now = (Some entry_id, s') ->
  JournalManager.validate_entry s lines = valid /\
  entry_id = DatabaseManager.next_rowid (seq_journal_entries s)
               (map JournalEntry.id (journal_entries s)) /\
  exists s1,
    accounts s1 = accounts s /\ journal_lines s1 = journal_lines s /\
    JournalManager.insert_lines entry_id created_by 1 lines s1 = Some s'.
Proof.
  unfold JournalManager.create_entry.
  destruct (JournalManager.validate_entry s lines) eqn:V; [|discriminate].
  intros H. apply transaction_commit in H.
  pose proof (next_fault_tables s) as T. cbv zeta in T.
  destruct T as (Ta & _ & Te & Tl & _ & Tse & _).
  unfold JournalManager.insert_entry in H.
  destruct (existsb _ _); [discriminate|].
  match type of H with
  | match JournalManager.insert_lines ?i ?c 1 lines ?s1 with _ => _ end = _ =>
      destruct (JournalManager.insert_lines i c 1 lines s1) as [s2|] eqn:I;
      [|discriminate]
  end.
  inversion H as [[E1 E2]]. clear H. subst s2.
  split; [reflexivity|]. split; [rewrite Te, Tse; reflexivity|].
  eexists. split; [|split; [|exact I]]; simpl; assumption.
Qed.

Lemma join_lines_with_accounts (rows : list JournalLine.t)
    (accounts0 : list Account.t) :
  NoDup (map Account.id accounts0) ->
  (forall jl, In jl rows ->
     exists a, find (fun x => Nat.eqb (Account.id x) (JournalLine.account_id jl))
                    accounts0 = Some a) ->
  exists joined,
    flat_map
      (fun jl =>
         map (pair jl)
           (filter (fun a => Nat.eqb (JournalLine.account_id jl) (Account.id a))
                   accounts0))
      rows = joined /\
    map fst joined = rows /\
    forall r, In r joined ->
      find (fun x => Nat.eqb (Account.id x) (JournalLine.account_id (fst r)))
           accounts0 = Some (snd r).
Proof.
  intros N. induction rows as [|jl rest IH]; intros H.
  - exists []. repeat split. intros r [].
  - destruct IH as (joined & E & F & G).
    { intros x Hx. apply H. right. exact Hx. }
    destruct (H jl (or_introl eq_refl)) as (a & Fa).
    pose proof Fa as Hin. apply find_some in Hin. destruct Hin as (Hin & Eid).
    apply Nat.eqb_eq in Eid.
    exists ((jl, a) :: joined). simpl.
    rewrite (join_account_in accounts0 N a (JournalLine.account_id jl) Hin)
      by (symmetry; exact Eid).
    simpl. rewrite E, F. repeat split.
    intros r [<-|Hr]; [exact Fa|apply G, Hr].
Qed.

Lemma increasing_numbers_sorted {A : Type} (key : A -> nat) : forall l start,
  map key l = seq start (List.length l) ->
  StronglySorted (fun a b => Nat.leb (key a) (key b) = true) l.
Proof.
  induction l as [|x r IH]; intros start E; [constructor|].
  simpl in E. inversion E as [[Ex Er]].
  constructor; [apply (IH (S (key x))), Er|].
  apply Forall_forall. intros y Hy. apply (in_map key) in Hy.
  rewrite Er in Hy. apply in_seq in Hy. apply Nat.leb_le. lia.
Qed.

(** X23.  [get_entry_lines] of an entry just created returns the lines it was
    created from, in their order, numbered from 1, each with the account it
    names -- provided account ids are unique and no line in the table
    refers to an entry that does not exist. *)
Theorem entry_lines_round_trip s entry_date description lines fiscal_year_id
    created_by now entry_id s' :
  NoDup (map Account.id (accounts s)) ->
  (forall jl, In jl (journal_lines s) ->
     In (JournalLine.entry_id jl) (map JournalEntry.id (journal_entries s))) ->
  JournalManager.create_entry s entry_date description lines fiscal_year_id
    created_by now = (Some entry_id, s') ->
  map (fun r => line_dict (fst r)) (JournalManager.get_entry_lines s' entry_id)
  = lines /\
  map (fun r => JournalLine.line_number (fst r))
      (JournalManager.get_entry_lines s' entry_id)
  = seq 1 (List.length lines) /\
  forall r, In r (JournalManager.get_entry_lines s' entry_id) ->
    AccountManager.get_account_by_id s (JournalLine.account_id (fst r))
    = Some (snd r).
Proof.
  intros N Orphans C. apply create_entry_inv in C.
  destruct C as (V & Hid & s1 & Ha1 & Hl1 & I).
  apply insert_lines_rows in I.
  destruct I as (Ha & rows & Hl & Hn & Hd & He).
  rewrite Ha1 in Ha. rewrite Hl1 in Hl.
  unfold JournalManager.get_entry_lines. rewrite Ha, Hl.
  rewrite filter_app, (filter_none _ (journal_lines s)), (filter_all _ rows).
  2:{ intros jl Hjl. apply Nat.eqb_eq, He, Hjl. }
  2:{ intros jl Hjl. apply Nat.eqb_neq. rewrite Hid.
      apply next_rowid_fresh, Orphans, Hjl. }
  simpl app.
  destruct (join_lines_with_accounts rows (accounts s) N) as (joined & E & F & G).
  { intros jl Hjl.
    apply validate_entry_valid in V. destruct V as (_ & _ & V).
    assert (Hin : In (line_dict jl) lines)
      by (rewrite <- Hd; apply in_map, Hjl).
    apply V, validate_journal_line_valid in Hin.
    destruct Hin as (account_id & account & A & Ga & _).
    simpl in A. inversion A; subst account_id.
    exists account. exact Ga. }
  rewrite E.
  assert (Numbers : map (fun r : JournalLine.t * Account.t =>
                           JournalLine.line_number (fst r)) joined
                    = seq 1 (List.length joined)).
  { rewrite <- (map_map fst JournalLine.line_number), F, Hn.
    rewrite <- (length_map fst joined), F, <- Hd, length_map. reflexivity. }
  rewrite order_by_sorted_id
    by (apply (increasing_numbers_sorted
                 (fun r : JournalLine.t * Account.t =>
                    JournalLine.line_number (fst r)) joined 1), Numbers).
  split; [rewrite <- (map_map fst line_dict), F; exact Hd|].
  split; [rewrite <- (map_map fst JournalLine.line_number), F; exact Hn|].
  exact G.
Qed.

Lemma entry_lines_round_trip_witness :
  map (fun r => line_dict (fst r))
      (JournalManager.get_entry_lines (Scenario.after_create []) 1)
  = Scenario.sale /\
  map (fun r => Account.name_en (snd r))
      (JournalManager.get_entry_lines (Scenario.after_create []) 1)
  = ["Cash"; "Revenue"].
Proof.
  destruct (entry_lines_round_trip (Scenario.with_revenue []) 10 "sale"
              Scenario.sale 1 None 0 1 (Scenario.after_create []))
    as (L & _ & _).
  - vm_compute. repeat constructor; simpl; intuition discriminate.
  - intros jl H. vm_compute in H. destruct H.
  - vm_compute. reflexivity.
  - split; [exact L|vm_compute; reflexivity].
Defined.

(** ** The trial balance and the drafts *)

(** The lines of an account, summed entry by entry. *)
Lemma lines_of_account_by_entry (f : JournalLine.t -> Z) s a :
  consistent s ->
  Sql.sum f (filter (fun jl => Nat.eqb (Account.id a) (JournalLine.account_id jl))
                    (journal_lines s))
  = Sql.sum (fun r => f (snd r))
      (ReportManager.entry_lines_of_account s (Account.id a) (fun _ => true)).
Proof.
  intros C. rewrite entry_lines_sum_cond.
  rewrite (sum_ext_in _
             (fun je => if (fun _ : JournalEntry.t => true) je
                        then Sql.sum
                               (fun jl => if Nat.eqb (Account.id a)
                                               (JournalLine.account_id jl)
                                          then f jl else 0)
                               (filter (fun jl => Nat.eqb (JournalEntry.id je)
                                                    (JournalLine.entry_id jl))
                                       (journal_lines s))
                        else 0)
             (journal_entries s)).
  - rewrite (sum_by_key JournalEntry.id JournalLine.entry_id _ (fun _ => true)
               _ _ (entry_ids_unique s C)).
    rewrite sum_filter. apply sum_ext_in. intros jl Hjl.
    destruct (line_has_entry s C jl Hjl) as (je & Hje & E).
    replace (existsb _ (journal_entries s)) with true; [reflexivity|].
    symmetry. apply existsb_exists. exists je. split; [exact Hje|].
    rewrite E, Nat.eqb_refl. reflexivity.
  - intros je _. cbv beta. rewrite !sum_filter.
    apply sum_ext_in. intros jl _.
    rewrite (Nat.eqb_sym (JournalLine.account_id jl)).
    destruct (Nat.eqb (JournalEntry.id je) (JournalLine.entry_id jl)),
             (Nat.eqb (Account.id a) (JournalLine.account_id jl)); reflexivity.
Qed.

Lemma all_statuses_split st :
  true = JournalManager.posted_or_approved st || EntryStatus_eqb st draft
  /\ JournalManager.posted_or_approved st && EntryStatus_eqb st draft = false.
Proof. destruct st; split; reflexivity. Qed.

(** X24.  Without a fiscal year [get_trial_balance] adds up the lines of every
    entry, drafts included: on whole amounts that add up to less than 2^53,
    which the floats of the code add without rounding in any order, the
    closing balance it shows for an account is the cached balance of the
    account plus what the lines of its draft entries would add. *)
Theorem trial_balance_counts_drafts s row code :
  reachable s ->
  whole_amounts s = true ->
  In row (ReportManager.get_trial_balance s None) ->
  TrialRow.code row = Some code ->
  exists a,
    In a (accounts s) /\ Account.code a = code /\
    TrialRow.closing_balance row = Account.current_balance a + draft_delta s a.
Proof.
  intros R _ Hrow Hc.
  pose proof (reachable_consistent s R) as C.
  unfold ReportManager.get_trial_balance in Hrow. cbv zeta in Hrow.
  apply in_app_or in Hrow. destruct Hrow as [Hrow|[<-|[]]]; [|discriminate].
  apply in_map_iff in Hrow. destruct Hrow as (q & <- & Hq).
  unfold ReportManager.trial_query in Hq.
  apply in_map_iff in Hq. destruct Hq as (a & <- & Ha).
  apply order_by_in, filter_In in Ha. destruct Ha as (Ha & _).
  exists a. split; [exact Ha|].
  simpl in Hc. inversion Hc. split; [reflexivity|].
  unfold ReportManager.trial_row.
  cbn [TrialRow.closing_balance ReportManager.trial_group].
  assert (Sg : (if debit_normal (Account.account_category a)
                then Account.opening_balance a
                     + Sql.sum JournalLine.debit
                         (filter (fun jl => Nat.eqb (Account.id a)
                                              (JournalLine.account_id jl))
                                 (journal_lines s))
                     - Sql.sum JournalLine.credit
                         (filter (fun jl => Nat.eqb (Account.id a)
                                              (JournalLine.account_id jl))
                                 (journal_lines s))
                else Account.opening_balance a
                     - Sql.sum JournalLine.debit
                         (filter (fun jl => Nat.eqb (Account.id a)
                                              (JournalLine.account_id jl))
                                 (journal_lines s))
                     + Sql.sum JournalLine.credit
                         (filter (fun jl => Nat.eqb (Account.id a)
                                              (JournalLine.account_id jl))
                                 (journal_lines s)))
               = Account.opening_balance a
                 + Sql.sum (signed_amount (Account.account_category a))
                     (filter (fun jl => Nat.eqb (Account.id a)
                                          (JournalLine.account_id jl))
                             (journal_lines s))).
  { unfold signed_amount. destruct (debit_normal (Account.account_category a)).
    - rewrite (sum_minus JournalLine.debit JournalLine.credit). lia.
    - rewrite (sum_minus JournalLine.credit JournalLine.debit). lia. }
  rewrite Sg, (lines_of_account_by_entry _ s a C), (cache_is_sum s C a Ha).
  rewrite <- Z.add_assoc. f_equal. unfold cached_delta, draft_delta.
  symmetry.
  apply (entry_lines_sum_split (signed_amount (Account.account_category a))
           s (Account.id a)).
  - intros je. apply all_statuses_split.
  - intros je. apply all_statuses_split.
Qed.

Lemma after_create_reachable : reachable (Scenario.after_create []).
Proof.
  eapply reach_create_entry with (lines := Scenario.sale)
    (entry_date := 10%nat) (description := "sale") (fiscal_year_id := 1%nat)
    (created_by := None) (now := 0%nat) (entry_id := 1%nat).
  - eapply reach_add_account with (parent_id := None) (name_ar := "Revenue")
      (name_en := "Revenue") (account_type := "general")
      (account_category := "revenue") (opening_balance := 0)
      (created_by := None) (account_id := 2%nat).
    + eapply reach_add_account with (parent_id := None) (name_ar := "Cash")
        (name_en := "Cash") (account_type := "assistant")
        (account_category := "asset") (opening_balance := 500000)
        (created_by := None) (account_id := 1%nat).
      * apply (reach_new [Scenario.fy2024] []).
      * vm_compute; reflexivity.
    + vm_compute; reflexivity.
  - vm_compute; reflexivity.
Qed.

Lemma trial_balance_counts_drafts_witness :
  exists row cash,
    In row (ReportManager.get_trial_balance (Scenario.after_create []) None) /\
    In cash (accounts (Scenario.after_create [])) /\
    Account.code cash = "1" /\
    Account.current_balance cash = 500000 /\
    TrialRow.closing_balance row = 600000 /\
    TrialRow.closing_balance row
    = Account.current_balance cash + draft_delta (Scenario.after_create []) cash.
Proof.
  assert (H : exists row,
            In row (ReportManager.get_trial_balance (Scenario.after_create []) None)
            /\ TrialRow.code row = Some "1"
            /\ TrialRow.closing_balance row = 600000).
  { eexists. vm_compute. split; [left; reflexivity|]. split; reflexivity. }
  destruct H as (row & Hin & Hc & Hb).
  destruct (trial_balance_counts_drafts (Scenario.after_create []) row "1"
              after_create_reachable eq_refl Hin Hc) as (a & Ha & Ec & E).
  exists row, a. split; [exact Hin|]. split; [exact Ha|]. split; [exact Ec|].
  split; [|split; [exact Hb|exact E]].
  revert Ha Ec. vm_compute.
  intros [<-|[<-|[]]] Ec; [reflexivity|discriminate].
Defined.

(** ** Deleting an account without force *)

Lemma filter_negb_other id other rows :
  other <> id ->
  find (fun a => Nat.eqb (Account.id a) other)
       (filter (fun a => negb (Nat.eqb (Account.id a) id)) rows)
  = find (fun a => Nat.eqb (Account.id a) other) rows.
Proof.
  intros N. apply find_filter_implied. intros a E.
  apply Nat.eqb_eq in E. apply negb_true_iff, Nat.eqb_neq. congruence.
Qed.

Lemma db_delete_account_rows id s n s' :
  DatabaseManager.delete_account id s = (Some n, s') ->
  accounts s' = filter (fun a => negb (Nat.eqb (Account.id a) id)) (accounts s).
Proof.
  unfold DatabaseManager.delete_account. intros H.
  apply transaction_commit in H.
  pose proof (next_fault_tables s) as T. cbv zeta in T.
  destruct T as (Ta & _). inversion H. simpl. rewrite Ta. reflexivity.
Qed.

(** X25.  [delete_account] without [force] deletes exactly one account, and only
    one that has no active child and that no journal line names: the row is
    gone, every other account and the journal are as before.  Such an
    account is deleted whenever the storage does not raise, and an account
    with an active child is refused. *)
Theorem delete_account_removes_a_leaf depth s account_id :
  (forall s',
     AccountManager.delete_account depth s account_id false = (true, s') ->
     AccountManager.get_child_accounts s account_id = [] /\
     AccountManager._has_journal_entries s account_id = false /\
     AccountManager.get_account_by_id s' account_id = None /\
     (forall other, other <> account_id ->
        AccountManager.get_account_by_id s' other
        = AccountManager.get_account_by_id s other) /\
     journal_entries s' = journal_entries s /\
     journal_lines s' = journal_lines s)
  /\
  (forall account,
     AccountManager.get_account_by_id s account_id = Some account ->
     AccountManager.get_child_accounts s account_id = [] ->
     AccountManager._has_journal_entries s account_id = false ->
     hd false (faults s) = false ->
     exists s',
       AccountManager.delete_account (S depth) s account_id false = (true, s'))
  /\
  (AccountManager.get_child_accounts s account_id <> [] ->
   AccountManager.delete_account depth s account_id false = (false, s)).
Proof.
  split; [|split].
  - intros s' H.
    pose proof (delete_account_journal depth s account_id false) as J.
    rewrite H in J. simpl in J.
    destruct depth as [|depth]; simpl in H; [discriminate|].
    destruct (AccountManager.get_account_by_id s account_id) as [account|] eqn:G;
      [|discriminate].
    unfold AccountManager._validate_account_deletion in H.
    destruct (AccountManager.get_child_accounts s account_id) eqn:Ch;
      simpl in H; [|discriminate].
    destruct (AccountManager._has_journal_entries s account_id) eqn:He;
      simpl in H; [discriminate|].
    destruct (DatabaseManager.delete_account account_id s) as [[n|] s1] eqn:D;
      [|discriminate].
    inversion H; subst s1. apply db_delete_account_rows in D.
    split; [reflexivity|]. split; [reflexivity|].
    unfold AccountManager.get_account_by_id. rewrite D.
    split; [apply find_filter_negb_id|].
    split; [intros other N; apply filter_negb_other, N|exact J].
  - intros account G Ch He F. simpl. rewrite G.
    unfold AccountManager._validate_account_deletion. rewrite Ch, He. simpl.
    unfold DatabaseManager.delete_account.
    rewrite transaction_no_fault by exact F.
    pose proof (next_fault_tables s) as T. cbv zeta in T.
    destruct T as (Ta & _). rewrite Ta.
    pose proof (find_some_count _ _ _ G) as Pos. apply Nat.ltb_lt in Pos.
    rewrite Pos. eexists. reflexivity.
  - intros Ch. destruct depth as [|depth]; simpl; [reflexivity|].
    destruct (AccountManager.get_account_by_id s account_id); [|reflexivity].
    unfold AccountManager._validate_account_deletion.
    destruct (AccountManager.get_child_accounts s account_id); [congruence|].
    reflexivity.
Qed.

Lemma delete_account_removes_a_leaf_witness :
  exists s',
    AccountManager.delete_account 10 (Scenario.siblings 2) 3 false = (true, s') /\
    map Account.code (accounts s') = ["1"; "101"] /\
    AccountManager.delete_account 10 (Scenario.siblings 2) 1 false
    = (false, Scenario.siblings 2).
Proof.
  destruct (proj1 (proj2 (delete_account_removes_a_leaf 9 (Scenario.siblings 2) 3))
              (Account.mk 3 (Some 1%nat) "102" "Child 2" "Child 2" analytic asset
                 2 "Root 1 > Child 2" true 0 0 None))
    as (s' & D).
  - vm_compute. reflexivity.
  - vm_compute. reflexivity.
  - vm_compute. reflexivity.
  - reflexivity.
  - exists s'. split; [exact D|]. split.
    + revert D. vm_compute. intros D. inversion D. reflexivity.
    + apply (proj2 (proj2 (delete_account_removes_a_leaf 10
                             (Scenario.siblings 2) 1))).
      vm_compute. discriminate.
Defined.
